(** * Fidelity: a verification development

  A shallow embedding of the three Python modules of the repository
  ([RequestDelayer.py], [database.py], [fidelity.py]) and the theorems
  that settle the properties stated about them.

  Conventions.
  - A Python [str] is a [string] (a sequence of bytes, the UTF-8 encoding);
    the order [String.leb] is the bytewise lexicographic order, which is
    the order Python uses on [str] and SQLite uses on TEXT values under
    the default BINARY collation.
  - A Python [int] is a [Z]; a Python [float] is a [spec_float] of
    binary64 ([prec = 53], [emax = 1024]).
  - A call that may raise returns a [result]; the exception is a value of
    [exception].
  - A table of the database is the list of its rows in rowid order. *)

From Stdlib Require Import ZArith List String Ascii Bool Lia.
From Stdlib Require Import Sorting.Sorted Sorting.Permutation Sorting.Mergesort.
From Stdlib Require Import Orders Floats.SpecFloat.
Import ListNotations.

#[local] Open Scope string_scope.
#[local] Open Scope Z_scope.

(** ** Python exceptions and the error monad *)

Inductive exception : Type :=
| ValueError
| KeyError
| IndexError
| OverflowError
| FileNotFoundError
| TimeoutException
| WebDriverException
| SystemExit (code : Z)
| CannotFindDateError
| DifferentDateError (fidelityDate todayDate : string)
| CannotMatchFundError (fundName fundLookupID foundFundName : string).

Inductive result (A : Type) : Type :=
| Ok (a : A)
| Raise (e : exception).

Arguments Ok {A} a.
Arguments Raise {A} e.

Definition bind {A B : Type} (r : result A) (k : A -> result B) : result B :=
match r with
| Ok a => k a
| Raise e => Raise e
end.

Notation "x <- r ;; k" := (bind r (fun x => k))
(at level 61, r at next level, right associativity).

(** ** Python strings and dictionaries *)

Module PyStr.

(** [s.split(sep)] for a separator of one character. *)
Fixpoint split (sep : ascii) (s : string) : list string :=
  match s with
  | EmptyString => [EmptyString]
  | String c s' =>
      if Ascii.eqb c sep then EmptyString :: split sep s'
      else match split sep s' with
           | h :: t => String c h :: t
           | [] => [String c EmptyString]
           end
  end.

(** The characters [str.strip()] removes. *)
Definition is_space (c : ascii) : bool :=
  let n := N_of_ascii c in
  ((9 <=? n) && (n <=? 13) || (28 <=? n) && (n <=? 32))%N.

Fixpoint lstrip (cs : list ascii) : list ascii :=
  match cs with
  | c :: cs' => if is_space c then lstrip cs' else cs
  | [] => []
  end.

Definition strip_chars (cs : list ascii) : list ascii :=
  rev (lstrip (rev (lstrip cs))).

(** [s.strip()]. *)
Definition strip (s : string) : string :=
  string_of_list_ascii (strip_chars (list_ascii_of_string s)).

(** [sep.join(parts)]. *)
Definition join (sep : string) (parts : list string) : string :=
  String.concat sep parts.

Definition newline : ascii := ascii_of_N 10.

End PyStr.

(** A [dict] with [str] keys: the items in insertion order; assigning to
    a key that is present keeps its place. *)
Module PyDict.

Definition dict (V : Type) : Type := list (string * V).

Fixpoint get {V : Type} (k : string) (d : dict V) : option V :=
  match d with
  | [] => None
  | (k', v) :: d' => if String.eqb k' k then Some v else get k d'
  end.

Fixpoint set {V : Type} (k : string) (v : V) (d : dict V) : dict V :=
  match d with
  | [] => [(k, v)]
  | (k', v') :: d' =>
      if String.eqb k' k then (k', v) :: d' else (k', v') :: set k v d'
  end.

Definition keys {V : Type} (d : dict V) : list string := map fst d.

End PyDict.

(** ** Calendar dates and their ISO rendering *)

Module Calendar.

Record ymd : Type := mk_ymd { year : Z; month : Z; day : Z }.

Definition is_leap (y : Z) : bool :=
  ((y mod 4 =? 0) && negb (y mod 100 =? 0)) || (y mod 400 =? 0).

Definition days_in_month (y m : Z) : Z :=
  if m =? 2 then (if is_leap y then 29 else 28)
  else if (m =? 4) || (m =? 6) || (m =? 9) || (m =? 11) then 30
  else 31.

(** A date of the proleptic Gregorian calendar with a four-digit year. *)
Definition valid (d : ymd) : Prop :=
  1000 <= year d <= 9999 /\ 1 <= month d <= 12 /\
  1 <= day d <= days_in_month (year d) (month d).

Definition digit (n : Z) : ascii := ascii_of_N (48 + Z.to_N (n mod 10)).

(** The last [width] decimal digits of [n], zero padded. *)
Fixpoint zfill (width : nat) (n : Z) : string :=
  match width with
  | O => EmptyString
  | S w => zfill w (n / 10) ++ String (digit n) EmptyString
  end.

(** [YYYY-MM-DD]: what SQLite's [date()] returns and what
    [strftime("%Y-%m-%d")] prints for a year of four digits. *)
Definition iso (d : ymd) : string :=
  zfill 4 (year d) ++ "-" ++ zfill 2 (month d) ++ "-" ++ zfill 2 (day d).

(** [datetime + timedelta(days=1)]. *)
Definition next_day (d : ymd) : ymd :=
  if day d <? days_in_month (year d) (month d)
  then mk_ymd (year d) (month d) (day d + 1)
  else if month d <? 12
       then mk_ymd (year d) (month d + 1) 1
       else mk_ymd (year d + 1) 1 1.

(** SQLite's modifier ["-1 year"]: the year field is decreased and the
    date renormalised, so 29 February becomes 1 March. *)
Definition minus_1_year (d : ymd) : ymd :=
  let y := year d - 1 in
  if day d <=? days_in_month y (month d)
  then mk_ymd y (month d) (day d)
  else mk_ymd y (month d + 1) (day d - days_in_month y (month d)).

End Calendar.

(** ** database.py *)

Module Database.

Record fund_row : Type := mk_fund
  { fundID : Z; fundName : string; fundLookup : string }.

(** [fundID] of a [dollarChanges] row is nullable: [None] is SQL NULL. *)
Record dollarChange_row : Type := mk_change
  { dollarChangeID : Z; date : string; change_fundID : option Z;
    dollarChange : Z }.

(** The two tables [initializeDB] creates. *)
Record FidelityDB : Type := mk_db
  { funds : list fund_row; dollarChanges : list dollarChange_row }.

Definition initializeDB : FidelityDB := mk_db [] [].

(** The rowid SQLite gives to a row inserted without one: one more than
    the largest in use, 1 in an empty table. *)
Definition next_rowid (ids : list Z) : Z := fold_right Z.max 0 ids + 1.

(** [fundLookup TEXT NOT NULL UNIQUE]: is the code already in the table? *)
Definition registered (fundLookup_ : string) (db : FidelityDB) : bool :=
  existsb (fun r => String.eqb (fundLookup r) fundLookup_) (funds db).

(** [INSERT OR IGNORE INTO funds (fundName, fundLookup) VALUES (?, ?)]:
    a row that would break the UNIQUE constraint is skipped. *)
Definition insertOrIgnoreFund (fundName_ fundLookup_ : string)
  (db : FidelityDB) : FidelityDB :=
  if registered fundLookup_ db then db
  else mk_db
         (funds db ++
            [mk_fund (next_rowid (map fundID (funds db))) fundName_ fundLookup_])
         (dollarChanges db).

(** [executemany] runs the statement once per tuple, in order. *)
Definition insertOrIgnoreFunds (fs : list (string * string))
  (db : FidelityDB) : FidelityDB :=
  fold_left (fun acc nf => insertOrIgnoreFund (fst nf) (snd nf) acc) fs db.

(** [(SELECT fundID FROM funds WHERE fundLookup = ?)] as a scalar
    subquery: the first match, NULL when there is none. *)
Definition select_fundID (fundLookup_ : string) (db : FidelityDB) : option Z :=
  option_map fundID
    (find (fun r => String.eqb (fundLookup r) fundLookup_) (funds db)).

(** The values the sqlite3 module binds to an INTEGER parameter: a Python
    [int] outside the signed 64-bit range raises [OverflowError]. *)
Definition sqlite_int (v : Z) : bool :=
  (- 2 ^ 63 <=? v) && (v <? 2 ^ 63).

(** [date_] is the optional argument; [localtime_today] is what
    [date("now", "localtime")] evaluates to when it is left out. *)
Definition insertDollarChange (localtime_today : Calendar.ymd)
  (fundLookup_ : string) (dollarChange_ : Z) (date_ : option string)
  (db : FidelityDB) : result FidelityDB :=
  if sqlite_int dollarChange_ then
    let d := match date_ with
             | None => Calendar.iso localtime_today
             | Some s => s
             end in
    Ok (mk_db (funds db)
          (dollarChanges db ++
             [mk_change (next_rowid (map dollarChangeID (dollarChanges db)))
                d (select_fundID fundLookup_ db) dollarChange_]))
  else Raise OverflowError.

(** The module constant [INTERVAL = "-1 year"]. *)
Definition INTERVAL : string := "-1 year".

(** [SELECT date("now", "{}").format(INTERVAL)]: the argument is bound
    to a named parameter the statement never mentions. *)
Definition getIntervalToDate (utc_today : Calendar.ymd) (interval : string)
  : string :=
  Calendar.iso (Calendar.minus_1_year utc_today).

(** [ORDER BY date ASC] on (date, dollarChange) pairs.  SQL leaves the
    order among rows of one date open; the sort below fixes one, and
    nothing proved here depends on which. *)
Module DateOrder <: TotalLeBool.
Definition t : Type := (string * Z)%type.
Definition leb (a b : t) : bool := String.leb (fst a) (fst b).
Theorem leb_total : forall a b, leb a b = true \/ leb b a = true.
Proof. intros a b. apply String.leb_total. Qed.
End DateOrder.

Module DateSort := Sort DateOrder.

(** The WHERE clause of the range query.  A comparison with NULL is not
    true, so a row whose fund reference is NULL is never selected. *)
Definition in_range (utc_today : Calendar.ymd) (fid : Z)
  (r : dollarChange_row) : bool :=
  match change_fundID r with
  | Some f => f =? fid
  | None => false
  end
  && String.leb (Calendar.iso (Calendar.minus_1_year utc_today)) (date r)
  && String.leb (date r) (Calendar.iso utc_today).

Definition getDollarChangesIntervalToDateByFund (utc_today : Calendar.ymd)
  (interval : string) (fundLookup_ : string) (db : FidelityDB)
  : list (string * Z) :=
  match select_fundID fundLookup_ db with
  | None => []
  | Some fid =>
      DateSort.sort
        (map (fun r => (date r, dollarChange r))
           (filter (in_range utc_today fid) (dollarChanges db)))
  end.

End Database.

(** ** Python's [float] *)

Module PyFloat.

(** binary64. *)
Definition prec : Z := 53.
Definition emax : Z := 1024.

Definition float : Type := spec_float.

Definition mul (x y : float) : float := SFmul prec emax x y.
Definition div (x y : float) : float := SFdiv prec emax x y.
Definition add (x y : float) : float := SFadd prec emax x y.
Definition sub (x y : float) : float := SFsub prec emax x y.

(** [x < y] and [x <= y]; a comparison with [nan] is false. *)
Definition ltb (x y : float) : bool := SFltb x y.
Definition leb (x y : float) : bool := SFleb x y.

(** [0.0]. *)
Definition zero : float := S754_zero false.

(** The double nearest to [(-1)^s * d * 10^k] (ties to even), for
    [d > 0]: the one correctly rounded operation that [float(str)]
    performs. *)
Definition of_decimal (s : bool) (d : positive) (k : Z) : float :=
  match k with
  | Zneg p => div (S754_finite s d 0) (S754_finite false (10 ^ p)%positive 0)
  | _ => binary_normalize prec emax
           ((if s then Z.neg d else Z.pos d) * 10 ^ k) 0 false
  end.

(** [float(n)] for an [int]: correctly rounded, [OverflowError] when the
    result would not be finite. *)
Definition of_int (n : Z) : result float :=
  match binary_normalize prec emax n 0 false with
  | S754_infinity _ => Raise OverflowError
  | x => Ok x
  end.

(** [int(x)]: truncation towards zero. *)
Definition to_int (x : float) : result Z :=
  match x with
  | S754_zero _ => Ok 0
  | S754_finite s m e =>
      let a := if 0 <=? e then Z.pos m * 2 ^ e else Z.pos m / 2 ^ (- e) in
      Ok (if s then - a else a)
  | S754_infinity _ => Raise OverflowError
  | S754_nan => Raise ValueError
  end.

(** *** [float(str)] *)

Definition is_digit (c : ascii) : bool :=
  let n := N_of_ascii c in ((48 <=? n) && (n <=? 57))%N.

Definition digit_value (c : ascii) : Z := Z.of_N (N_of_ascii c) - 48.

Definition lower (c : ascii) : ascii :=
  let n := N_of_ascii c in
  if ((65 <=? n) && (n <=? 90))%N then ascii_of_N (n + 32) else c.

(** The rest of a run of digits, where single underscores may stand
    between two digits: the value read so far, the number of digits, and
    what is left. *)
Fixpoint digits_tail (cs : list ascii) (acc : Z) (cnt : Z)
  : Z * Z * list ascii :=
  match cs with
  | c :: cs' =>
      if is_digit c then digits_tail cs' (10 * acc + digit_value c) (cnt + 1)
      else if Ascii.eqb c "_" then
        match cs' with
        | d :: cs'' =>
            if is_digit d
            then digits_tail cs'' (10 * acc + digit_value d) (cnt + 1)
            else (acc, cnt, cs)
        | [] => (acc, cnt, cs)
        end
      else (acc, cnt, cs)
  | [] => (acc, cnt, [])
  end.

Definition digitpart (cs : list ascii) (acc : Z)
  : option (Z * Z * list ascii) :=
  match cs with
  | c :: cs' =>
      if is_digit c then Some (digits_tail cs' (10 * acc + digit_value c) 1)
      else None
  | [] => None
  end.

(** The optional exponent and the end of the text. *)
Definition exponent (cs : list ascii) : option Z :=
  match cs with
  | [] => Some 0
  | c :: cs' =>
      if Ascii.eqb (lower c) "e" then
        let '(neg, ds) :=
          match cs' with
          | "-"%char :: r => (true, r)
          | "+"%char :: r => (false, r)
          | _ => (false, cs')
          end in
        match digitpart ds 0 with
        | Some (x, _, []) => Some (if neg then - x else x)
        | _ => None
        end
      else None
  end.

(** The digits of the mantissa as one integer [d] and the power [k] of
    ten that scales it, for a text without sign. *)
Definition decimal (cs : list ascii) : option (Z * Z) :=
  match digitpart cs 0 with
  | Some (i, _, "."%char :: r) =>
      match digitpart r i with
      | Some (d, n, r') => option_map (fun x => (d, x - n)) (exponent r')
      | None => option_map (fun x => (i, x)) (exponent r)
      end
  | Some (i, _, r) => option_map (fun x => (i, x)) (exponent r)
  | None =>
      match cs with
      | "."%char :: r =>
          match digitpart r 0 with
          | Some (d, n, r') => option_map (fun x => (d, x - n)) (exponent r')
          | None => None
          end
      | _ => None
      end
  end.

(** The characters [float()] skips before and after the number of an
    ASCII text: tab, line feed, vertical tab, form feed, carriage return
    and space. *)
Definition is_space (c : ascii) : bool :=
  let n := N_of_ascii c in
  ((9 <=? n) && (n <=? 13) || (n =? 32))%N.

Fixpoint lstrip (cs : list ascii) : list ascii :=
  match cs with
  | c :: cs' => if is_space c then lstrip cs' else cs
  | [] => []
  end.

Definition strip_chars (cs : list ascii) : list ascii :=
  rev (lstrip (rev (lstrip cs))).

(** [float(text)] for a text of ASCII characters: the sign, [inf],
    [infinity] and [nan] in any case, or a decimal number, which may hold
    single underscores between digits; anything else is a [ValueError]. *)
Definition of_str (text : string) : result float :=
  let cs := strip_chars (list_ascii_of_string text) in
  let '(neg, body) :=
    match cs with
    | "-"%char :: r => (true, r)
    | "+"%char :: r => (false, r)
    | _ => (false, cs)
    end in
  let word := string_of_list_ascii (map lower body) in
  if String.eqb word "inf" || String.eqb word "infinity"
  then Ok (S754_infinity neg)
  else if String.eqb word "nan" then Ok S754_nan
  else match decimal body with
       | Some (Z.pos d, k) => Ok (of_decimal neg d k)
       | Some (_, _) => Ok (S754_zero neg)
       | None => Raise ValueError
       end.

(** *** [repr(float)], which is [str(float)]

    The shortest decimal that [float(str)] maps back to the same double
    and, among the decimals of that length, the one nearest to it. *)

(** The number of decimal digits of [q >= 1]. *)
Fixpoint count_digits (fuel : nat) (q : Z) : Z :=
  match fuel with
  | O => 0
  | S f => if q <? 10 then 1 else 1 + count_digits f (q / 10)
  end.

(** The least [j >= 1] with [num * 10^j >= den], for [0 < num < den]. *)
Fixpoint leading_zeros (fuel : nat) (num den : Z) : Z :=
  match fuel with
  | O => 0
  | S f => if den <=? num * 10 then 1 else 1 + leading_zeros f (num * 10) den
  end.

(** [floor (log10 (num / den))] for positive [num] and [den]. *)
Definition floor_log10 (num den : Z) : Z :=
  if den <=? num
  then count_digits (S (Z.to_nat (Z.log2 num))) (num / den) - 1
  else - leading_zeros (S (Z.to_nat (Z.log2 den))) num den.

(** The decimal of [n] significant digits nearest to [num / den] that
    reads back as [x]: its digits as an integer and the power of ten of
    its last digit. *)
Definition candidate (x : float) (num den : Z) (n : Z) : option (Z * Z) :=
  let scale := floor_log10 num den - n + 1 in
  let '(top, base) :=
    if 0 <=? scale then (num, den * 10 ^ scale)
    else (num * 10 ^ (- scale), den) in
  let lo := top / base in
  let r := top mod base in
  let reads_back (d : Z) : bool :=
    match d with
    | Z.pos p => SFeqb (of_decimal false p scale) x
    | _ => false
    end in
  let lo_first :=
    match 2 * r ?= base with
    | Lt => true
    | Eq => Z.even lo
    | Gt => false
    end in
  let '(first, second) := if lo_first then (lo, lo + 1) else (lo + 1, lo) in
  if reads_back first then Some (first, scale)
  else if reads_back second then Some (second, scale)
  else None.

Fixpoint shortest (x : float) (num den : Z) (ns : list Z) : Z * Z :=
  match ns with
  | [] => (0, 0)
  | n :: ns' =>
      match candidate x num den n with
      | Some ds => ds
      | None => shortest x num den ns'
      end
  end.

Fixpoint strip_zeros (fuel : nat) (d scale : Z) : Z * Z :=
  match fuel with
  | O => (d, scale)
  | S f => if (d mod 10 =? 0) && negb (d =? 0)
           then strip_zeros f (d / 10) (scale + 1)
           else (d, scale)
  end.

(** The decimal digits of [n >= 0], most significant first. *)
Fixpoint digits_of (fuel : nat) (n : Z) (acc : string) : string :=
  match fuel with
  | O => acc
  | S f =>
      let acc' := String (Calendar.digit n) acc in
      if n <? 10 then acc' else digits_of f (n / 10) acc'
  end.

Definition str_of_nonneg (n : Z) : string :=
  digits_of (S (Z.to_nat (Z.log2 n))) n EmptyString.

Fixpoint zeros (n : nat) : string :=
  match n with
  | O => EmptyString
  | S n' => String "0" (zeros n')
  end.

(** The digits [ds] with the decimal point after the first [decpt] of
    them, in the layout of [repr]: positional for [-4 < decpt <= 16],
    with an exponent otherwise. *)
Definition layout (ds : string) (decpt : Z) : string :=
  let nd := Z.of_nat (String.length ds) in
  if (-4 <? decpt) && (decpt <=? 16) then
    if decpt <=? 0 then "0." ++ zeros (Z.to_nat (- decpt)) ++ ds
    else if nd <=? decpt then ds ++ zeros (Z.to_nat (decpt - nd)) ++ ".0"
    else substring 0 (Z.to_nat decpt) ds ++ "." ++
         substring (Z.to_nat decpt) (Z.to_nat (nd - decpt)) ds
  else
    let x := decpt - 1 in
    let xs := str_of_nonneg (Z.abs x) in
    substring 0 1 ds ++
    (if 1 <? nd then "." ++ substring 1 (Z.to_nat (nd - 1)) ds else "") ++
    "e" ++ (if x <? 0 then "-" else "+") ++
    (if Z.abs x <? 10 then "0" else "") ++ xs.

Definition repr (x : float) : string :=
  match x with
  | S754_nan => "nan"
  | S754_infinity s => if s then "-inf" else "inf"
  | S754_zero s => if s then "-0.0" else "0.0"
  | S754_finite s m e =>
      let '(num, den) :=
        if 0 <=? e then (Z.pos m * 2 ^ e, 1) else (Z.pos m, 2 ^ (- e)) in
      let '(d, scale) :=
        shortest (S754_finite false m e) num den
          [1; 2; 3; 4; 5; 6; 7; 8; 9; 10; 11; 12; 13; 14; 15; 16; 17] in
      let '(d', scale') := strip_zeros 17 d scale in
      let ds := str_of_nonneg d' in
      (if s then "-" else "") ++
      layout ds (Z.of_nat (String.length ds) + scale')
  end.

End PyFloat.

(** ** [RequestDelayer.py] *)

Module RequestDelayer.

(** Times and durations are seconds and are binary64 values:
    [time.time()] returns a [float], [lastRequest] starts as [0.0], and
    the sums and differences of [wrapper] are float operations.  A delay
    given as an [int], as [DELAY = 3] is, enters them as the [float] of
    the same value. *)
Record t : Type := mk { delay : PyFloat.float; lastRequest : PyFloat.float }.

(** [__init__]. *)
Definition init (delay_ : PyFloat.float) : t := mk delay_ PyFloat.zero.

(** The body of the [with self.delayLock] block of [wrapper], given the
    value [current] that [time.time()] returned: the duration passed to
    [time.sleep] ([None] when the block does not sleep) and the object
    after the assignment to [self.lastRequest]. *)
Definition throttle (self : t) (current : PyFloat.float)
  : option PyFloat.float * t :=
  let wait := PyFloat.sub (PyFloat.add (lastRequest self) (delay self)) current in
  if PyFloat.ltb PyFloat.zero wait
  then (Some wait, mk (delay self) (PyFloat.add current wait))
  else (None, mk (delay self) current).

(** What an observer who reads the same clock records of one call of
    [wrapper]: the value [time.time()] returned under the lock, the
    clock when the lock is released (after the sleep, if any) and the
    clock when the wrapped [function] is called, which the source does
    after the [with] block. *)
Record invocation : Type := mk_invocation
  { current : PyFloat.float; released : PyFloat.float; started : PyFloat.float }.

(** An ordinary run of the calls of a limiter, in the order in which
    they take the lock: the clock is not set back; [time.sleep(wait)]
    suspends for at least [wait] seconds and may take longer; the lock is
    taken after the previous holder released it; the wrapped action
    begins after the lock is released. *)
Fixpoint admissible (self : t) (free_at : PyFloat.float)
  (calls : list invocation) : Prop :=
  match calls with
  | [] => True
  | c :: rest =>
      PyFloat.leb free_at (current c) = true /\
      match fst (throttle self (current c)) with
      | Some wait => PyFloat.leb (PyFloat.add (current c) wait) (released c) = true
      | None => PyFloat.leb (current c) (released c) = true
      end /\
      PyFloat.leb (released c) (started c) = true /\
      admissible (snd (throttle self (current c))) (released c) rest
  end.

(** The limiter after each call of the sequence. *)
Fixpoint states (self : t) (calls : list invocation) : list t :=
  match calls with
  | [] => []
  | c :: rest =>
      let self' := snd (throttle self (current c)) in
      self' :: states self' rest
  end.

(** The durations the calls of the sequence pass to [time.sleep]. *)
Fixpoint sleeps (self : t) (calls : list invocation)
  : list (option PyFloat.float) :=
  match calls with
  | [] => []
  | c :: rest =>
      fst (throttle self (current c)) ::
      sleeps (snd (throttle self (current c))) rest
  end.

(** Successive starts are at least [d] apart. *)
Fixpoint starts_separated (d : PyFloat.float) (calls : list invocation) : Prop :=
  match calls with
  | c1 :: rest =>
      match rest with
      | c2 :: _ => PyFloat.leb d (PyFloat.sub (started c2) (started c1)) = true
      | [] => True
      end /\ starts_separated d rest
  | [] => True
  end.

End RequestDelayer.

(** ** fidelity.py *)

Module Fidelity.

Import PyDict.

Definition DEFAULT_OUTPUT_FILE_NAME : string := "ETFs.csv".
Definition MIN_POSITIONAL_ARGS : Z := 2.
Definition DEBUG_LOGGER : bool := true.
Definition INTERVAL_RANGE : string := "-1 year".
Definition MAX_RETRIES : nat := 3.
Definition SIGNIFICANT_DIGITS_MULTIPLIER : Z := 10000.

Definition MONTH_NAME_TO_NUM : dict string :=
  [ ("Jan", "01"); ("Feb", "02"); ("Mar", "03"); ("Apr", "04");
    ("May", "05"); ("Jun", "06"); ("Jul", "07"); ("Aug", "08");
    ("Sep", "09"); ("Oct", "10"); ("Nov", "11"); ("Dec", "12") ].

Definition nl : string := String PyStr.newline EmptyString.

(** The [message] attribute of the three [FidelityError] classes. *)
Definition message (e : exception) : string :=
  match e with
  | CannotFindDateError => "Cannot find date on Fidelity website"
  | DifferentDateError fidelityDate todayDate =>
      "Different dates. Fidelity's date: " ++ fidelityDate ++
      "; Today's date: " ++ todayDate
  | CannotMatchFundError fundName fundLookupID foundFundName =>
      "Fund name provided does not match what was searched. Fund name: " ++
      fundName ++ "; Fund look-up ID: " ++ fundLookupID ++ "; Found: " ++
      foundFundName
  | _ => ""
  end.

(** The tuple assignment raises [ValueError] unless the split gives three
    parts; the subscript raises [KeyError] for an unknown month. *)
Definition fidelityDateToYYYY_MM_DD (fidelityDate : string) : result string :=
  match PyStr.split "-" fidelityDate with
  | [day; month; year] =>
      match get month MONTH_NAME_TO_NUM with
      | Some m => Ok (year ++ "-" ++ m ++ "-" ++ day)
      | None => Raise KeyError
      end
  | _ => Raise ValueError
  end.

(** *** [incrementDate] *)

Definition in_chars (lo hi : N) (c : ascii) : bool :=
  let n := N_of_ascii c in ((lo <=? n) && (n <=? hi))%N.

(** The field of [%m]: [1[0-2]|0[1-9]|[1-9]]. *)
Definition month_field (s : string) : option Z :=
  match list_ascii_of_string s with
  | [a; b] =>
      if (Ascii.eqb a "1" && in_chars 48 50 b) ||
         (Ascii.eqb a "0" && in_chars 49 57 b)
      then Some (10 * PyFloat.digit_value a + PyFloat.digit_value b)
      else None
  | [a] => if in_chars 49 57 a then Some (PyFloat.digit_value a) else None
  | _ => None
  end.

(** The field of [%d]: [3[0-1]|[1-2]\d|0[1-9]|[1-9]| [1-9]]. *)
Definition day_field (s : string) : option Z :=
  match list_ascii_of_string s with
  | [a; b] =>
      if (Ascii.eqb a "3" && in_chars 48 49 b) ||
         (in_chars 49 50 a && in_chars 48 57 b) ||
         (Ascii.eqb a "0" && in_chars 49 57 b)
      then Some (10 * PyFloat.digit_value a + PyFloat.digit_value b)
      else if Ascii.eqb a " " && in_chars 49 57 b
           then Some (PyFloat.digit_value b)
           else None
  | [a] => if in_chars 49 57 a then Some (PyFloat.digit_value a) else None
  | _ => None
  end.

(** The field of [%Y]: four digits. *)
Definition year_field (s : string) : option Z :=
  match list_ascii_of_string s with
  | [a; b; c; d] =>
      if forallb PyFloat.is_digit [a; b; c; d]
      then Some (fold_left (fun acc x => 10 * acc + PyFloat.digit_value x)
                   [a; b; c; d] 0)
      else None
  | _ => None
  end.

(** [datetime.strptime(date, "%Y-%m-%d")], ASCII digits only: the three
    fields, which hold no hyphen, and then the check that the day exists.
    [datetime] has no year 0. *)
Definition strptime (date : string) : result Calendar.ymd :=
  match PyStr.split "-" date with
  | [y; m; d] =>
      match year_field y, month_field m, day_field d with
      | Some Y, Some M, Some D =>
          if (1 <=? Y) && (D <=? Calendar.days_in_month Y M)
          then Ok (Calendar.mk_ymd Y M D)
          else Raise ValueError
      | _, _, _ => Raise ValueError
      end
  | _ => Raise ValueError
  end.

(** The last day of [datetime] has no successor. *)
Definition incrementDate (date : string) : result string :=
  dt <- strptime date ;;
  if (Calendar.year dt =? 9999) && (Calendar.month dt =? 12) &&
     (Calendar.day dt =? 31)
  then Raise OverflowError
  else Ok (Calendar.iso (Calendar.next_day dt)).

(** *** The site as the scraper sees it *)

(** What the browser shows after one search: the text of the
    [fund_name] element and the texts of the [numeric] elements, or the
    exception Selenium raises on the way. *)
Inductive page : Type :=
| Shown (fund_name_text : string) (numerics : result (list string))
| Failed (e : exception).

(** Everything a run of [main] reads from outside.
    - [TODAY]: the module constant, the local date at import.
    - [manifest]: the lines of [argv[1]] as [readline] and [readlines]
      return them, or what [open] raises.
    - [price_date]: the stripped, non-empty text of the [AG_price_date]
      element, or what the wait for it raises.
    - [pages n]: what the browser shows on the call number [n] of
      [getFundDollarChange], counted from 0.
    - [utc_today], [localtime_today]: the dates SQLite computes from
      ["now"] with and without ["localtime"].
    - [database]: the content of [funds.db] when the run begins. *)
Record World : Type := mk_world
  { argv : list string;
    TODAY : string;
    manifest : result (list string);
    price_date : result string;
    pages : nat -> page;
    utc_today : Calendar.ymd;
    localtime_today : Calendar.ymd;
    database : Database.FidelityDB }.

(** [10000] as the [float] the product and the quotient convert it to. *)
Definition multiplier : PyFloat.float :=
  binary_normalize PyFloat.prec PyFloat.emax SIGNIFICANT_DIGITS_MULTIPLIER 0 false.

(** [text.split('\n', 1)[0]]. *)
Definition first_line (text : string) : string :=
  hd EmptyString (PyStr.split PyStr.newline text).

(** [int(float(numerics[1].text) * SIGNIFICANT_DIGITS_MULTIPLIER)]. *)
Definition scaled (text : string) : result Z :=
  x <- PyFloat.of_str text ;;
  PyFloat.to_int (PyFloat.mul x multiplier).

(** The body of [getFundDollarChange] on the page the search brought up
    (the delay of the decorator changes when it runs, not what it
    returns). *)
Definition getFundDollarChange (p : page) (fundName fundLookupID : string)
  : result Z :=
  match p with
  | Failed e => Raise e
  | Shown fund_name_text numerics =>
      let foundFundName := first_line fund_name_text in
      if negb (String.eqb fundName foundFundName)
      then Raise (CannotMatchFundError fundName fundLookupID foundFundName)
      else
        texts <- numerics ;;
        match nth_error texts 1 with
        | Some text => scaled text
        | None => Raise IndexError
        end
  end.

(** [FidelityScraper.__init__]: the price date of the session. *)
Definition FidelityScraper (w : World) : result string :=
  match price_date w with
  | Raise TimeoutException => Raise CannotFindDateError
  | Raise e => Raise e
  | Ok text =>
      priceDate <- fidelityDateToYYYY_MM_DD text ;;
      if negb (String.eqb priceDate (TODAY w))
      then Raise (DifferentDateError priceDate (TODAY w))
      else Ok priceDate
  end.

(** *** [main] *)

(** What a run changes: the database, the text written to standard
    error, the output file (its name and the strings written to it, once
    it is opened), the log file, and the number of searches made.  The
    progress marks on standard output are left out. *)
Record state : Type := mk_state
  { db : Database.FidelityDB;
    stderr : list string;
    report : option (string * list string);
    log : option (list string);
    calls : nat }.

(** A computation of [main]: it may raise, and it keeps the state it
    reached when it does. *)
Definition M (A : Type) : Type := state -> result A * state.

Definition ret {A : Type} (a : A) : M A := fun st => (Ok a, st).

Definition raise {A : Type} (e : exception) : M A := fun st => (Raise e, st).

Definition lift {A : Type} (r : result A) : M A := fun st => (r, st).

Definition bindM {A B : Type} (m : M A) (k : A -> M B) : M B :=
  fun st =>
    match m st with
    | (Ok a, st') => k a st'
    | (Raise e, st') => (Raise e, st')
    end.

Notation "x <~ m ;; k" := (bindM m (fun x => k))
  (at level 61, m at next level, right associativity).

Definition write_stderr (text : string) : M unit :=
  fun st => (Ok tt, mk_state (db st) (stderr st ++ [text]) (report st)
                      (log st) (calls st)).

(** [with open(LOGGING_FILE, 'w') as o], one [o.write] per string. *)
Definition write_log (texts : list string) : M unit :=
  fun st => (Ok tt, mk_state (db st) (stderr st) (report st)
                      (if DEBUG_LOGGER then Some texts else log st) (calls st)).

Definition set_db (db' : Database.FidelityDB) (st : state) : state :=
  mk_state db' (stderr st) (report st) (log st) (calls st).

Definition set_report (path : string) (texts : list string) (st : state) : state :=
  mk_state (db st) (stderr st) (Some (path, texts)) (log st) (calls st).

Definition count_call (st : state) : state :=
  mk_state (db st) (stderr st) (report st) (log st) (S (calls st)).

(** The loop over the lines after the header. *)
Fixpoint parse_lines (lines : list string) (funds simplifiedNames : dict string)
  (fundIDs : list string) : result (dict string * dict string * list string) :=
  match lines with
  | [] => Ok (funds, simplifiedNames, fundIDs)
  | l :: rest =>
      match PyStr.split "," l with
      | [name; lookupID; simplifiedName] =>
          let simplifiedName := PyStr.strip simplifiedName in
          parse_lines rest
            (set lookupID name funds)
            (set lookupID
               (if String.eqb simplifiedName "" then name else simplifiedName)
               simplifiedNames)
            (fundIDs ++ [lookupID])
      | _ => Raise ValueError
      end
  end.

(** The [try] around [FidelityScraper()] with its two [except] clauses. *)
Definition open_session (w : World) : M string :=
  let ran := hd EmptyString (argv w) ++ " ran; Error:" ++ nl in
  match FidelityScraper w with
  | Ok priceDate => ret priceDate
  | Raise CannotFindDateError =>
      _ <~ write_log [ran; message CannotFindDateError ++ nl] ;;
      _ <~ write_stderr (message CannotFindDateError ++ nl) ;;
      raise (SystemExit (-2))
  | Raise (DifferentDateError a b) =>
      _ <~ write_log [ran; message (DifferentDateError a b) ++ nl] ;;
      _ <~ write_stderr (message (DifferentDateError a b) ++ nl) ;;
      raise (SystemExit (-3))
  | Raise e => raise e
  end.

(** [for tries in range(MAX_RETRIES)] for one fund; [range] is what is
    left of [range(MAX_RETRIES)].  [SystemExit] is not an [Exception]. *)
Fixpoint retry (w : World) (range : list nat) (name lookupID : string)
  (dollarChanges : dict Z) : M (dict Z) :=
  match range with
  | [] => ret dollarChanges
  | tries :: rest =>
      fun st =>
        let st1 := count_call st in
        match getFundDollarChange (pages w (calls st)) name lookupID with
        | Ok v => (Ok (set lookupID v dollarChanges), st1)
        | Raise (CannotMatchFundError a b c) =>
            if (tries + 1 <? MAX_RETRIES)%nat
            then retry w rest name lookupID dollarChanges st1
            else (_ <~ write_stderr
                         ("Error: " ++ message (CannotMatchFundError a b c) ++ nl) ;;
                  retry w rest name lookupID dollarChanges) st1
        | Raise (SystemExit c) => (Raise (SystemExit c), st1)
        | Raise e =>
            if (tries + 1 <? MAX_RETRIES)%nat
            then retry w rest name lookupID dollarChanges st1
            else (Raise e, st1)
        end
  end.

(** [for lookupID,name in funds.items()]. *)
Fixpoint fetch_all (w : World) (items : list (string * string))
  (dollarChanges : dict Z) : M (dict Z) :=
  match items with
  | [] => ret dollarChanges
  | (lookupID, name) :: rest =>
      dollarChanges' <~ retry w (seq 0 MAX_RETRIES) name lookupID dollarChanges ;;
      fetch_all w rest dollarChanges'
  end.

(** [for lookup,dollarChange in dollarChanges.items()]; every insertion
    commits, so the rows stored before an exception stay. *)
Fixpoint insert_changes (w : World) (items : list (string * Z)) : M unit :=
  match items with
  | [] => ret tt
  | (lookup, dollarChange) :: rest =>
      fun st =>
        match Database.insertDollarChange (localtime_today w) lookup
                dollarChange (Some (TODAY w)) (db st) with
        | Ok db' => insert_changes w rest (set_db db' st)
        | Raise e => (Raise e, st)
        end
  end.

(** [{date: float(dollarChange) for date,dollarChange in temp}]. *)
Fixpoint float_dict (temp : list (string * Z)) (acc : dict PyFloat.float)
  : result (dict PyFloat.float) :=
  match temp with
  | [] => Ok acc
  | (date, dollarChange) :: rest =>
      x <- PyFloat.of_int dollarChange ;;
      float_dict rest (set date x acc)
  end.

(** [for lookupID in funds.keys()]. *)
Fixpoint query_all (w : World) (db_ : Database.FidelityDB)
  (lookupIDs : list string) (data : dict (dict PyFloat.float))
  : result (dict (dict PyFloat.float)) :=
  match lookupIDs with
  | [] => Ok data
  | lookupID :: rest =>
      d <- float_dict
             (Database.getDollarChangesIntervalToDateByFund (utc_today w)
                INTERVAL_RANGE lookupID db_) [] ;;
      query_all w db_ rest (set lookupID d data)
  end.

(** The text a fund contributes to the row of a day: the body of the
    [try], [None] when the bare [except] takes over. *)
Definition cell (data : dict (dict PyFloat.float))
  (intervalDate lookupID : string) : option string :=
  match get lookupID data with
  | Some d =>
      match get intervalDate d with
      | Some x => Some (PyFloat.repr (PyFloat.div x multiplier))
      | None => None
      end
  | None => None
  end.

Definition is_some {A : Type} (o : option A) : bool :=
  match o with Some _ => true | None => false end.

Definition text_of (o : option string) : string :=
  match o with Some t => t | None => EmptyString end.

(** One turn of the [while] loop: the line written for the day, if one
    is written. *)
Definition row (data : dict (dict PyFloat.float)) (fundIDs : list string)
  (intervalDate : string) : option string :=
  let temp := map (cell data intervalDate) fundIDs in
  if existsb is_some temp
  then Some (intervalDate ++ "," ++ PyStr.join "," (map text_of temp) ++ nl)
  else None.

(** [while intervalDate <= TODAY]: the lines written and how the loop
    ended, or [None] when [fuel] turns were not enough. *)
Fixpoint write_rows (fuel : nat) (today : string)
  (data : dict (dict PyFloat.float)) (fundIDs : list string)
  (intervalDate : string) : option (list string * result unit) :=
  match fuel with
  | O => None
  | S fuel' =>
      if String.leb intervalDate today then
        let written := match row data fundIDs intervalDate with
                       | Some line => [line]
                       | None => []
                       end in
        match incrementDate intervalDate with
        | Raise e => Some (written, Raise e)
        | Ok next =>
            match write_rows fuel' today data fundIDs next with
            | Some (lines, r) => Some ((written ++ lines)%list, r)
            | None => None
            end
        end
      else Some ([], Ok tt)
  end.

(** ["Date," + ",".join([simplifiedNames[id] for id in fundIDs]) + "\n"]. *)
Fixpoint header_names (simplifiedNames : dict string) (fundIDs : list string)
  : result (list string) :=
  match fundIDs with
  | [] => Ok []
  | id :: rest =>
      match get id simplifiedNames with
      | Some n => ns <- header_names simplifiedNames rest ;; Ok (n :: ns)
      | None => Raise KeyError
      end
  end.

Definition header (simplifiedNames : dict string) (fundIDs : list string)
  : result string :=
  ns <- header_names simplifiedNames fundIDs ;;
  Ok ("Date," ++ PyStr.join "," ns ++ nl).

Definition USAGE (w : World) : string :=
  "python3 " ++ hd EmptyString (argv w) ++ " <funds.csv> [" ++
  DEFAULT_OUTPUT_FILE_NAME ++ "]" ++ nl.

(** [main] up to the point where the output file is opened: the column
    order, the column names, the first day of the report and the data. *)
Definition gather (w : World)
  : M (list string * dict string * string * dict (dict PyFloat.float)) :=
  let argc := Z.of_nat (List.length (argv w)) in
  if argc <? MIN_POSITIONAL_ARGS then
    _ <~ write_stderr ("Not enough arguments given. Expected " ++
                       PyFloat.str_of_nonneg MIN_POSITIONAL_ARGS ++ ", got " ++
                       PyFloat.str_of_nonneg argc ++ nl) ;;
    _ <~ write_stderr (USAGE w) ;;
    raise (SystemExit (-1))
  else
    parsed <~ lift (lines <- manifest w ;; parse_lines (tl lines) [] [] []) ;;
    let '(funds, simplifiedNames, fundIDs) := parsed in
    _ <~ open_session w ;;
    dollarChanges <~ fetch_all w funds [] ;;
    _ <~ (fun st =>
            (Ok tt,
             set_db (Database.insertOrIgnoreFunds
                       (map (fun item => (snd item, fst item)) funds) (db st))
               st)) ;;
    _ <~ insert_changes w dollarChanges ;;
    let intervalDate := Database.getIntervalToDate (utc_today w) INTERVAL_RANGE in
    data <~ (fun st => (query_all w (db st) (keys funds) [], st)) ;;
    ret (fundIDs, simplifiedNames, intervalDate, data).

(** The name of the output file. *)
Definition outputFile (w : World) : string :=
  match argv w with
  | _ :: _ :: name :: _ => name
  | _ => DEFAULT_OUTPUT_FILE_NAME
  end.

(** A run of [main]: how it ended ([SystemExit] with the code given to
    [sys.exit], or the exception nothing caught) and the state it left;
    [None] when [fuel] turns of the report loop were not enough.  The
    output file and the log are taken to open and to accept what is
    written; a run in which they do not is not described. *)
Definition main (fuel : nat) (w : World) : option (exception * state) :=
  match gather w (mk_state (database w) [] None None O) with
  | (Raise e, st) => Some (e, st)
  | (Ok (fundIDs, simplifiedNames, intervalDate, data), st) =>
      match header simplifiedNames fundIDs with
      | Raise e => Some (e, set_report (outputFile w) [] st)
      | Ok h =>
          match write_rows fuel (TODAY w) data fundIDs intervalDate with
          | None => None
          | Some (lines, Raise e) =>
              Some (e, set_report (outputFile w) (h :: lines) st)
          | Some (lines, Ok _) =>
              Some (SystemExit 0,
                    snd (write_log
                           [hd EmptyString (argv w) ++ " ran successfully." ++ nl]
                           (set_report (outputFile w) (h :: lines) st)))
          end
      end
  end.

End Fidelity.

(** * Properties and sample inputs *)

Section Vocabulary.

Import Calendar Database RequestDelayer Fidelity.

(** A freshly initialised database in which one fund was registered. *)
Definition db_one_fund : FidelityDB :=
  insertOrIgnoreFund "Fidelity All-in-One Balanced ETF" "FBAL" initializeDB.

(** Non-strict and strict ascending order of the dates of a result. *)
Definition ascending (res : list (string * Z)) : Prop :=
  StronglySorted (fun a b => String.leb (fst a) (fst b) = true) res.

Definition strictly_ascending (res : list (string * Z)) : Prop :=
  StronglySorted (fun a b => String.ltb (fst a) (fst b) = true) res.

(** The window of the range query, both ends included. *)
Definition in_window (utc_today : Calendar.ymd) (d : string) : Prop :=
  String.leb (Calendar.iso (Calendar.minus_1_year utc_today)) d = true /\
  String.leb d (Calendar.iso utc_today) = true.

(** Two dates on which SQLite is asked for ["now"]. *)
Definition a_friday : Calendar.ymd := Calendar.mk_ymd 2021 9 3.

Definition a_sunday : Calendar.ymd := Calendar.mk_ymd 2021 9 5.

(** The ingestion of one day run twice: the table takes both rows. *)
Definition db_two_runs : result FidelityDB :=
  db1 <- insertDollarChange a_friday "FBAL" 123 (Some "2021-09-03") db_one_fund ;;
  insertDollarChange a_friday "FBAL" 123 (Some "2021-09-03") db1.

(** The double of value [m * 2^e], for values that binary64 holds
    exactly. *)
Definition dyadic (m e : Z) : PyFloat.float :=
  binary_normalize PyFloat.prec PyFloat.emax m e false.

(** A clock reading on the third of September 2021, in whole seconds
    since the epoch, and the delay of [fidelity.py], [DELAY = 3]. *)
Definition noon : Z := 1630670400.

Definition three_seconds : PyFloat.float := dyadic 3 0.

(** Three calls on a limiter of delay 3: the first at [noon], the
    second one second later, whose sleep of 2 seconds ends half a second
    late, the third at [noon + 4], half a second after the action of the
    second began. *)
Definition late_wakeup : list invocation :=
  [ mk_invocation (dyadic noon 0) (dyadic noon 0) (dyadic noon 0);
    mk_invocation (dyadic (noon + 1) 0) (dyadic (2 * noon + 7) (-1))
      (dyadic (2 * noon + 7) (-1));
    mk_invocation (dyadic (noon + 4) 0) (dyadic (noon + 6) 0)
      (dyadic (noon + 6) 0) ].

(** The run gets as far as opening the session: enough arguments and a
    manifest that parses. *)
Definition reaches_session (w : World) : Prop :=
  (2 <= List.length (argv w))%nat /\
  exists parsed,
    (lines <- manifest w ;; parse_lines (tl lines) [] [] []) = Ok parsed.

(** A run on Sunday 5 September 2021: the site still shows the prices
    of the Saturday. *)
Definition sunday_world : World :=
  mk_world ["fidelity.py"; "funds.csv"] "2021-09-05"
    (Ok ["Name,Lookup,Simplified" ++ nl;
         "Fidelity All-in-One Balanced ETF,FBAL,Balanced" ++ nl])
    (Ok "04-Sep-2021")
    (fun _ => Failed WebDriverException)
    (Calendar.mk_ymd 2021 9 5) (Calendar.mk_ymd 2021 9 5)
    db_one_fund.

(** The search number [n] ends in the identity-mismatch error. *)
Definition mismatch (w : World) (n : nat) (name lookupID : string) : Prop :=
  exists a b c,
    getFundDollarChange (pages w n) name lookupID =
    Raise (CannotMatchFundError a b c).

(** A site that shows another fund on the first two searches and on
    every search after the third. *)
Definition flaky_world : World :=
  mk_world ["fidelity.py"; "funds.csv"] "2021-09-03"
    (Ok ["Name,Lookup,Simplified" ++ nl;
         "Fidelity A,FBAL,Balanced" ++ nl; "Fidelity B,FGRO," ++ nl])
    (Ok "03-Sep-2021")
    (fun n => match n with
              | 2%nat => Shown "Fidelity A" (Ok ["10.00"; "0.0123"])
              | _ => Shown "Fidelity Z" (Ok [])
              end)
    (Calendar.mk_ymd 2021 9 3) (Calendar.mk_ymd 2021 9 3)
    db_one_fund.

(** A site that shows another fund on the first three searches and
    the second fund of the manifest, with a delta of [-0.0500], on the
    fourth. *)
Definition stubborn_world : World :=
  mk_world ["fidelity.py"; "funds.csv"] "2021-09-03"
    (Ok ["Name,Lookup,Simplified" ++ nl;
         "Fidelity A,FBAL,Balanced" ++ nl; "Fidelity B,FGRO," ++ nl])
    (Ok "03-Sep-2021")
    (fun n => match n with
              | 3%nat => Shown "Fidelity B" (Ok ["20.00"; "-0.0500"])
              | _ => Shown "Fidelity Z" (Ok [])
              end)
    (Calendar.mk_ymd 2021 9 3) (Calendar.mk_ymd 2021 9 3)
    db_one_fund.

(** The integer that exact scaling by [SIGNIFICANT_DIGITS_MULTIPLIER]
    gives for a decimal text, when that is an integer. *)
Definition exactly_scaled (text : string) : option Z :=
  match PyFloat.decimal (list_ascii_of_string text) with
  | Some (d, k) =>
      if 0 <=? k + 4 then Some (d * 10 ^ (k + 4))
      else if d mod 10 ^ (- (k + 4)) =? 0 then Some (d / 10 ^ (- (k + 4)))
      else None
  | None => None
  end.

(** Two funds; the site shows the delta [0.0123] for the first and
    [0.0003] for the second.  The database is empty but for the schema. *)
Definition two_funds_world : World :=
  mk_world ["fidelity.py"; "funds.csv"] "2021-09-03"
    (Ok ["Name,Lookup,Simplified" ++ nl;
         "Fidelity A,FBAL,Balanced" ++ nl; "Fidelity B,FGRO," ++ nl])
    (Ok "03-Sep-2021")
    (fun n => match n with
              | O => Shown "Fidelity A" (Ok ["10.00"; "0.0123"])
              | _ => Shown "Fidelity B" (Ok ["10.00"; "0.0003"])
              end)
    (Calendar.mk_ymd 2021 9 3) (Calendar.mk_ymd 2021 9 3)
    Database.initializeDB.

(** A string without the separator. *)
Fixpoint free (sep : ascii) (s : string) : bool :=
  match s with
  | EmptyString => true
  | String c s' => negb (Ascii.eqb c sep) && free sep s'
  end.

(** A number that orders the dates as the calendar does. *)
Definition ord (d : ymd) : Z := 372 * year d + 31 * month d + day d.

(** [n] successive days, the first being [d]. *)
Fixpoint days_from (n : nat) (d : ymd) : list ymd :=
  match n with
  | O => []
  | S n' => d :: days_from n' (next_day d)
  end.

(** The lines a day contributes to the report. *)
Definition lines_of_text (data : PyDict.dict (PyDict.dict PyFloat.float))
  (fundIDs : list string) (intervalDate : string) : list string :=
  match row data fundIDs intervalDate with
  | Some line => [line]
  | None => []
  end.

Definition lines_of (data : PyDict.dict (PyDict.dict PyFloat.float))
  (fundIDs : list string) (d : ymd) : list string :=
  lines_of_text data fundIDs (iso d).

(** Every day of the window has a line that begins with its date. *)
Definition dense (lo today : string) (lines : list string) : Prop :=
  forall d, valid d ->
            String.leb lo (iso d) = true -> String.leb (iso d) today = true ->
            exists line, In line lines /\ String.prefix (iso d ++ ",") line = true.

Definition first_of_september : ymd := mk_ymd 2021 9 1.

Definition third_of_september : ymd := mk_ymd 2021 9 3.

(** The constraints of the schema that a database keeps: lookup codes
    and row identifiers are unique, and a fund reference that is not NULL
    names a row of [funds]. *)
Definition well_formed (db : FidelityDB) : Prop :=
  NoDup (map fundLookup (funds db)) /\
  NoDup (map fundID (funds db)) /\
  NoDup (map dollarChangeID (dollarChanges db)) /\
  Forall (fun r => forall f, change_fundID r = Some f ->
                             In f (map fundID (funds db)))
    (dollarChanges db).

(** The order of the calendar on dates. *)
Definition date_le (a b : ymd) : Prop :=
  year a < year b \/
  (year a = year b /\
   (month a < month b \/ (month a = month b /\ day a <= day b))).

(** The name the site prints for a month, by the table of the module. *)
Definition month_name (m : Z) : string :=
  nth (Z.to_nat (m - 1)) (map fst MONTH_NAME_TO_NUM) EmptyString.

(** A date as the site prints it, [DD-Mon-YYYY]. *)
Definition fidelity_text (d : ymd) : string :=
  zfill 2 (day d) ++ "-" ++ month_name (month d) ++ "-" ++ zfill 4 (year d).

(** The second comma-separated field of a line. *)
Definition lookup_of (line : string) : string :=
  nth 1 (PyStr.split "," line) EmptyString.

(** What the loop over the lines keeps true of its three variables. *)
Definition manifest_inv (funds simplifiedNames : PyDict.dict string)
  (fundIDs : list string) : Prop :=
  (forall k, In k (PyDict.keys funds) <-> In k fundIDs) /\
  (forall k, In k (PyDict.keys simplifiedNames) <-> In k fundIDs) /\
  NoDup (PyDict.keys funds).

(** The exceptions [except Exception] catches: all of the model but
    [SystemExit]. *)
Definition is_Exception (e : exception) : bool :=
  match e with
  | SystemExit _ => false
  | _ => true
  end.

Definition is_mismatch (e : exception) : bool :=
  match e with
  | CannotMatchFundError _ _ _ => true
  | _ => false
  end.

(** The search number [n] raises something [except Exception] catches. *)
Definition raises_exception (w : World) (n : nat) (name lookupID : string)
  : Prop :=
  exists e, getFundDollarChange (pages w n) name lookupID = Raise e /\
            is_Exception e = true.

(** The state in which [main] starts. *)
Definition initial_state (w : World) : state :=
  mk_state (database w) [] None None O.

(** The manifest of the run, parsed. *)
Definition parsed_manifest (w : World)
  : result (PyDict.dict string * PyDict.dict string * list string) :=
  lines <- manifest w ;; parse_lines (tl lines) [] [] [].

(** A site on which every search fails. *)
Definition broken_site_world : World :=
  mk_world ["fidelity.py"; "funds.csv"] "2021-09-03"
    (Ok ["Name,Lookup,Simplified" ++ nl;
         "Fidelity A,FBAL,Balanced" ++ nl; "Fidelity B,FGRO," ++ nl])
    (Ok "03-Sep-2021")
    (fun _ => Failed WebDriverException)
    (Calendar.mk_ymd 2021 9 3) (Calendar.mk_ymd 2021 9 3)
    db_one_fund.

(** A row that [main] stores: dated today, with a fund reference. *)
Definition stored_today (w : World) (r : dollarChange_row) : Prop :=
  date r = TODAY w /\ change_fundID r <> None.

(** The text that shows [n] ten-thousandths with four decimal digits,
    as [1.2050] shows 12050; with a minus sign when [neg]. *)
Definition fixed_text (neg : bool) (n : Z) : string :=
  (if neg then "-" else "") ++ PyFloat.str_of_nonneg (n / 10000) ++ "." ++
  Calendar.zfill 4 (n mod 10000).

(** [scaled] gives [n] or the unit next to it towards zero, with the
    sign of the text. *)
Definition near (neg : bool) (n : Z) : bool :=
  match scaled (fixed_text neg n) with
  | Ok v =>
      let a := if neg then - v else v in
      (((a =? n) || (a =? n - 1)) && (0 <=? a))%Z
  | Raise _ => false
  end.

(** A database with one fund and two deltas, one inside the window of
    a query made on [a_friday] and one before it. *)
Definition db_two_days : FidelityDB :=
  mk_db (funds db_one_fund)
    [mk_change 1 "2019-01-02" (Some 1) 55; mk_change 2 "2021-09-02" (Some 1) 123].

(** The table holds a delta [v] of the fund for the day: a row dated
    [day] whose fund reference is the id the lookup code resolves to,
    and the day lies in the window of the range query, which ends at
    SQLite's current date. *)
Definition stored (w : World) (db_ : FidelityDB) (lookupID day : string)
  (v : Z) : Prop :=
  exists fid r,
    select_fundID lookupID db_ = Some fid /\
    In r (dollarChanges db_) /\ date r = day /\ dollarChange r = v /\
    change_fundID r = Some fid /\ in_window (utc_today w) day.

(** What the part of [main] before the output file does, however it
    ends. *)
Definition gather_post (w : World) (st : state)
  (r : result (list string * PyDict.dict string * string *
               PyDict.dict (PyDict.dict PyFloat.float)) *
       state) : Prop :=
  exists added new,
    funds (db (snd r)) = (funds (db st) ++ added)%list /\
    dollarChanges (db (snd r)) = (dollarChanges (db st) ++ new)%list /\
    Forall (stored_today w) new /\
    report (snd r) = report st /\
    (forall v, fst r = Ok v ->
               exists funds_ names ids,
                 parsed_manifest w = Ok (funds_, names, ids) /\
                 fst (fst (fst v)) = ids /\ snd (fst (fst v)) = names /\
                 snd (fst v) = getIntervalToDate (utc_today w) INTERVAL_RANGE /\
                 forall id, In id ids -> registered id (db (snd r)) = true).

End Vocabulary.

(** * Theorems *)

(** ** The order on strings *)

Section StringOrder.

Lemma ascii_compare_refl (a : ascii) : Ascii.compare a a = Eq.
Proof. unfold Ascii.compare. apply N.compare_refl. Qed.

Lemma string_compare_refl (s : string) : String.compare s s = Eq.
Proof.
  induction s as [|a s IH]; simpl; [reflexivity|].
  now rewrite ascii_compare_refl.
Qed.

Lemma string_leb_refl (s : string) : String.leb s s = true.
Proof. unfold String.leb. now rewrite string_compare_refl. Qed.

Lemma ascii_compare_lt_trans (a b c : ascii) :
  Ascii.compare a b = Lt -> Ascii.compare b c = Lt -> Ascii.compare a c = Lt.
Proof.
  unfold Ascii.compare. rewrite !N.compare_lt_iff. apply N.lt_trans.
Qed.

Lemma string_compare_lt_trans (s1 : string) : forall s2 s3,
  String.compare s1 s2 = Lt -> String.compare s2 s3 = Lt ->
  String.compare s1 s3 = Lt.
Proof.
  induction s1 as [|a s1 IH]; intros [|b s2] [|c s3]; simpl;
    try discriminate; try reflexivity.
  destruct (Ascii.compare a b) eqn:Hab; try discriminate;
    destruct (Ascii.compare b c) eqn:Hbc; try discriminate; intros H12 H23.
  - apply Ascii.compare_eq_iff in Hab, Hbc. subst.
    rewrite ascii_compare_refl. now apply IH with s2.
  - apply Ascii.compare_eq_iff in Hab. subst. now rewrite Hbc.
  - apply Ascii.compare_eq_iff in Hbc. subst. now rewrite Hab.
  - now rewrite (ascii_compare_lt_trans a b c).
Qed.

Lemma string_leb_trans (s1 s2 s3 : string) :
  String.leb s1 s2 = true -> String.leb s2 s3 = true -> String.leb s1 s3 = true.
Proof.
  unfold String.leb.
  destruct (String.compare s1 s2) eqn:H12; try discriminate;
    destruct (String.compare s2 s3) eqn:H23; try discriminate; intros _ _.
  - apply String.compare_eq_iff in H12, H23. subst.
    now rewrite string_compare_refl.
  - apply String.compare_eq_iff in H12. subst. now rewrite H23.
  - apply String.compare_eq_iff in H23. subst. now rewrite H12.
  - now rewrite (string_compare_lt_trans s1 s2 s3).
Qed.

Lemma string_ltb_irrefl (s : string) : String.ltb s s = false.
Proof. unfold String.ltb. now rewrite string_compare_refl. Qed.

End StringOrder.

(** ** The fund table *)

Section FundTable.

Import Database.

Lemma registered_app (c : string) (fs : list fund_row) (r : fund_row)
  (dcs : list dollarChange_row) :
  registered c (mk_db (fs ++ [r]) dcs) =
  registered c (mk_db fs dcs) || String.eqb (fundLookup r) c.
Proof.
  unfold registered; simpl. rewrite existsb_app; simpl.
  now rewrite orb_false_r.
Qed.

Lemma insertOrIgnoreFund_registers (n c : string) (db : FidelityDB) :
  registered c (insertOrIgnoreFund n c db) = true.
Proof.
  unfold insertOrIgnoreFund.
  destruct (registered c db) eqn:Hreg; [exact Hreg|].
  destruct db as [fs dcs]; simpl. rewrite registered_app; simpl.
  rewrite String.eqb_refl. apply orb_true_r.
Qed.

Lemma insertOrIgnoreFund_keeps (n c c' : string) (db : FidelityDB) :
  registered c' db = true -> registered c' (insertOrIgnoreFund n c db) = true.
Proof.
  intros Hreg. unfold insertOrIgnoreFund.
  destruct (registered c db); [exact Hreg|].
  destruct db as [fs dcs]; simpl. rewrite registered_app, Hreg.
  reflexivity.
Qed.

Lemma insertOrIgnoreFund_noop (n c : string) (db : FidelityDB) :
  registered c db = true -> insertOrIgnoreFund n c db = db.
Proof. intros Hreg. unfold insertOrIgnoreFund. now rewrite Hreg. Qed.

Lemma insertOrIgnoreFunds_cons (nf : string * string)
  (fs : list (string * string)) (db : FidelityDB) :
  insertOrIgnoreFunds (nf :: fs) db =
  insertOrIgnoreFunds fs (insertOrIgnoreFund (fst nf) (snd nf) db).
Proof. reflexivity. Qed.

Lemma insertOrIgnoreFunds_keeps (c : string) (fs : list (string * string)) :
  forall db, registered c db = true ->
             registered c (insertOrIgnoreFunds fs db) = true.
Proof.
  induction fs as [|nf fs IH]; intros db Hreg; [exact Hreg|].
  rewrite insertOrIgnoreFunds_cons. apply IH.
  now apply insertOrIgnoreFund_keeps.
Qed.

Lemma insertOrIgnoreFunds_registers (fs : list (string * string)) :
  forall db nf, In nf fs ->
                registered (snd nf) (insertOrIgnoreFunds fs db) = true.
Proof.
  induction fs as [|nf' fs IH]; intros db nf Hin; [contradiction|].
  rewrite insertOrIgnoreFunds_cons. destruct Hin as [->|Hin].
  - apply insertOrIgnoreFunds_keeps, insertOrIgnoreFund_registers.
  - now apply IH.
Qed.

Lemma insertOrIgnoreFunds_noop (fs : list (string * string)) (db : FidelityDB) :
  (forall nf, In nf fs -> registered (snd nf) db = true) ->
  insertOrIgnoreFunds fs db = db.
Proof.
  induction fs as [|nf fs IH]; intros Hall; [reflexivity|].
  rewrite insertOrIgnoreFunds_cons, insertOrIgnoreFund_noop.
  - apply IH. intros nf' Hin. apply Hall. now right.
  - apply Hall. now left.
Qed.

Lemma registered_In (id : Z) (n c : string) (db : FidelityDB) :
  In (mk_fund id n c) (funds db) -> registered c db = true.
Proof.
  intros Hin. unfold registered. apply existsb_exists.
  exists (mk_fund id n c). split; [exact Hin|]. apply String.eqb_refl.
Qed.

(** C5.  Bulk registration is idempotent: running [insertOrIgnoreFunds]
    a second time with the same list of (name, lookup code) pairs leaves
    the whole database, and so its fund records, as the first call left
    them, whatever the state the first call started from. *)
Theorem insertOrIgnoreFunds_idempotent (fs : list (string * string))
  (db : FidelityDB) :
  insertOrIgnoreFunds fs (insertOrIgnoreFunds fs db) = insertOrIgnoreFunds fs db.
Proof.
  apply insertOrIgnoreFunds_noop.
  intros nf Hin. now apply insertOrIgnoreFunds_registers.
Qed.

(** C10.  Registration is first-write-wins on the name: when the lookup
    code [c] is in the fund table under the name [n], inserting [(n', c)]
    with any name [n'], through [insertOrIgnoreFund] or through
    [insertOrIgnoreFunds], leaves the database unchanged, so the row of
    [c] still carries [n]. *)
Theorem insertOrIgnoreFund_first_write_wins (db : FidelityDB) (id : Z)
  (n c n' : string) :
  In (mk_fund id n c) (funds db) ->
  insertOrIgnoreFund n' c db = db /\
  insertOrIgnoreFunds [(n', c)] db = db /\
  In (mk_fund id n c) (funds (insertOrIgnoreFund n' c db)).
Proof.
  intros Hin. pose proof (registered_In id n c db Hin) as Hreg.
  assert (Hnoop : insertOrIgnoreFund n' c db = db)
    by now apply insertOrIgnoreFund_noop.
  repeat split.
  - exact Hnoop.
  - apply insertOrIgnoreFunds_noop. intros nf [<-|[]]. exact Hreg.
  - now rewrite Hnoop.
Qed.

Lemma insertOrIgnoreFund_first_write_wins_witness :
  In (mk_fund 1 "Fidelity All-in-One Balanced ETF" "FBAL") (funds db_one_fund) /\
  insertOrIgnoreFund "Renamed" "FBAL" db_one_fund = db_one_fund.
Proof.
  assert (Hin : In (mk_fund 1 "Fidelity All-in-One Balanced ETF" "FBAL")
                  (funds db_one_fund)) by (simpl; now left).
  split; [exact Hin|].
  exact (proj1 (insertOrIgnoreFund_first_write_wins db_one_fund 1
                  "Fidelity All-in-One Balanced ETF" "FBAL" "Renamed" Hin)).
Defined.

End FundTable.

(** ** Daily changes and the range query *)

Section DailyChanges.

Import Database.

Lemma select_fundID_registered (c : string) (db : FidelityDB) :
  registered c db = true -> exists fid, select_fundID c db = Some fid.
Proof.
  unfold registered, select_fundID. intros Hreg.
  apply existsb_exists in Hreg. destruct Hreg as [r [Hin Heq]].
  destruct (find (fun r0 => String.eqb (fundLookup r0) c) (funds db)) as [r'|] eqn:Hfind.
  - now exists (fundID r').
  - exfalso. apply (find_none _ _ Hfind) in Hin. simpl in Hin. congruence.
Qed.

Lemma select_fundID_unregistered (c : string) (db : FidelityDB) :
  registered c db = false -> select_fundID c db = None.
Proof.
  unfold registered, select_fundID. intros Hreg.
  destruct (find (fun r0 => String.eqb (fundLookup r0) c) (funds db)) as [r'|] eqn:Hfind;
    [|reflexivity].
  apply find_some in Hfind. destruct Hfind as [Hin Heq].
  assert (Hex : existsb (fun r => String.eqb (fundLookup r) c) (funds db) = true)
    by (apply existsb_exists; now exists r').
  congruence.
Qed.

Lemma date_leb_transitive : Transitive (fun a b : string * Z => is_true (DateOrder.leb a b)).
Proof.
  intros a b c Hab Hbc. unfold is_true, DateOrder.leb in *.
  now apply string_leb_trans with (fst b).
Qed.

Lemma range_query_In (utc_today : Calendar.ymd) (interval c : string)
  (db : FidelityDB) (fid : Z) (d : string) (v : Z) :
  select_fundID c db = Some fid ->
  (In (d, v) (getDollarChangesIntervalToDateByFund utc_today interval c db) <->
   exists r, In r (dollarChanges db) /\ date r = d /\ dollarChange r = v /\
             change_fundID r = Some fid /\ in_window utc_today d).
Proof.
  intros Hsel. unfold getDollarChangesIntervalToDateByFund. rewrite Hsel.
  set (rows := filter (in_range utc_today fid) (dollarChanges db)).
  assert (Hrows : forall r, In r rows <->
            In r (dollarChanges db) /\ change_fundID r = Some fid /\
            in_window utc_today (date r)).
  { intros r. unfold rows. rewrite filter_In. unfold in_range, in_window.
    rewrite !andb_true_iff.
    destruct (change_fundID r) as [f|]; [rewrite Z.eqb_eq|];
      intuition (try congruence). }
  split.
  - intros Hin.
    apply (Permutation_in _ (Permutation_sym (DateSort.Permuted_sort _))) in Hin.
    apply in_map_iff in Hin. destruct Hin as [r [Heq Hr]].
    inversion Heq; subst. apply Hrows in Hr. exists r. intuition.
  - intros [r [Hr [Hd [Hv [Hf Hw]]]]].
    apply (Permutation_in _ (DateSort.Permuted_sort _)).
    apply in_map_iff. exists r. split; [now rewrite Hd, Hv|].
    apply Hrows. subst d. intuition.
Qed.

Lemma in_range_window (utc_today : Calendar.ymd) (fid : Z)
  (r : dollarChange_row) :
  in_range utc_today fid r = true -> in_window utc_today (date r).
Proof.
  unfold in_range, in_window. rewrite !andb_true_iff. tauto.
Qed.

Lemma ascending_nodup_strict (res : list (string * Z)) :
  ascending res -> NoDup (map fst res) -> strictly_ascending res.
Proof.
  unfold ascending, strictly_ascending.
  induction 1 as [|a l Hl IH Ha]; intros Hnd; constructor.
  - apply IH. now inversion Hnd.
  - inversion Hnd as [|x xs Hnotin _]; subst.
    rewrite Forall_forall in *. intros b Hb. specialize (Ha b Hb).
    unfold String.leb in Ha. unfold String.ltb.
    destruct (String.compare (fst a) (fst b)) eqn:Hcmp;
      [|reflexivity|discriminate].
    apply String.compare_eq_iff in Hcmp. exfalso. apply Hnotin.
    rewrite Hcmp. now apply in_map.
Qed.

(** C3, as amended.  For every database, every lookup code and every
    caller-supplied interval, the result of the range query is ordered
    ascending by date, without a promise of strictness (it is strict
    whenever no date occurs twice in it); every date of the result lies
    in the window from [date("now", "-1 year")] to [date("now")]; and the
    result is the same for any other interval argument. *)
Theorem range_query_ascending_in_window (utc_today : Calendar.ymd)
  (interval interval' c : string) (db : FidelityDB) :
  let res := getDollarChangesIntervalToDateByFund utc_today interval c db in
  ascending res /\
  (NoDup (map fst res) -> strictly_ascending res) /\
  Forall (fun p => in_window utc_today (fst p)) res /\
  res = getDollarChangesIntervalToDateByFund utc_today interval' c db.
Proof.
  intros res.
  assert (Hasc : ascending res).
  { unfold res, getDollarChangesIntervalToDateByFund, ascending.
    destruct (select_fundID c db) as [fid|]; [|constructor].
    apply (DateSort.StronglySorted_sort _ date_leb_transitive). }
  repeat split.
  - exact Hasc.
  - now apply ascending_nodup_strict.
  - unfold res, getDollarChangesIntervalToDateByFund.
    destruct (select_fundID c db) as [fid|]; [|constructor].
    apply Forall_forall. intros p Hp.
    apply (Permutation_in _ (Permutation_sym (DateSort.Permuted_sort _))) in Hp.
    apply in_map_iff in Hp. destruct Hp as [r [<- Hr]].
    apply filter_In in Hr. simpl. now apply in_range_window with fid.
Qed.

(** C3, the counterexample: a store that is not empty, a registered fund,
    and a result of the range query that is not strictly ascending. *)
Lemma range_query_not_strictly_ascending :
  exists db, db_two_runs = Ok db /\ registered "FBAL" db = true /\
             dollarChanges db <> [] /\
             ~ strictly_ascending
                 (getDollarChangesIntervalToDateByFund a_sunday "-1 year" "FBAL" db).
Proof.
  eexists. split; [vm_compute; reflexivity|].
  split; [reflexivity|]. split; [discriminate|].
  assert (Hq : getDollarChangesIntervalToDateByFund a_sunday "-1 year" "FBAL"
                 (mk_db [mk_fund 1 "Fidelity All-in-One Balanced ETF" "FBAL"]
                    [mk_change 1 "2021-09-03" (Some 1) 123;
                     mk_change 2 "2021-09-03" (Some 1) 123])
               = [("2021-09-03", 123); ("2021-09-03", 123)])
    by (vm_compute; reflexivity).
  rewrite Hq. intros Hs. inversion Hs as [|a l _ Hall]; subst.
  inversion Hall as [|b l' Hlt _]; subst.
  simpl in Hlt. rewrite string_ltb_irrefl in Hlt. discriminate.
Qed.

(** C2, as amended.  For every database state, every lookup code that is
    not in the fund table, every date argument and every delta in the
    signed 64-bit range, [insertDollarChange] returns normally and appends
    one row whose fund reference is NULL. *)
Theorem insertDollarChange_unknown_fund (localtime_today : Calendar.ymd)
  (c : string) (delta : Z) (date_ : option string) (db : FidelityDB) :
  registered c db = false ->
  sqlite_int delta = true ->
  insertDollarChange localtime_today c delta date_ db =
  Ok (mk_db (funds db)
        (dollarChanges db ++
           [mk_change (next_rowid (map dollarChangeID (dollarChanges db)))
              (match date_ with
               | None => Calendar.iso localtime_today
               | Some s => s
               end)
              None delta])).
Proof.
  intros Hreg Hint. unfold insertDollarChange.
  rewrite Hint, (select_fundID_unregistered c db Hreg). reflexivity.
Qed.

Lemma insertDollarChange_unknown_fund_witness :
  insertDollarChange a_friday "ZZZZ" 123 (Some "2021-09-03") db_one_fund =
  Ok (mk_db (funds db_one_fund) [mk_change 1 "2021-09-03" None 123]).
Proof.
  exact (insertDollarChange_unknown_fund a_friday "ZZZZ" 123
           (Some "2021-09-03") db_one_fund eq_refl eq_refl).
Defined.

(** C2, the counterexample: a lookup code that is not in the fund table
    and a call that surfaces an error to the caller. *)
Lemma insertDollarChange_unknown_fund_raises :
  registered "ZZZZ" db_one_fund = false /\
  insertDollarChange a_friday "ZZZZ" (2 ^ 63) (Some "2021-09-03") db_one_fund =
  Raise OverflowError.
Proof. split; reflexivity. Qed.

(** C4, as amended.  For every registered lookup code, every delta in
    the signed 64-bit range and every date inside the window of the range
    query, [insertDollarChange] succeeds and the range query run on the
    resulting database for that fund returns a list that contains the
    pair of that date and that very integer. *)
Theorem insertDollarChange_then_range_query (localtime_today utc_today : Calendar.ymd)
  (interval c : string) (delta : Z) (d : string) (db : FidelityDB) :
  registered c db = true ->
  sqlite_int delta = true ->
  in_window utc_today d ->
  exists db',
    insertDollarChange localtime_today c delta (Some d) db = Ok db' /\
    In (d, delta) (getDollarChangesIntervalToDateByFund utc_today interval c db').
Proof.
  intros Hreg Hint Hwin.
  destruct (select_fundID_registered c db Hreg) as [fid Hsel].
  unfold insertDollarChange. rewrite Hint, Hsel.
  eexists. split; [reflexivity|].
  apply (range_query_In utc_today interval c _ fid d delta).
  - exact Hsel.
  - eexists. split; [apply in_or_app; right; left; reflexivity|].
    simpl. auto.
Qed.

Lemma insertDollarChange_then_range_query_witness :
  exists db',
    insertDollarChange a_friday "FBAL" 123 (Some "2021-09-03") db_one_fund = Ok db' /\
    In ("2021-09-03", 123)
      (getDollarChangesIntervalToDateByFund a_sunday "-1 year" "FBAL" db').
Proof.
  exact (insertDollarChange_then_range_query a_friday a_sunday "-1 year" "FBAL"
           123 "2021-09-03" db_one_fund eq_refl eq_refl (conj eq_refl eq_refl)).
Defined.

(** C4, the counterexample: a registered code, a date inside the window
    and an integer delta for which the insertion raises, so that nothing
    is stored for the range query to return. *)
Lemma insertDollarChange_large_delta_raises :
  registered "FBAL" db_one_fund = true /\
  in_window a_sunday "2021-09-03" /\
  insertDollarChange a_friday "FBAL" (2 ^ 63) (Some "2021-09-03") db_one_fund =
  Raise OverflowError.
Proof. repeat split. Qed.

End DailyChanges.

(** ** The rate limiter *)

Section RateLimiter.

Import RequestDelayer.

(** C1, the failing run.  A limiter of delay 3 is called three times in
    an ordinary run: the clock only moves forward, every sleep lasts at
    least the time asked, and each call takes the lock after the one
    before released it.  The first call does not sleep; the second and
    the third sleep 2 seconds each; the recorded times are [noon],
    [noon + 3] and [noon + 6], each the previous one plus the delay.  The
    sleep of the second call ends half a second late, and its action
    starts then, at [noon + 3.5]; the action of the third starts at
    [noon + 6]: 2.5 seconds later, less than the delay. *)
Theorem delayRequest_starts_too_close :
  admissible (init three_seconds) PyFloat.zero late_wakeup /\
  sleeps (init three_seconds) late_wakeup =
  [None; Some (dyadic 2 0); Some (dyadic 2 0)] /\
  states (init three_seconds) late_wakeup =
  [mk three_seconds (dyadic noon 0);
   mk three_seconds (dyadic (noon + 3) 0);
   mk three_seconds (dyadic (noon + 6) 0)] /\
  map (fun c => PyFloat.repr (started c)) late_wakeup =
  ["1630670400.0"; "1630670403.5"; "1630670406.0"]%string /\
  PyFloat.sub (dyadic (noon + 6) 0) (dyadic (2 * noon + 7) (-1)) = dyadic 5 (-1) /\
  PyFloat.ltb (dyadic 5 (-1)) three_seconds = true /\
  ~ starts_separated three_seconds late_wakeup.
Proof.
  split; [vm_compute; repeat split|].
  split; [vm_compute; reflexivity|].
  split; [vm_compute; reflexivity|].
  split; [vm_compute; reflexivity|].
  split; [vm_compute; reflexivity|].
  split; [vm_compute; reflexivity|].
  unfold not. vm_compute. intros [_ [H _]]. discriminate.
Qed.

End RateLimiter.

(** ** The session and the retry loop *)

Section Orchestrator.

Import Fidelity.

Lemma gather_open_session_raises (w : World) (e : exception) (st st' : state) :
  reaches_session w ->
  open_session w st = (Raise e, st') ->
  gather w st = (Raise e, st').
Proof.
  intros [Hargc [[[fs ns] ids] Hparse]] Hopen. unfold gather.
  assert (Hlt : (Z.of_nat (List.length (argv w)) <? MIN_POSITIONAL_ARGS) = false)
    by (apply Z.ltb_ge; unfold MIN_POSITIONAL_ARGS; lia).
  rewrite Hlt. unfold bindM at 1. unfold lift. rewrite Hparse.
  unfold bindM at 1. now rewrite Hopen.
Qed.

(** C7.  When the site shows the price date [04-Sep-2021] and today is
    [2021-09-05], the session fails to open with [DifferentDateError];
    a run that got as far as opening the session then ends in
    [sys.exit(-3)], the code of that error alone, having written the
    error to the log and to standard error, with the database as it
    found it, no search made and no output file opened. *)
Theorem different_date_exits_before_any_write (fuel : nat) (w : World) :
  reaches_session w ->
  price_date w = Ok "04-Sep-2021" ->
  TODAY w = "2021-09-05" ->
  let e := DifferentDateError "2021-09-04" "2021-09-05" in
  FidelityScraper w = Raise e /\
  main fuel w =
  Some (SystemExit (-3),
        mk_state (database w)
          [message e ++ nl] None
          (Some [hd EmptyString (argv w) ++ " ran; Error:" ++ nl; message e ++ nl])
          O).
Proof.
  intros Hreach Hdate Htoday e.
  assert (Hinit : FidelityScraper w = Raise e).
  { unfold FidelityScraper. rewrite Hdate, Htoday. reflexivity. }
  split; [exact Hinit|].
  unfold main.
  rewrite (gather_open_session_raises w (SystemExit (-3))
             (mk_state (database w) [] None None O)
             (mk_state (database w) [message e ++ nl] None
                (Some [hd EmptyString (argv w) ++ " ran; Error:" ++ nl;
                       message e ++ nl]) O) Hreach).
  - reflexivity.
  - unfold open_session. rewrite Hinit. reflexivity.
Qed.

Lemma different_date_exits_before_any_write_witness :
  main 0 sunday_world =
  Some (SystemExit (-3),
        mk_state db_one_fund
          ["Different dates. Fidelity's date: 2021-09-04; Today's date: 2021-09-05"
             ++ nl]
          None
          (Some ["fidelity.py ran; Error:" ++ nl;
                 "Different dates. Fidelity's date: 2021-09-04; Today's date: 2021-09-05"
                   ++ nl])
          O).
Proof.
  exact (proj2 (different_date_exits_before_any_write 0 sunday_world
                  (conj (le_n 2) (ex_intro _ _ eq_refl)) eq_refl eq_refl)).
Defined.

Lemma retry_returns (w : World) (tries : nat) (rest : list nat)
  (name lookupID : string) (dcs : PyDict.dict Z) (st : state) (v : Z) :
  getFundDollarChange (pages w (calls st)) name lookupID = Ok v ->
  retry w (tries :: rest) name lookupID dcs st =
  (Ok (PyDict.set lookupID v dcs), count_call st).
Proof. intros H. simpl. now rewrite H. Qed.

Lemma retry_again (w : World) (tries : nat) (rest : list nat)
  (name lookupID : string) (dcs : PyDict.dict Z) (st : state) :
  mismatch w (calls st) name lookupID ->
  (tries + 1 <? MAX_RETRIES)%nat = true ->
  retry w (tries :: rest) name lookupID dcs st =
  retry w rest name lookupID dcs (count_call st).
Proof. intros [a [b [c H]]] Hlt. simpl. now rewrite H, Hlt. Qed.

Lemma retry_gives_up (w : World) (tries : nat) (rest : list nat)
  (name lookupID : string) (dcs : PyDict.dict Z) (st : state) (a b c : string) :
  getFundDollarChange (pages w (calls st)) name lookupID =
  Raise (CannotMatchFundError a b c) ->
  (tries + 1 <? MAX_RETRIES)%nat = false ->
  retry w (tries :: rest) name lookupID dcs st =
  retry w rest name lookupID dcs
    (mk_state (db st)
       (stderr st ++ ["Error: " ++ message (CannotMatchFundError a b c) ++ nl])
       (report st) (log st) (S (calls st))).
Proof. intros H Hlt. simpl. now rewrite H, Hlt. Qed.

Lemma fetch_all_cons (w : World) (name lookupID : string)
  (rest : list (string * string)) (dcs dcs' : PyDict.dict Z) (st st' : state) :
  retry w (seq 0 MAX_RETRIES) name lookupID dcs st = (Ok dcs', st') ->
  fetch_all w ((lookupID, name) :: rest) dcs st = fetch_all w rest dcs' st'.
Proof.
  intros H. cbn [fetch_all]. unfold bindM. now rewrite H.
Qed.

(** C6.  The retry loop of one fund inside the loop over the funds,
    from any state [st] of the run and any dictionary [dcs] of the deltas
    fetched so far.
    - If the first [k < 3] searches end in the identity-mismatch error
      and the next one returns [v], the loop of the fund ends without
      raising, [v] is recorded under the lookup code and nothing is
      written to standard error.
    - If all three searches end in the identity-mismatch error, the loop
      of the fund ends without raising, the dictionary of deltas is as it
      was (so the fund has no delta in it) and the error of the third
      search is written to standard error.
    In both cases the run goes on: the loop over the funds continues
    with the funds that are left, from the state the fund left; when the
    fund was the last one it ends normally with the dictionary; and
    when another fund follows, the next thing done is the retry loop of
    that fund, that is, its first search. *)
Theorem retry_identity_mismatch (w : World) (name lookupID : string)
  (rest : list (string * string)) (dcs : PyDict.dict Z) (st : state) :
  (forall (k : nat) (v : Z),
     (k < MAX_RETRIES)%nat ->
     (forall i, (i < k)%nat -> mismatch w (calls st + i) name lookupID) ->
     getFundDollarChange (pages w (calls st + k)) name lookupID = Ok v ->
     let st' := mk_state (db st) (stderr st) (report st) (log st)
                  (calls st + k + 1) in
     retry w (seq 0 MAX_RETRIES) name lookupID dcs st =
     (Ok (PyDict.set lookupID v dcs), st') /\
     fetch_all w ((lookupID, name) :: rest) dcs st =
     fetch_all w rest (PyDict.set lookupID v dcs) st' /\
     fetch_all w [(lookupID, name)] dcs st =
     (Ok (PyDict.set lookupID v dcs), st') /\
     (forall (name2 lookupID2 : string) (rest2 : list (string * string)),
         fetch_all w ((lookupID, name) :: (lookupID2, name2) :: rest2) dcs st =
         (dcs2 <~ retry w (seq 0 MAX_RETRIES) name2 lookupID2
                    (PyDict.set lookupID v dcs) ;;
          fetch_all w rest2 dcs2) st')) /\
  (forall a b c : string,
     mismatch w (calls st) name lookupID ->
     mismatch w (calls st + 1) name lookupID ->
     getFundDollarChange (pages w (calls st + 2)) name lookupID =
     Raise (CannotMatchFundError a b c) ->
     let st' := mk_state (db st)
                  (stderr st ++
                     ["Error: " ++ message (CannotMatchFundError a b c) ++ nl])
                  (report st) (log st) (calls st + 3) in
     retry w (seq 0 MAX_RETRIES) name lookupID dcs st = (Ok dcs, st') /\
     fetch_all w ((lookupID, name) :: rest) dcs st = fetch_all w rest dcs st' /\
     fetch_all w [(lookupID, name)] dcs st = (Ok dcs, st') /\
     (forall (name2 lookupID2 : string) (rest2 : list (string * string)),
         fetch_all w ((lookupID, name) :: (lookupID2, name2) :: rest2) dcs st =
         (dcs2 <~ retry w (seq 0 MAX_RETRIES) name2 lookupID2 dcs ;;
          fetch_all w rest2 dcs2) st')).
Proof.
  split.
  - intros k v Hk Hbefore Hok st'.
    assert (Hretry : retry w (seq 0 MAX_RETRIES) name lookupID dcs st =
                     (Ok (PyDict.set lookupID v dcs), st')).
    { unfold MAX_RETRIES in *. cbn [seq].
      destruct k as [|[|[|k]]]; [| | |lia].
      - rewrite Nat.add_0_r in Hok. rewrite (retry_returns _ _ _ _ _ _ _ v Hok).
        unfold st', count_call. do 2 f_equal. lia.
      - pose proof (Hbefore 0%nat ltac:(lia)) as H0. rewrite Nat.add_0_r in H0.
        rewrite retry_again; [|exact H0|reflexivity].
        rewrite (retry_returns _ _ _ _ _ _ (count_call st) v);
          [|simpl; now rewrite <- Nat.add_1_r].
        unfold st', count_call; simpl. do 2 f_equal. lia.
      - pose proof (Hbefore 0%nat ltac:(lia)) as H0. rewrite Nat.add_0_r in H0.
        pose proof (Hbefore 1%nat ltac:(lia)) as H1.
        rewrite retry_again; [|exact H0|reflexivity].
        rewrite retry_again;
          [|simpl; now rewrite <- Nat.add_1_r|reflexivity].
        rewrite (retry_returns _ _ _ _ _ _ (count_call (count_call st)) v);
          [|simpl; now replace (S (S (calls st))) with (calls st + 2)%nat by lia].
        unfold st', count_call; simpl. do 2 f_equal. lia. }
    split; [exact Hretry|]. split; [now apply fetch_all_cons|].
    split; [now rewrite (fetch_all_cons _ _ _ _ _ _ _ _ Hretry)|].
    intros name2 lookupID2 rest2.
    now rewrite (fetch_all_cons _ _ _ _ _ _ _ _ Hretry).
  - intros a b c H0 H1 H2 st'.
    assert (Hretry : retry w (seq 0 MAX_RETRIES) name lookupID dcs st =
                     (Ok dcs, st')).
    { unfold MAX_RETRIES in *. cbn [seq].
      rewrite retry_again; [|exact H0|reflexivity].
      rewrite retry_again;
        [|simpl; now rewrite <- Nat.add_1_r|reflexivity].
      rewrite (retry_gives_up _ _ _ _ _ _ (count_call (count_call st)) a b c);
        [|simpl; now replace (S (S (calls st))) with (calls st + 2)%nat by lia
         |reflexivity].
      unfold st'; simpl. unfold ret. do 2 f_equal. lia. }
    split; [exact Hretry|]. split; [now apply fetch_all_cons|].
    split; [now rewrite (fetch_all_cons _ _ _ _ _ _ _ _ Hretry)|].
    intros name2 lookupID2 rest2.
    now rewrite (fetch_all_cons _ _ _ _ _ _ _ _ Hretry).
Qed.

Lemma retry_identity_mismatch_witness :
  fetch_all flaky_world [("FBAL", "Fidelity A"); ("FGRO", "Fidelity B")] []
    (initial_state flaky_world) =
  (Ok [("FBAL", 123)],
   mk_state db_one_fund
     ["Error: " ++ message (CannotMatchFundError "Fidelity B" "FGRO" "Fidelity Z")
        ++ nl]
     None None 6) /\
  fetch_all stubborn_world [("FBAL", "Fidelity A"); ("FGRO", "Fidelity B")] []
    (initial_state stubborn_world) =
  (Ok [("FGRO", -500)],
   mk_state db_one_fund
     ["Error: " ++ message (CannotMatchFundError "Fidelity A" "FBAL" "Fidelity Z")
        ++ nl]
     None None 4).
Proof.
  split.
  - refine (eq_trans
              (proj1 (proj2 (proj1 (retry_identity_mismatch flaky_world
                                      "Fidelity A" "FBAL" [("FGRO", "Fidelity B")] []
                                      (initial_state flaky_world))
                               2%nat 123 _ _ _)))
              (proj1 (proj2 (proj2 (proj2 (retry_identity_mismatch flaky_world
                                      "Fidelity B" "FGRO" [] [("FBAL", 123)]
                                      (mk_state db_one_fund [] None None 3))
                               "Fidelity B" "FGRO" "Fidelity Z" _ _ _))))).
    + unfold MAX_RETRIES. lia.
    + intros [|[|i]] Hi; [| |lia];
        exists "Fidelity A", "FBAL", "Fidelity Z"; reflexivity.
    + vm_compute. reflexivity.
    + exists "Fidelity B", "FGRO", "Fidelity Z"; reflexivity.
    + exists "Fidelity B", "FGRO", "Fidelity Z"; reflexivity.
    + reflexivity.
  - refine (eq_trans
              (proj1 (proj2 (proj2 (retry_identity_mismatch stubborn_world
                                      "Fidelity A" "FBAL" [("FGRO", "Fidelity B")] []
                                      (initial_state stubborn_world))
                               "Fidelity A" "FBAL" "Fidelity Z" _ _ _)))
              (proj1 (proj2 (proj2 (proj1 (retry_identity_mismatch stubborn_world
                                      "Fidelity B" "FGRO" []
                                      []
                                      (mk_state db_one_fund
                                         ["Error: " ++
                                          message (CannotMatchFundError
                                                     "Fidelity A" "FBAL" "Fidelity Z")
                                          ++ nl] None None 3))
                               0%nat (-500) _ _ _))))).
    + exists "Fidelity A", "FBAL", "Fidelity Z"; reflexivity.
    + exists "Fidelity A", "FBAL", "Fidelity Z"; reflexivity.
    + reflexivity.
    + unfold MAX_RETRIES. lia.
    + intros i Hi. lia.
    + vm_compute. reflexivity.
Defined.

End Orchestrator.

(** ** Fixed-point scaling *)

Section FixedPoint.

Import Fidelity.

(** C8, the failing input.  The displayed delta [0.0003] has four decimal
    digits and its exact scaling is 3; the double nearest to 0.0003 times
    10000 is 2.9999999999999996, which [int] truncates, so 2 is returned,
    stored, and rendered as [0.0002]. *)
Theorem scaling_truncates_0_0003 :
  exactly_scaled "0.0003" = Some 3 /\
  option_map PyFloat.repr
    (match PyFloat.of_str "0.0003" with
     | Ok x => Some (PyFloat.mul x multiplier)
     | Raise _ => None
     end) = Some "2.9999999999999996" /\
  scaled "0.0003" = Ok 2 /\
  getFundDollarChange (pages two_funds_world 1) "Fidelity B" "FGRO" = Ok 2 /\
  option_map (fun r => report (snd r)) (main 400 two_funds_world) =
  Some (Some ("ETFs.csv",
              ["Date,Balanced,Fidelity B" ++ nl;
               "2021-09-03,0.0123,0.0002" ++ nl])).
Proof. repeat split; vm_compute; reflexivity. Qed.

(** The scenario of the displayed delta [0.0123]: it is stored as 123
    and the report cell of that fund and day reads [0.0123]; the example
    of the schema, [1.2050], is stored as 12050. *)
Theorem scaling_of_0_0123 :
  scaled "0.0123" = Ok 123 /\
  exactly_scaled "0.0123" = Some 123 /\
  scaled "1.2050" = Ok 12050 /\
  (exists e st,
     main 400 two_funds_world = Some (e, st) /\
     e = SystemExit 0 /\
     In (Database.mk_change 1 "2021-09-03" (Some 1) 123)
        (Database.dollarChanges (db st)) /\
     (exists d, float_dict [("2021-09-03", 123)] [] = Ok d /\
                cell [("FBAL", d)] "2021-09-03" "FBAL" = Some "0.0123") /\
     report st = Some ("ETFs.csv",
                       ["Date,Balanced,Fidelity B" ++ nl;
                        "2021-09-03,0.0123,0.0002" ++ nl])).
Proof.
  split; [vm_compute; reflexivity|].
  split; [vm_compute; reflexivity|].
  split; [vm_compute; reflexivity|].
  eexists. eexists. split; [vm_compute; reflexivity|].
  split; [reflexivity|].
  split; [simpl; left; reflexivity|].
  split; [|reflexivity].
  eexists. split; [vm_compute; reflexivity|]. vm_compute. reflexivity.
Qed.

End FixedPoint.

(** ** Dates as text *)

Section DateText.

Import Calendar.

Lemma N_of_ascii_digit (n : Z) :
  N_of_ascii (digit n) = (48 + Z.to_N (n mod 10))%N.
Proof.
  unfold digit. apply N_ascii_embedding.
  pose proof (Z.mod_pos_bound n 10 ltac:(lia)). lia.
Qed.

Lemma digit_is_digit (n : Z) : PyFloat.is_digit (digit n) = true.
Proof.
  unfold PyFloat.is_digit. rewrite N_of_ascii_digit.
  pose proof (Z.mod_pos_bound n 10 ltac:(lia)).
  apply andb_true_iff. split; apply N.leb_le; lia.
Qed.

Lemma digit_value_digit (n : Z) : PyFloat.digit_value (digit n) = n mod 10.
Proof.
  unfold PyFloat.digit_value. rewrite N_of_ascii_digit.
  pose proof (Z.mod_pos_bound n 10 ltac:(lia)). lia.
Qed.

Lemma digit_not_hyphen (n : Z) : Ascii.eqb (digit n) "-" = false.
Proof.
  apply Ascii.eqb_neq. intros H. apply (f_equal N_of_ascii) in H.
  rewrite N_of_ascii_digit in H. change (N_of_ascii "-") with 45%N in H. lia.
Qed.

Lemma digit_compare (x y : Z) :
  Ascii.compare (digit x) (digit y) = (x mod 10 ?= y mod 10).
Proof.
  unfold Ascii.compare. rewrite !N_of_ascii_digit.
  pose proof (Z.mod_pos_bound x 10 ltac:(lia)).
  pose proof (Z.mod_pos_bound y 10 ltac:(lia)).
  destruct (Z.compare_spec (x mod 10) (y mod 10));
    [apply N.compare_eq_iff|apply N.compare_lt_iff|apply N.compare_gt_iff]; lia.
Qed.

Lemma free_app (sep : ascii) (a b : string) :
  free sep (a ++ b) = free sep a && free sep b.
Proof.
  induction a as [|c a IH]; simpl; [reflexivity|].
  now rewrite IH, andb_assoc.
Qed.

Lemma free_zfill (w : nat) : forall n, free "-" (zfill w n) = true.
Proof.
  induction w as [|w IH]; intros n; simpl; [reflexivity|].
  rewrite free_app, IH. simpl. now rewrite digit_not_hyphen.
Qed.

Lemma split_free (sep : ascii) (s : string) :
  free sep s = true -> PyStr.split sep s = [s].
Proof.
  induction s as [|c s IH]; simpl; [reflexivity|].
  intros H. apply andb_true_iff in H. destruct H as [Hc Hs].
  apply negb_true_iff in Hc. rewrite Hc, (IH Hs). reflexivity.
Qed.

Lemma split_app (sep : ascii) (a b : string) :
  free sep a = true ->
  PyStr.split sep (a ++ String sep b) = a :: PyStr.split sep b.
Proof.
  induction a as [|c a IH]; simpl.
  - intros _. now rewrite Ascii.eqb_refl.
  - intros H. apply andb_true_iff in H. destruct H as [Hc Ha].
    apply negb_true_iff in Hc. rewrite Hc, (IH Ha). reflexivity.
Qed.

Lemma split_iso (d : ymd) :
  PyStr.split "-" (iso d) =
  [zfill 4 (year d); zfill 2 (month d); zfill 2 (day d)].
Proof.
  unfold iso.
  change ("-" ++ zfill 2 (month d) ++ "-" ++ zfill 2 (day d))
    with (String "-" (zfill 2 (month d) ++ String "-" (zfill 2 (day d)))).
  rewrite split_app by apply free_zfill.
  rewrite split_app by apply free_zfill.
  rewrite split_free by apply free_zfill. reflexivity.
Qed.

Lemma year_field_zfill (y : Z) :
  0 <= y <= 9999 -> Fidelity.year_field (zfill 4 y) = Some y.
Proof.
  intros Hy. unfold Fidelity.year_field.
  cbn -[Z.mul Z.add Z.div Z.modulo PyFloat.is_digit PyFloat.digit_value digit].
  rewrite !digit_is_digit.
  cbn -[Z.mul Z.add Z.div Z.modulo PyFloat.is_digit PyFloat.digit_value digit].
  rewrite !digit_value_digit.
  f_equal. Z.to_euclidean_division_equations. lia.
Qed.

Lemma month_field_zfill (m : Z) :
  1 <= m <= 12 -> Fidelity.month_field (zfill 2 m) = Some m.
Proof.
  intros Hm.
  assert (H : m = 1 \/ m = 2 \/ m = 3 \/ m = 4 \/ m = 5 \/ m = 6 \/ m = 7 \/
              m = 8 \/ m = 9 \/ m = 10 \/ m = 11 \/ m = 12) by lia.
  repeat (destruct H as [->|H]; [reflexivity|]). now subst.
Qed.

Lemma day_field_zfill (d : Z) :
  1 <= d <= 31 -> Fidelity.day_field (zfill 2 d) = Some d.
Proof.
  intros Hd.
  assert (H : d = 1 \/ d = 2 \/ d = 3 \/ d = 4 \/ d = 5 \/ d = 6 \/ d = 7 \/
              d = 8 \/ d = 9 \/ d = 10 \/ d = 11 \/ d = 12 \/ d = 13 \/
              d = 14 \/ d = 15 \/ d = 16 \/ d = 17 \/ d = 18 \/ d = 19 \/
              d = 20 \/ d = 21 \/ d = 22 \/ d = 23 \/ d = 24 \/ d = 25 \/
              d = 26 \/ d = 27 \/ d = 28 \/ d = 29 \/ d = 30 \/ d = 31) by lia.
  repeat (destruct H as [->|H]; [reflexivity|]). now subst.
Qed.

Lemma days_in_month_bounds (y m : Z) : 28 <= days_in_month y m <= 31.
Proof.
  unfold days_in_month.
  destruct (m =? 2); [destruct (is_leap y); lia|].
  destruct ((m =? 4) || (m =? 6) || (m =? 9) || (m =? 11)); lia.
Qed.

(** [strptime] reads back what [strftime] printed. *)
Lemma strptime_iso (d : ymd) : valid d -> Fidelity.strptime (iso d) = Ok d.
Proof.
  intros [Hy [Hm Hd]]. unfold Fidelity.strptime.
  pose proof (days_in_month_bounds (year d) (month d)) as Hb.
  rewrite split_iso, year_field_zfill, month_field_zfill, day_field_zfill by lia.
  replace (1 <=? year d) with true by (symmetry; apply Z.leb_le; lia).
  replace (day d <=? days_in_month (year d) (month d)) with true
    by (symmetry; apply Z.leb_le; lia).
  now destruct d.
Qed.

Lemma string_app_assoc (a b c : string) : (a ++ b) ++ c = a ++ (b ++ c).
Proof. induction a as [|x a IH]; simpl; [reflexivity|]. now rewrite IH. Qed.

Lemma string_app_nil (a : string) : a ++ "" = a.
Proof. induction a as [|x a IH]; simpl; [reflexivity|]. now rewrite IH. Qed.

(** Zero-padded numbers of one width compare as the numbers do. *)
Lemma compare_zfill (w : nat) : forall (x y : Z) (s t : string),
  0 <= x < 10 ^ Z.of_nat w -> 0 <= y < 10 ^ Z.of_nat w ->
  String.compare (zfill w x ++ s) (zfill w y ++ t) =
  match x ?= y with
  | Eq => String.compare s t
  | c => c
  end.
Proof.
  induction w as [|w IH]; intros x y s t Hx Hy.
  - simpl in *. replace x with 0 by lia. replace y with 0 by lia. reflexivity.
  - rewrite Nat2Z.inj_succ, Z.pow_succ_r in Hx, Hy by lia.
    cbn [zfill]. rewrite !string_app_assoc.
    rewrite IH by (split; [apply Z.div_pos; lia|apply Z.div_lt_upper_bound; lia]).
    cbn [append String.compare]. rewrite digit_compare.
    destruct (Z.compare_spec (x / 10) (y / 10));
      destruct (Z.compare_spec (x mod 10) (y mod 10));
      destruct (Z.compare_spec x y); try reflexivity; exfalso;
      Z.to_euclidean_division_equations; lia.
Qed.

Lemma iso_compare (a b : ymd) :
  valid a -> valid b ->
  String.compare (iso a) (iso b) = (ord a ?= ord b).
Proof.
  intros [Hya [Hma Hda]] [Hyb [Hmb Hdb]].
  pose proof (days_in_month_bounds (year a) (month a)).
  pose proof (days_in_month_bounds (year b) (month b)).
  unfold iso, ord.
  rewrite compare_zfill by (simpl; lia).
  change (String.compare ("-" ++ zfill 2 (month a) ++ "-" ++ zfill 2 (day a))
            ("-" ++ zfill 2 (month b) ++ "-" ++ zfill 2 (day b)))
    with (String.compare (zfill 2 (month a) ++ "-" ++ zfill 2 (day a))
            (zfill 2 (month b) ++ "-" ++ zfill 2 (day b))).
  rewrite compare_zfill by (simpl; lia).
  change (String.compare ("-" ++ zfill 2 (day a)) ("-" ++ zfill 2 (day b)))
    with (String.compare (zfill 2 (day a)) (zfill 2 (day b))).
  rewrite <- (string_app_nil (zfill 2 (day a))), <- (string_app_nil (zfill 2 (day b))).
  rewrite compare_zfill by (simpl; lia). simpl String.compare.
  destruct (Z.compare_spec (year a) (year b));
    destruct (Z.compare_spec (month a) (month b));
    destruct (Z.compare_spec (day a) (day b));
    symmetry; first [apply Z.compare_eq_iff | apply Z.compare_lt_iff
                    | apply Z.compare_gt_iff]; lia.
Qed.

Lemma iso_leb (a b : ymd) :
  valid a -> valid b -> String.leb (iso a) (iso b) = (ord a <=? ord b).
Proof.
  intros Ha Hb. unfold String.leb, Z.leb. now rewrite iso_compare.
Qed.

Lemma ord_inj (a b : ymd) : valid a -> valid b -> ord a = ord b -> a = b.
Proof.
  intros [Hya [Hma Hda]] [Hyb [Hmb Hdb]] H.
  pose proof (days_in_month_bounds (year a) (month a)).
  pose proof (days_in_month_bounds (year b) (month b)).
  unfold ord in H. destruct a as [ya ma da], b as [yb mb db].
  cbn [year month day] in *.
  assert (ya = yb) by lia. assert (ma = mb) by lia. assert (da = db) by lia.
  now subst.
Qed.

(** The day after a valid date that is not the last of year 9999 is a
    valid date, it comes later, and no valid date lies between the two. *)
Lemma next_day_valid (d : ymd) :
  valid d -> year d <= 9998 -> valid (next_day d) /\ ord d < ord (next_day d).
Proof.
  intros [Hy [Hm Hd]] Hlast. unfold next_day, valid, ord.
  pose proof (days_in_month_bounds (year d) (month d)).
  pose proof (days_in_month_bounds (year d) (month d + 1)).
  pose proof (days_in_month_bounds (year d + 1) 1).
  destruct (day d <? days_in_month (year d) (month d)) eqn:Hday;
    [apply Z.ltb_lt in Hday; cbn [year month day]; lia|].
  apply Z.ltb_ge in Hday.
  destruct (month d <? 12) eqn:Hmonth;
    [apply Z.ltb_lt in Hmonth|apply Z.ltb_ge in Hmonth];
    cbn [year month day]; lia.
Qed.

Lemma next_day_least (d x : ymd) :
  valid d -> valid x -> ord d < ord x -> ord (next_day d) <= ord x.
Proof.
  intros [Hy [Hm Hd]] [Hyx [Hmx Hdx]] Hlt. unfold next_day, ord in *.
  pose proof (days_in_month_bounds (year x) (month x)).
  destruct (day d <? days_in_month (year d) (month d)) eqn:Hday;
    [cbn [year month day]; lia|].
  apply Z.ltb_ge in Hday.
  assert (Hsame : year x = year d -> month x = month d -> False).
  { intros Hy' Hm'. rewrite Hy', Hm' in *. lia. }
  destruct (month d <? 12) eqn:Hmonth;
    [apply Z.ltb_lt in Hmonth|apply Z.ltb_ge in Hmonth]; cbn [year month day].
  - destruct (Z.eq_dec (year x) (year d)) as [Hy'|Hy'];
      [destruct (Z.eq_dec (month x) (month d)) as [Hm'|Hm']|]; [tauto|lia|lia].
  - destruct (Z.eq_dec (year x) (year d)) as [Hy'|Hy'];
      [destruct (Z.eq_dec (month x) (month d)) as [Hm'|Hm']|]; [tauto|lia|lia].
Qed.

Lemma incrementDate_iso (d : ymd) :
  valid d -> year d <= 9998 ->
  Fidelity.incrementDate (iso d) = Ok (iso (next_day d)).
Proof.
  intros Hv Hy. unfold Fidelity.incrementDate. rewrite (strptime_iso d Hv).
  cbn [bind]. replace (year d =? 9999) with false by (symmetry; apply Z.eqb_neq; lia).
  reflexivity.
Qed.

End DateText.

(** ** The report *)

Section Report.

Import Calendar Fidelity.

Lemma row_spec (data : PyDict.dict (PyDict.dict PyFloat.float))
  (fundIDs : list string) (intervalDate line : string) :
  row data fundIDs intervalDate = Some line <->
  (exists lookupID, In lookupID fundIDs /\
                    cell data intervalDate lookupID <> None) /\
  line = intervalDate ++ "," ++
         PyStr.join "," (map (fun lookupID =>
                                text_of (cell data intervalDate lookupID))
                           fundIDs) ++ nl.
Proof.
  unfold row. rewrite map_map.
  destruct (existsb is_some (map (cell data intervalDate) fundIDs)) eqn:Hex.
  - apply existsb_exists in Hex. destruct Hex as [c [Hin Hc]].
    apply in_map_iff in Hin. destruct Hin as [id [<- Hid]].
    split.
    + intros [= <-]. split; [|reflexivity].
      exists id. split; [exact Hid|]. intros Hnone. now rewrite Hnone in Hc.
    + intros [_ ->]. reflexivity.
  - split; [discriminate|]. intros [[id [Hid Hc]] _]. exfalso.
    assert (Htrue : existsb is_some (map (cell data intervalDate) fundIDs) = true).
    { apply existsb_exists. exists (cell data intervalDate id).
      split; [now apply in_map|]. now destruct (cell data intervalDate id). }
    congruence.
Qed.

Lemma ord_year_le (a b : ymd) :
  valid a -> valid b -> ord a <= ord b -> year a <= year b.
Proof.
  intros [Hya [Hma Hda]] [Hyb [Hmb Hdb]].
  pose proof (days_in_month_bounds (year a) (month a)).
  pose proof (days_in_month_bounds (year b) (month b)).
  unfold ord. lia.
Qed.

Lemma write_rows_S (fuel : nat) (today : string)
  (data : PyDict.dict (PyDict.dict PyFloat.float)) (fundIDs : list string)
  (intervalDate : string) :
  write_rows (S fuel) today data fundIDs intervalDate =
  if String.leb intervalDate today then
    match incrementDate intervalDate with
    | Raise e => Some (lines_of_text data fundIDs intervalDate, Raise e)
    | Ok next =>
        match write_rows fuel today data fundIDs next with
        | Some (lines, r) =>
            Some ((lines_of_text data fundIDs intervalDate ++ lines)%list, r)
        | None => None
        end
    end
  else Some ([], Ok tt).
Proof. reflexivity. Qed.

(** The loop from a valid day [cur] up to a valid day [t]: with enough
    fuel it ends normally, having visited a run of successive days that
    are the valid days from [cur] to [t], and written their lines. *)
Lemma write_rows_days (data : PyDict.dict (PyDict.dict PyFloat.float))
  (fundIDs : list string) (t : ymd) (n : nat) :
  valid t -> year t <= 9998 ->
  forall cur, valid cur -> ord t - ord cur < Z.of_nat n ->
    exists k,
      write_rows (S n) (iso t) data fundIDs (iso cur) =
      Some (flat_map (lines_of data fundIDs) (days_from k cur), Ok tt) /\
      Forall valid (days_from k cur) /\
      forall d, valid d ->
                (In d (days_from k cur) <-> ord cur <= ord d <= ord t).
Proof.
  intros Ht Hlast. induction n as [|n IH]; intros cur Hcur Hfuel.
  - exists O. rewrite write_rows_S. cbn [days_from flat_map].
    rewrite (iso_leb cur t Hcur Ht).
    replace (ord cur <=? ord t) with false by (symmetry; apply Z.leb_gt; lia).
    split; [reflexivity|]. split; [constructor|].
    intros d Hd. split; [intros []|intros; lia].
  - destruct (Z_le_gt_dec (ord cur) (ord t)) as [Hle|Hgt].
    + pose proof (ord_year_le cur t Hcur Ht Hle) as Hyear.
      destruct (next_day_valid cur Hcur ltac:(lia)) as [Hnext Hlater].
      destruct (IH (next_day cur) Hnext ltac:(lia)) as [k [Hrun [Hvalid Hdays]]].
      exists (S k). rewrite write_rows_S.
      rewrite (iso_leb cur t Hcur Ht).
      replace (ord cur <=? ord t) with true by (symmetry; apply Z.leb_le; lia).
      rewrite (incrementDate_iso cur Hcur ltac:(lia)), Hrun.
      cbn [days_from flat_map]. split; [reflexivity|].
      split; [constructor; assumption|].
      intros d Hd. split.
      * intros [<-|Hin]; [lia|]. apply (Hdays d Hd) in Hin. lia.
      * intros [Hlo Hhi]. destruct (Z.eq_dec (ord cur) (ord d)) as [Heq|Hne].
        -- left. now apply ord_inj.
        -- right. apply (Hdays d Hd). split; [|exact Hhi].
           apply next_day_least; [assumption..|lia].
    + exists O. rewrite write_rows_S. cbn [days_from flat_map].
      rewrite (iso_leb cur t Hcur Ht).
      replace (ord cur <=? ord t) with false by (symmetry; apply Z.leb_gt; lia).
      split; [reflexivity|]. split; [constructor|].
      intros d Hd. split; [intros []|intros; lia].
Qed.

(** The loop of the report.  Let it start at a valid day
    [lo] and let today be a valid day [t] (years 1000 to 9998).  With
    enough fuel the loop ends, and [incrementDate] does not raise in it.  It visits a run of successive
    days beginning at [lo], one turn per day; a valid day is among them
    exactly when it lies in the window from [lo] to [t]; and the lines
    written are, day after day, the lines of those days.  A day has a
    line exactly when some fund of the manifest has a record on it, and
    that line is the date followed by one cell per fund, in manifest
    order, blank where the fund has no record on that day.  A day on
    which no fund has a record gets no line. *)
Theorem report_loop_walks_window
  (data : PyDict.dict (PyDict.dict PyFloat.float)) (fundIDs : list string)
  (lo t : ymd) :
  valid lo -> valid t -> year t <= 9998 ->
  exists fuel k,
    write_rows fuel (iso t) data fundIDs (iso lo) =
    Some (flat_map (lines_of data fundIDs) (days_from k lo), Ok tt) /\
    Forall valid (days_from k lo) /\
    (forall d, valid d ->
               (In d (days_from k lo) <->
                String.leb (iso lo) (iso d) = true /\
                String.leb (iso d) (iso t) = true)) /\
    (forall d line,
        In line (lines_of data fundIDs d) <->
        (exists lookupID, In lookupID fundIDs /\
                          cell data (iso d) lookupID <> None) /\
        line = iso d ++ "," ++
               PyStr.join "," (map (fun lookupID =>
                                      text_of (cell data (iso d) lookupID))
                                 fundIDs) ++ nl).
Proof.
  intros Hlo Ht Hlast.
  destruct (write_rows_days data fundIDs t (Z.to_nat (ord t - ord lo + 1))
              Ht Hlast lo Hlo ltac:(lia)) as [k [Hrun [Hvalid Hdays]]].
  exists (S (Z.to_nat (ord t - ord lo + 1))), k.
  split; [exact Hrun|]. split; [exact Hvalid|]. split.
  - intros d Hd. rewrite (Hdays d Hd).
    rewrite (iso_leb lo d Hlo Hd), (iso_leb d t Hd Ht), !Z.leb_le. tauto.
  - intros d line. rewrite <- row_spec. unfold lines_of, lines_of_text.
    destruct (row data fundIDs (iso d)) as [l|]; simpl.
    + split; [intros [->|[]]; reflexivity|intros [= ->]; now left].
    + split; [intros []|discriminate].
Qed.

Lemma valid_first_of_september : valid first_of_september.
Proof. repeat split; vm_compute; discriminate. Qed.

Lemma valid_third_of_september : valid third_of_september.
Proof. repeat split; vm_compute; discriminate. Qed.

Lemma report_loop_walks_window_witness :
  exists fuel k,
    write_rows fuel "2021-09-03"
      [("FBAL", [("2021-09-03", multiplier)])] ["FBAL"] "2021-09-01" =
    Some (flat_map (lines_of [("FBAL", [("2021-09-03", multiplier)])] ["FBAL"])
            (days_from k first_of_september), Ok tt).
Proof.
  destruct (report_loop_walks_window
              [("FBAL", [("2021-09-03", multiplier)])] ["FBAL"]
              first_of_september third_of_september
              valid_first_of_september valid_third_of_september
              ltac:(vm_compute; discriminate)) as [fuel [k [Hrun _]]].
  exists fuel, k. exact Hrun.
Defined.

(** C9, the counterexample: a run that ends well and whose report has no
    line for 2 September 2021, a day of the window on which no fund has
    a record. *)
Lemma report_not_dense :
  exists st lines,
    main 400 two_funds_world = Some (SystemExit 0, st) /\
    report st = Some ("ETFs.csv", lines) /\
    lines = ["Date,Balanced,Fidelity B" ++ nl;
             "2021-09-03,0.0123,0.0002" ++ nl] /\
    ~ dense (Database.getIntervalToDate (utc_today two_funds_world)
               INTERVAL_RANGE)
        (TODAY two_funds_world) lines.
Proof.
  eexists. eexists. split; [vm_compute; reflexivity|].
  split; [reflexivity|]. split; [reflexivity|].
  intros Hdense.
  destruct (Hdense (mk_ymd 2021 9 2)) as [line [Hin Hprefix]];
    [repeat split; vm_compute; discriminate|reflexivity|reflexivity|].
  destruct Hin as [<-|[<-|[]]]; vm_compute in Hprefix; discriminate.
Qed.

End Report.

(** ** Invariants of the database *)

Section DatabaseInvariants.

Import Database.

Lemma fold_max_upper (ids : list Z) (x : Z) :
  In x ids -> x <= fold_right Z.max 0 ids.
Proof.
  induction ids as [|y ids IH]; simpl; [contradiction|].
  intros [->|Hin]; [lia|]. specialize (IH Hin). lia.
Qed.

Lemma next_rowid_fresh (ids : list Z) : ~ In (next_rowid ids) ids.
Proof.
  intros Hin. apply fold_max_upper in Hin. unfold next_rowid in Hin. lia.
Qed.

Lemma registered_lookup_In (c : string) (db : FidelityDB) :
  registered c db = false -> ~ In c (map fundLookup (funds db)).
Proof.
  unfold registered. intros Hreg Hin. apply in_map_iff in Hin.
  destruct Hin as [r [Heq Hr]].
  assert (Hex : existsb (fun r0 => String.eqb (fundLookup r0) c) (funds db) = true).
  { apply existsb_exists. exists r. split; [exact Hr|]. rewrite Heq.
    apply String.eqb_refl. }
  congruence.
Qed.

Lemma select_fundID_In (c : string) (db : FidelityDB) (f : Z) :
  select_fundID c db = Some f -> In f (map fundID (funds db)).
Proof.
  unfold select_fundID.
  destruct (find (fun r => String.eqb (fundLookup r) c) (funds db)) as [r|] eqn:Hfind;
    [|discriminate].
  intros [= <-]. apply find_some in Hfind. apply in_map. tauto.
Qed.

Lemma NoDup_snoc {A : Type} (l : list A) (x : A) :
  NoDup l -> ~ In x l -> NoDup (l ++ [x]).
Proof.
  intros Hl Hx. apply NoDup_rev in Hl.
  rewrite <- (rev_involutive (l ++ [x])). apply NoDup_rev.
  rewrite rev_app_distr. simpl. constructor; [|exact Hl].
  intros Hin. apply Hx. now apply in_rev.
Qed.

Lemma well_formed_insertOrIgnoreFund (n c : string) (db : FidelityDB) :
  well_formed db -> well_formed (insertOrIgnoreFund n c db).
Proof.
  intros [Hl [Hi [Hc Hr]]]. unfold insertOrIgnoreFund.
  destruct (registered c db) eqn:Hreg; [repeat split; assumption|].
  unfold well_formed; simpl. rewrite !map_app; simpl. repeat split.
  - apply NoDup_snoc; [exact Hl|now apply registered_lookup_In].
  - apply NoDup_snoc; [exact Hi|apply next_rowid_fresh].
  - exact Hc.
  - eapply Forall_impl; [|exact Hr]. intros r Hf f Hsome.
    apply in_or_app. left. now apply Hf.
Qed.

Lemma well_formed_insertOrIgnoreFunds (fs : list (string * string)) :
  forall db, well_formed db -> well_formed (insertOrIgnoreFunds fs db).
Proof.
  induction fs as [|nf fs IH]; intros db Hwf; [exact Hwf|].
  rewrite insertOrIgnoreFunds_cons. apply IH.
  now apply well_formed_insertOrIgnoreFund.
Qed.

Lemma well_formed_insertDollarChange (lt : Calendar.ymd) (c : string) (v : Z)
  (d : option string) (db db' : FidelityDB) :
  well_formed db -> insertDollarChange lt c v d db = Ok db' -> well_formed db'.
Proof.
  intros [Hl [Hi [Hc Hr]]]. unfold insertDollarChange.
  destruct (sqlite_int v); [|discriminate]. intros [= <-].
  unfold well_formed; simpl. rewrite map_app; simpl. repeat split.
  - exact Hl.
  - exact Hi.
  - apply NoDup_snoc; [exact Hc|apply next_rowid_fresh].
  - apply Forall_app. split; [exact Hr|]. constructor; [|constructor].
    simpl. intros f Hf. now apply select_fundID_In with c.
Qed.

Lemma well_formed_initializeDB : well_formed initializeDB.
Proof. unfold well_formed, initializeDB; simpl. repeat split; constructor. Qed.

(** The three writing operations keep a well-formed database well
    formed: lookup codes stay unique, the identifiers SQLite hands out
    are fresh, and a row of [dollarChanges] whose fund reference is not
    NULL refers to a row of [funds]. *)
Theorem well_formed_preserved (db : FidelityDB) :
  well_formed db ->
  (forall n c, well_formed (insertOrIgnoreFund n c db)) /\
  (forall fs, well_formed (insertOrIgnoreFunds fs db)) /\
  (forall lt c v d db',
      insertDollarChange lt c v d db = Ok db' -> well_formed db').
Proof.
  intros Hwf. split; [|split].
  - intros n c. now apply well_formed_insertOrIgnoreFund.
  - intros fs. now apply well_formed_insertOrIgnoreFunds.
  - intros lt c v d db'. now apply well_formed_insertDollarChange.
Qed.

Lemma well_formed_preserved_witness :
  well_formed db_one_fund /\
  well_formed (insertOrIgnoreFunds [("Fidelity B", "FGRO")] db_one_fund).
Proof.
  pose proof (proj1 (well_formed_preserved initializeDB well_formed_initializeDB)
                "Fidelity All-in-One Balanced ETF" "FBAL") as Hwf.
  split; [exact Hwf|].
  exact (proj1 (proj2 (well_formed_preserved db_one_fund Hwf))
           [("Fidelity B", "FGRO")]).
Defined.

End DatabaseInvariants.

(** ** Registration and the rows already stored *)

Section Registration.

Import Database.

Lemma find_app_l {A : Type} (p : A -> bool) (l l' : list A) (x : A) :
  find p l = Some x -> find p (l ++ l') = Some x.
Proof.
  induction l as [|y l IH]; simpl; [discriminate|].
  destruct (p y); [trivial|exact IH].
Qed.

Lemma find_app_r {A : Type} (p : A -> bool) (l l' : list A) :
  find p l = None -> find p (l ++ l') = find p l'.
Proof.
  induction l as [|y l IH]; simpl; [reflexivity|].
  destruct (p y); [discriminate|exact IH].
Qed.

Lemma filter_none {A : Type} (p : A -> bool) (l : list A) :
  (forall x, In x l -> p x = false) -> filter p l = [].
Proof.
  induction l as [|y l IH]; intros H; simpl; [reflexivity|].
  rewrite (H y (or_introl eq_refl)). apply IH. intros x Hx. apply H. now right.
Qed.

Lemma insertOrIgnoreFund_frame (n c : string) (db : FidelityDB) :
  dollarChanges (insertOrIgnoreFund n c db) = dollarChanges db /\
  (exists added, funds (insertOrIgnoreFund n c db) = (funds db ++ added)%list) /\
  (forall c' f, select_fundID c' db = Some f ->
                select_fundID c' (insertOrIgnoreFund n c db) = Some f).
Proof.
  unfold insertOrIgnoreFund. destruct (registered c db).
  - split; [reflexivity|]. split; [exists []; now rewrite app_nil_r|trivial].
  - simpl. split; [reflexivity|]. split; [eexists; reflexivity|].
    intros c' f. unfold select_fundID; simpl.
    destruct (find (fun r => String.eqb (fundLookup r) c') (funds db)) as [r|] eqn:Hfind;
      [|discriminate].
    intros [= <-]. now rewrite (find_app_l _ _ _ _ Hfind).
Qed.

(** Registration never disturbs what is stored.  Whatever list of funds
    is registered: the table of daily changes is untouched; the fund
    table only grows at its end; a lookup code that resolved to a fund
    identifier resolves to the same identifier afterwards; and the range
    query of a code that was registered returns what it returned
    before. *)
Theorem registration_keeps_existing (fs : list (string * string))
  (db : FidelityDB) :
  dollarChanges (insertOrIgnoreFunds fs db) = dollarChanges db /\
  (exists added, funds (insertOrIgnoreFunds fs db) = (funds db ++ added)%list) /\
  (forall c f, select_fundID c db = Some f ->
               select_fundID c (insertOrIgnoreFunds fs db) = Some f) /\
  (forall utc_today interval c,
      registered c db = true ->
      getDollarChangesIntervalToDateByFund utc_today interval c
        (insertOrIgnoreFunds fs db) =
      getDollarChangesIntervalToDateByFund utc_today interval c db).
Proof.
  assert (Hframe : dollarChanges (insertOrIgnoreFunds fs db) = dollarChanges db /\
                   (exists added, funds (insertOrIgnoreFunds fs db) = (funds db ++ added)%list) /\
                   (forall c f, select_fundID c db = Some f ->
                                select_fundID c (insertOrIgnoreFunds fs db) = Some f)).
  { revert db. induction fs as [|nf fs IH]; intros db.
    - split; [reflexivity|]. split; [exists []; now rewrite app_nil_r|trivial].
    - rewrite insertOrIgnoreFunds_cons.
      destruct (insertOrIgnoreFund_frame (fst nf) (snd nf) db) as [Hd [[a Ha] Hs]].
      destruct (IH (insertOrIgnoreFund (fst nf) (snd nf) db)) as [Hd' [[a' Ha'] Hs']].
      split; [congruence|]. split.
      + exists (a ++ a')%list. rewrite Ha', Ha. now rewrite app_assoc.
      + intros c f Hc. apply Hs', Hs, Hc. }
  destruct Hframe as [Hd [Ha Hs]]. repeat split; try assumption.
  intros utc_today interval c Hreg.
  destruct (select_fundID_registered c db Hreg) as [f Hf].
  unfold getDollarChangesIntervalToDateByFund.
  now rewrite (Hs c f Hf), Hf, Hd.
Qed.

(** A delta recorded under a lookup code that is not registered is
    accepted and then cannot be read back: the range query of that code
    is empty right after the insertion, and in a well-formed database it
    stays empty when the code is registered afterwards, since the row
    holds NULL and not the identifier the fund gets. *)
Theorem unknown_fund_row_is_unreadable (localtime_today utc_today : Calendar.ymd)
  (interval c : string) (v : Z) (d : string) (db : FidelityDB) :
  registered c db = false ->
  sqlite_int v = true ->
  exists db',
    insertDollarChange localtime_today c v (Some d) db = Ok db' /\
    getDollarChangesIntervalToDateByFund utc_today interval c db' = [] /\
    (well_formed db ->
     forall n,
       getDollarChangesIntervalToDateByFund utc_today interval c
         (insertOrIgnoreFund n c db') = []).
Proof.
  intros Hreg Hint.
  pose proof (select_fundID_unregistered c db Hreg) as Hsel.
  unfold insertDollarChange. rewrite Hint, Hsel.
  eexists. split; [reflexivity|]. split.
  - unfold getDollarChangesIntervalToDateByFund, select_fundID in *. simpl.
    now rewrite Hsel.
  - intros [_ [_ [_ Hrefs]]] n.
    unfold insertOrIgnoreFund, registered in *. simpl. rewrite Hreg.
    unfold getDollarChangesIntervalToDateByFund, select_fundID in *. simpl.
    destruct (find (fun r => String.eqb (fundLookup r) c) (funds db)) eqn:Hfind;
      [discriminate|].
    rewrite (find_app_r _ _ _ Hfind). simpl. rewrite String.eqb_refl. simpl.
    rewrite filter_none; [reflexivity|].
    intros r Hr. unfold in_range.
    apply in_app_or in Hr. destruct Hr as [Hr|[<-|[]]]; [|reflexivity].
    rewrite Forall_forall in Hrefs. specialize (Hrefs r Hr).
    destruct (change_fundID r) as [f|]; [|reflexivity].
    specialize (Hrefs f eq_refl).
    destruct (Z.eqb_spec f (next_rowid (map fundID (funds db)))) as [->|Hne];
      [|reflexivity].
    exfalso. now apply (next_rowid_fresh (map fundID (funds db))).
Qed.

Lemma unknown_fund_row_is_unreadable_witness :
  exists db',
    insertDollarChange a_friday "ZZZZ" 123 (Some "2021-09-03") db_one_fund = Ok db' /\
    getDollarChangesIntervalToDateByFund a_sunday "-1 year" "ZZZZ" db' = [] /\
    (well_formed db_one_fund ->
     forall n,
       getDollarChangesIntervalToDateByFund a_sunday "-1 year" "ZZZZ"
         (insertOrIgnoreFund n "ZZZZ" db') = []).
Proof.
  exact (unknown_fund_row_is_unreadable a_friday a_sunday "-1 year" "ZZZZ" 123
           "2021-09-03" db_one_fund eq_refl eq_refl).
Defined.

End Registration.

(** ** Dates: conversion, order and successor *)

Section Dates.

Import Calendar Fidelity.

Lemma month_cases (m : Z) :
  1 <= m <= 12 ->
  m = 1 \/ m = 2 \/ m = 3 \/ m = 4 \/ m = 5 \/ m = 6 \/ m = 7 \/
  m = 8 \/ m = 9 \/ m = 10 \/ m = 11 \/ m = 12.
Proof. lia. Qed.

Lemma month_name_lookup (m : Z) :
  1 <= m <= 12 ->
  free "-" (month_name m) = true /\
  PyDict.get (month_name m) MONTH_NAME_TO_NUM = Some (zfill 2 m).
Proof.
  intros Hm. pose proof (month_cases m Hm) as H.
  repeat (destruct H as [->|H]; [split; reflexivity|]). subst. split; reflexivity.
Qed.

Lemma split_three (a b c : string) :
  free "-" a = true -> free "-" b = true -> free "-" c = true ->
  PyStr.split "-" (a ++ "-" ++ b ++ "-" ++ c) = [a; b; c].
Proof.
  intros Ha Hb Hc.
  change (a ++ "-" ++ b ++ "-" ++ c) with (a ++ String "-" (b ++ String "-" c)).
  now rewrite split_app, split_app, split_free.
Qed.

(** What [fidelityDateToYYYY_MM_DD] does with any text.  Three fields
    without hyphen are put in the order year, month, day, the month
    being replaced through the table and the day and the year copied as
    they stand; an unknown month name raises [KeyError]; a text that
    does not split at hyphens into three fields raises [ValueError].  So
    the text the site prints for a valid date becomes the ISO text of
    that date. *)
Theorem fidelityDateToYYYY_MM_DD_spec :
  (forall day mon year : string,
      free "-" day = true -> free "-" mon = true -> free "-" year = true ->
      fidelityDateToYYYY_MM_DD (day ++ "-" ++ mon ++ "-" ++ year) =
      match PyDict.get mon MONTH_NAME_TO_NUM with
      | Some m => Ok (year ++ "-" ++ m ++ "-" ++ day)
      | None => Raise KeyError
      end) /\
  (forall text : string,
      List.length (PyStr.split "-" text) <> 3%nat ->
      fidelityDateToYYYY_MM_DD text = Raise ValueError) /\
  (forall d : ymd,
      valid d -> fidelityDateToYYYY_MM_DD (fidelity_text d) = Ok (iso d)).
Proof.
  split; [|split].
  - intros day mon year Hd Hm Hy. unfold fidelityDateToYYYY_MM_DD.
    now rewrite split_three.
  - intros text Hlen. unfold fidelityDateToYYYY_MM_DD.
    destruct (PyStr.split "-" text) as [|a [|b [|c [|x l]]]]; try reflexivity.
    now contradiction Hlen.
  - intros d [Hy [Hm Hd]]. unfold fidelityDateToYYYY_MM_DD, fidelity_text.
    destruct (month_name_lookup (month d) Hm) as [Hfree Hget].
    rewrite split_three by (try apply free_zfill; assumption).
    now rewrite Hget.
Qed.

(** On texts of valid dates the order of strings, which the window of
    the range query and the loop of the report use, is the order of the
    calendar. *)
Theorem iso_order_is_calendar_order (a b : ymd) :
  valid a -> valid b ->
  (String.leb (iso a) (iso b) = true <-> date_le a b) /\
  (iso a = iso b <-> a = b).
Proof.
  intros Ha Hb. split.
  - rewrite (iso_leb a b Ha Hb), Z.leb_le. unfold ord, date_le.
    destruct Ha as [Hya [Hma Hda]], Hb as [Hyb [Hmb Hdb]].
    pose proof (days_in_month_bounds (year a) (month a)).
    pose proof (days_in_month_bounds (year b) (month b)). lia.
  - split; [|now intros ->]. intros Heq. apply ord_inj; try assumption.
    apply Z.compare_eq. rewrite <- iso_compare by assumption.
    rewrite Heq. apply string_compare_refl.
Qed.

Lemma iso_order_is_calendar_order_witness :
  String.leb (iso first_of_september) (iso third_of_september) = true <->
  date_le first_of_september third_of_september.
Proof.
  exact (proj1 (iso_order_is_calendar_order first_of_september third_of_september
                  valid_first_of_september valid_third_of_september)).
Defined.

(** [incrementDate] on the text of a valid date with a year of four
    digits before 9999, that is, from 1000 to 9998: [strptime] reads the
    date back, and the result is the text of a valid date that is later
    and is the earliest later one, the next day.  (Below the year 1000
    [strftime] need not pad the year, and nothing is stated.) *)
Theorem incrementDate_is_next_day (d : ymd) :
  valid d -> year d <= 9998 ->
  strptime (iso d) = Ok d /\
  incrementDate (iso d) = Ok (iso (next_day d)) /\
  valid (next_day d) /\
  String.ltb (iso d) (iso (next_day d)) = true /\
  (forall x, valid x -> String.ltb (iso d) (iso x) = true ->
             String.leb (iso (next_day d)) (iso x) = true).
Proof.
  intros Hd Hy. destruct (next_day_valid d Hd Hy) as [Hnext Hlt].
  split; [now apply strptime_iso|]. split; [now apply incrementDate_iso|].
  split; [exact Hnext|]. split.
  - unfold String.ltb. rewrite (iso_compare d (next_day d) Hd Hnext).
    now rewrite (proj2 (Z.compare_lt_iff _ _) Hlt).
  - intros x Hx. unfold String.ltb. rewrite (iso_compare d x Hd Hx).
    destruct (Z.compare_spec (ord d) (ord x)); try discriminate. intros _.
    rewrite (iso_leb (next_day d) x Hnext Hx). apply Z.leb_le.
    now apply next_day_least.
Qed.

Lemma incrementDate_is_next_day_witness :
  incrementDate "2021-09-01" = Ok "2021-09-02".
Proof.
  exact (proj1 (proj2 (incrementDate_is_next_day first_of_september
                         valid_first_of_september ltac:(vm_compute; discriminate)))).
Defined.

(** The errors of [incrementDate]: a text that does not split at
    hyphens into three fields, and the text of a day its month does not
    have, raise [ValueError]; the last day of the year 9999 raises
    [OverflowError]. *)
Theorem incrementDate_errors :
  (forall text : string,
      List.length (PyStr.split "-" text) <> 3%nat ->
      incrementDate text = Raise ValueError) /\
  (forall d : ymd,
      0 <= year d <= 9999 -> 1 <= month d <= 12 ->
      days_in_month (year d) (month d) < day d <= 31 ->
      incrementDate (iso d) = Raise ValueError) /\
  incrementDate (iso (mk_ymd 9999 12 31)) = Raise OverflowError.
Proof.
  split; [|split].
  - intros text Hlen. unfold incrementDate, strptime.
    destruct (PyStr.split "-" text) as [|a [|b [|c [|x l]]]]; try reflexivity.
    now contradiction Hlen.
  - intros d Hy Hm Hd. unfold incrementDate, strptime.
    pose proof (days_in_month_bounds (year d) (month d)) as Hb.
    rewrite split_iso, year_field_zfill, month_field_zfill, day_field_zfill by lia.
    replace (day d <=? days_in_month (year d) (month d)) with false
      by (symmetry; apply Z.leb_gt; lia).
    now rewrite andb_false_r.
  - reflexivity.
Qed.

End Dates.

(** ** The manifest *)

Section Manifest.

Import Fidelity PyDict.

Lemma keys_set {V : Type} (k : string) (v : V) (d : dict V) (k' : string) :
  In k' (keys (set k v d)) <-> k' = k \/ In k' (keys d).
Proof.
  unfold keys. induction d as [|[k0 v0] d IH]; simpl.
  - intuition.
  - destruct (String.eqb_spec k0 k) as [->|Hne]; simpl; [intuition|].
    rewrite IH. intuition.
Qed.

Lemma NoDup_keys_set {V : Type} (k : string) (v : V) (d : dict V) :
  NoDup (keys d) -> NoDup (keys (set k v d)).
Proof.
  unfold keys. induction d as [|[k0 v0] d IH]; simpl; intros Hnd.
  - constructor; [intros []|constructor].
  - destruct (String.eqb_spec k0 k) as [->|Hne]; simpl; [exact Hnd|].
    inversion Hnd as [|x xs Hnotin Hrest]; subst. constructor; [|now apply IH].
    intros Hin. apply (keys_set k v d k0) in Hin. destruct Hin as [->|Hin];
      [now apply Hne|now apply Hnotin].
Qed.

Lemma get_In {V : Type} (k : string) (d : dict V) :
  In k (keys d) -> exists v, get k d = Some v.
Proof.
  unfold keys. induction d as [|[k0 v0] d IH]; simpl; [contradiction|].
  destruct (String.eqb_spec k0 k) as [->|Hne]; [now exists v0|].
  intros [Heq|Hin]; [contradiction|now apply IH].
Qed.

Lemma get_set_same {V : Type} (k : string) (v : V) (d : dict V) :
  get k (set k v d) = Some v.
Proof.
  induction d as [|[k0 v0] d IH]; simpl; [now rewrite String.eqb_refl|].
  destruct (String.eqb_spec k0 k) as [->|Hne]; simpl.
  - now rewrite String.eqb_refl.
  - destruct (String.eqb_spec k0 k); [contradiction|exact IH].
Qed.

Lemma get_set_other {V : Type} (k k' : string) (v : V) (d : dict V) :
  k <> k' -> get k' (set k v d) = get k' d.
Proof.
  intros Hne. induction d as [|[k0 v0] d IH]; simpl.
  - destruct (String.eqb_spec k k'); [contradiction|reflexivity].
  - destruct (String.eqb_spec k0 k) as [->|Hne0]; simpl.
    + destruct (String.eqb_spec k k'); [contradiction|reflexivity].
    + destruct (String.eqb_spec k0 k'); [reflexivity|exact IH].
Qed.

Lemma parse_lines_inv (lines : list string) :
  forall funds names ids funds' names' ids',
    parse_lines lines funds names ids = Ok (funds', names', ids') ->
    manifest_inv funds names ids ->
    manifest_inv funds' names' ids' /\
    ids' = (ids ++ map lookup_of lines)%list.
Proof.
  induction lines as [|l lines IH]; intros funds names ids funds' names' ids'.
  - simpl. intros [= <- <- <-] Hinv. split; [exact Hinv|now rewrite app_nil_r].
  - cbn [parse_lines].
    destruct (PyStr.split "," l) as [|name [|lookupID [|simplified [|x xs]]]] eqn:Hsplit;
      try discriminate.
    intros Hparse [Hf [Hn Hnd]].
    apply IH in Hparse.
    + destruct Hparse as [Hinv ->]. split; [exact Hinv|].
      cbn [map].
      replace (lookup_of l) with lookupID by (unfold lookup_of; now rewrite Hsplit).
      now rewrite <- app_assoc.
    + repeat split.
      * intros Hin. apply keys_set in Hin. apply in_or_app.
        destruct Hin as [->|Hin]; [right; now left|left; now apply Hf].
      * intros Hin. apply keys_set. apply in_app_or in Hin.
        destruct Hin as [Hin|[<-|[]]]; [right; now apply Hf|now left].
      * intros Hin. apply keys_set in Hin. apply in_or_app.
        destruct Hin as [->|Hin]; [right; now left|left; now apply Hn].
      * intros Hin. apply keys_set. apply in_app_or in Hin.
        destruct Hin as [Hin|[<-|[]]]; [right; now apply Hn|now left].
      * now apply NoDup_keys_set.
Qed.

Lemma parse_lines_succeeds (lines : list string) :
  forall funds names ids,
    (exists r, parse_lines lines funds names ids = Ok r) <->
    Forall (fun l => List.length (PyStr.split "," l) = 3%nat) lines.
Proof.
  induction lines as [|l lines IH]; intros funds names ids.
  - simpl. split; [constructor|intros _; eexists; reflexivity].
  - cbn [parse_lines].
    destruct (PyStr.split "," l) as [|name [|lookupID [|simplified [|x xs]]]] eqn:Hsplit;
      try (split; [intros [r Hr]; discriminate
                  |intros H; inversion H as [|? ? Hlen _]; subst;
                   rewrite Hsplit in Hlen; discriminate]).
    rewrite IH. split.
    + intros H. constructor; [now rewrite Hsplit|exact H].
    + intros H. now inversion H.
Qed.

Lemma header_names_succeeds (names : dict string) (ids : list string) :
  (forall k, In k ids -> In k (keys names)) ->
  exists ns, header_names names ids = Ok ns /\
             List.length ns = List.length ids.
Proof.
  induction ids as [|id ids IH]; intros Hall.
  - exists []. split; reflexivity.
  - destruct (get_In id names (Hall id (or_introl eq_refl))) as [n Hn].
    destruct IH as [ns [Hns Hlen]]; [intros k Hk; apply Hall; now right|].
    exists (n :: ns). cbn [header_names]. rewrite Hn, Hns. simpl.
    split; [reflexivity|now rewrite Hlen].
Qed.

(** The loop that reads the manifest.  It succeeds exactly when every
    line after the header splits at commas into three fields, and raises
    [ValueError] otherwise.  When it succeeds, [fundIDs] lists the second
    field of every line, in order and with repetitions; the keys of
    [funds] and of [simplifiedNames] are those codes, each once; and so
    the header of the report can always be built, with one name per
    entry of [fundIDs]. *)
Theorem parse_lines_spec (lines : list string) :
  ((exists r, parse_lines lines [] [] [] = Ok r) <->
   Forall (fun l => List.length (PyStr.split "," l) = 3%nat) lines) /\
  (forall r, parse_lines lines [] [] [] = Raise r -> r = ValueError) /\
  (forall funds names ids,
      parse_lines lines [] [] [] = Ok (funds, names, ids) ->
      ids = map lookup_of lines /\
      NoDup (keys funds) /\
      (forall k, In k (keys funds) <-> In k ids) /\
      (forall k, In k (keys names) <-> In k ids) /\
      exists ns, header_names names ids = Ok ns /\
                 List.length ns = List.length ids).
Proof.
  split; [apply parse_lines_succeeds|]. split.
  - generalize (@nil (string * string)) at 1 as funds.
    generalize (@nil (string * string)) as names.
    generalize (@nil string) as ids.
    induction lines as [|l lines IH]; intros ids names funds r; [discriminate|].
    cbn [parse_lines].
    destruct (PyStr.split "," l) as [|name [|lookupID [|simplified [|x xs]]]];
      try (now intros [= <-]).
    apply IH.
  - intros funds names ids Hparse.
    destruct (parse_lines_inv lines [] [] [] funds names ids Hparse)
      as [[Hf [Hn Hnd]] Hids].
    { repeat split; try (intros []); constructor. }
    simpl in Hids. repeat split; try assumption; try apply Hf; try apply Hn.
    apply header_names_succeeds. intros k Hk. now apply Hn.
Qed.

End Manifest.

(** ** The fetch phase *)

Section FetchPhase.

Import Fidelity PyDict.

Lemma retry_frame (w : World) (range : list nat) (name lookupID : string)
  (dcs : dict Z) :
  forall st r st',
    retry w range name lookupID dcs st = (r, st') ->
    db st' = db st /\ report st' = report st /\ log st' = log st /\
    (calls st <= calls st' <= calls st + List.length range)%nat /\
    (exists written, stderr st' = (stderr st ++ written)%list) /\
    (forall dcs', r = Ok dcs' ->
                  dcs' = dcs \/ exists v, dcs' = set lookupID v dcs).
Proof.
  induction range as [|tries rest IH]; intros st r st'.
  - intros [= <- <-]. repeat split; try lia.
    + exists []. now rewrite app_nil_r.
    + intros dcs' [= <-]. now left.
  - cbn [retry].
    assert (Hnext : forall st1,
               db st1 = db st -> report st1 = report st -> log st1 = log st ->
               calls st1 = S (calls st) ->
               (exists written, stderr st1 = (stderr st ++ written)%list) ->
               retry w rest name lookupID dcs st1 = (r, st') ->
               db st' = db st /\ report st' = report st /\ log st' = log st /\
               (calls st <= calls st' <= calls st + List.length (tries :: rest))%nat /\
               (exists written, stderr st' = (stderr st ++ written)%list) /\
               (forall dcs', r = Ok dcs' ->
                             dcs' = dcs \/ exists v, dcs' = set lookupID v dcs)).
    { intros st1 Hd Hr Hl Hc [wr Hw] Hrun.
      destruct (IH st1 r st' Hrun) as [Hd' [Hr' [Hl' [Hc' [[wr' Hw'] Hk]]]]].
      repeat split; try congruence; try (simpl; lia); try assumption.
      exists (wr ++ wr')%list. now rewrite Hw', Hw, app_assoc. }
    assert (Hstop : forall x,
               (x, count_call st) = (r, st') -> (forall dcs', x = Ok dcs' ->
                  dcs' = dcs \/ exists v, dcs' = set lookupID v dcs) ->
               db st' = db st /\ report st' = report st /\ log st' = log st /\
               (calls st <= calls st' <= calls st + List.length (tries :: rest))%nat /\
               (exists written, stderr st' = (stderr st ++ written)%list) /\
               (forall dcs', r = Ok dcs' ->
                             dcs' = dcs \/ exists v, dcs' = set lookupID v dcs)).
    { intros x [= <- <-] Hx. repeat split; simpl; try lia; try assumption.
      exists []. now rewrite app_nil_r. }
    assert (Hcount : exists written,
               stderr (count_call st) = (stderr st ++ written)%list)
      by (exists []; simpl; now rewrite app_nil_r).
    destruct (getFundDollarChange (pages w (calls st)) name lookupID) as [v|e].
    + intros H. apply (Hstop _ H). intros dcs' [= <-]. right. now exists v.
    + destruct e;
        try (destruct (tries + 1 <? MAX_RETRIES)%nat;
             [intros H; now apply (Hnext (count_call st))
             |intros H; apply (Hstop _ H); discriminate]);
        try (intros H; apply (Hstop _ H); discriminate).
      destruct (tries + 1 <? MAX_RETRIES)%nat.
      * intros H. now apply (Hnext (count_call st)).
      * unfold bindM, write_stderr. simpl. intros H.
        match type of H with
        | retry _ _ _ _ _ ?s = _ =>
            apply (Hnext s); try reflexivity; [|exact H]
        end.
        simpl. eexists. reflexivity.
Qed.

Lemma fetch_all_frame (w : World) (items : list (string * string)) :
  forall dcs st r st',
    fetch_all w items dcs st = (r, st') ->
    db st' = db st /\ report st' = report st /\ log st' = log st /\
    (calls st <= calls st' <= calls st + MAX_RETRIES * List.length items)%nat /\
    (exists written, stderr st' = (stderr st ++ written)%list) /\
    (forall dcs', r = Ok dcs' ->
                  forall k, In k (keys dcs') ->
                            In k (keys dcs) \/ In k (map fst items)).
Proof.
  induction items as [|[lookupID name] items IH]; intros dcs st r st'.
  - intros [= <- <-]. repeat split; try lia.
    + exists []. now rewrite app_nil_r.
    + intros dcs' [= <-] k Hk. now left.
  - cbn [fetch_all]. unfold bindM.
    destruct (retry w (seq 0 MAX_RETRIES) name lookupID dcs st) as [[dcs1|e] st1] eqn:Hretry;
      destruct (retry_frame w _ name lookupID dcs st _ _ Hretry)
        as [Hd [Hr [Hl [Hc [[wr Hw] Hk]]]]];
      rewrite length_seq in Hc.
    + intros Hrest. destruct (IH dcs1 st1 r st' Hrest)
        as [Hd' [Hr' [Hl' [Hc' [[wr' Hw'] Hk']]]]].
      split; [congruence|]. split; [congruence|]. split; [congruence|].
      split; [unfold MAX_RETRIES in *; cbn [List.length]; lia|]. split.
      * exists (wr ++ wr')%list. now rewrite Hw', Hw, app_assoc.
      * intros dcs' Hdcs' k Hin. destruct (Hk' dcs' Hdcs' k Hin) as [Hin1|Hin1];
          [|right; now right].
        destruct (Hk dcs1 eq_refl) as [->|[v ->]]; [now left|].
        apply keys_set in Hin1. destruct Hin1 as [->|Hin1];
          [right; now left|now left].
    + intros [= <- <-].
      split; [exact Hd|]. split; [exact Hr|]. split; [exact Hl|].
      split; [unfold MAX_RETRIES in *; cbn [List.length]; lia|].
      split; [now exists wr|discriminate].
Qed.

(** The loop that fetches the deltas of all funds, however it ends:
    it leaves the database, the output file and the log as they were;
    it makes at most [MAX_RETRIES] searches per fund; it only adds to
    standard error; and the deltas it returns are filed under lookup
    codes of the funds it was given. *)
Theorem fetch_phase_frame (w : World) (items : list (string * string))
  (st : state) :
  let r := fst (fetch_all w items [] st) in
  let st' := snd (fetch_all w items [] st) in
  db st' = db st /\ report st' = report st /\ log st' = log st /\
  (calls st <= calls st' <= calls st + MAX_RETRIES * List.length items)%nat /\
  (exists written, stderr st' = (stderr st ++ written)%list) /\
  (forall dcs, r = Ok dcs -> forall k, In k (keys dcs) -> In k (map fst items)).
Proof.
  intros r st'.
  destruct (fetch_all_frame w items [] st r st') as [Hd [Hr [Hl [Hc [Hw Hk]]]]].
  { unfold r, st'. now destruct (fetch_all w items [] st). }
  repeat split; try assumption; try lia.
  intros dcs Hdcs k Hin. destruct (Hk dcs Hdcs k Hin) as [[]|H]; exact H.
Qed.

End FetchPhase.

(** ** Exceptions of the run *)

Section RunFailures.

Import Fidelity PyDict.

Lemma retry_again_any (w : World) (tries : nat) (rest : list nat)
  (name lookupID : string) (dcs : dict Z) (st : state) :
  raises_exception w (calls st) name lookupID ->
  (tries + 1 <? MAX_RETRIES)%nat = true ->
  retry w (tries :: rest) name lookupID dcs st =
  retry w rest name lookupID dcs (count_call st).
Proof.
  intros [e [H He]] Hlt. cbn [retry]. rewrite H, Hlt.
  destruct e; try reflexivity; discriminate.
Qed.

Lemma retry_raises (w : World) (tries : nat) (rest : list nat)
  (name lookupID : string) (dcs : dict Z) (st : state) (e : exception) :
  getFundDollarChange (pages w (calls st)) name lookupID = Raise e ->
  is_Exception e = true -> is_mismatch e = false ->
  (tries + 1 <? MAX_RETRIES)%nat = false ->
  retry w (tries :: rest) name lookupID dcs st = (Raise e, count_call st).
Proof.
  intros H He Hm Hlt. cbn [retry]. rewrite H, Hlt.
  destruct e; try reflexivity; discriminate.
Qed.

(** The retry loop of one fund with exceptions of any kind that
    [except Exception] catches.
    - If the first [k < 3] searches raise and the next one returns [v],
      the errors are swallowed, [v] is recorded, nothing is written to
      standard error and the run goes on with the remaining funds.
    - If the first two searches raise and the third raises an exception
      [e] other than the identity mismatch, [e] leaves the loop of the
      fund and the loop over the funds: no later fund is fetched. *)
Theorem retry_exceptions (w : World) (name lookupID : string)
  (rest : list (string * string)) (dcs : dict Z) (st : state) :
  (forall (k : nat) (v : Z),
     (k < MAX_RETRIES)%nat ->
     (forall i, (i < k)%nat -> raises_exception w (calls st + i) name lookupID) ->
     getFundDollarChange (pages w (calls st + k)) name lookupID = Ok v ->
     let st' := mk_state (db st) (stderr st) (report st) (log st)
                  (calls st + k + 1) in
     retry w (seq 0 MAX_RETRIES) name lookupID dcs st =
     (Ok (set lookupID v dcs), st') /\
     fetch_all w ((lookupID, name) :: rest) dcs st =
     fetch_all w rest (set lookupID v dcs) st') /\
  (forall e : exception,
     raises_exception w (calls st) name lookupID ->
     raises_exception w (calls st + 1) name lookupID ->
     getFundDollarChange (pages w (calls st + 2)) name lookupID = Raise e ->
     is_Exception e = true -> is_mismatch e = false ->
     let st' := mk_state (db st) (stderr st) (report st) (log st)
                  (calls st + 3) in
     retry w (seq 0 MAX_RETRIES) name lookupID dcs st = (Raise e, st') /\
     fetch_all w ((lookupID, name) :: rest) dcs st = (Raise e, st')).
Proof.
  split.
  - intros k v Hk Hbefore Hok st'.
    assert (Hretry : retry w (seq 0 MAX_RETRIES) name lookupID dcs st =
                     (Ok (set lookupID v dcs), st')).
    { unfold MAX_RETRIES in *. cbn [seq].
      destruct k as [|[|[|k]]]; [| | |lia].
      - rewrite Nat.add_0_r in Hok. rewrite (retry_returns _ _ _ _ _ _ _ v Hok).
        unfold st', count_call. do 2 f_equal. lia.
      - pose proof (Hbefore 0%nat ltac:(lia)) as H0. rewrite Nat.add_0_r in H0.
        rewrite retry_again_any; [|exact H0|reflexivity].
        rewrite (retry_returns _ _ _ _ _ _ (count_call st) v);
          [|simpl; now rewrite <- Nat.add_1_r].
        unfold st', count_call; simpl. do 2 f_equal. lia.
      - pose proof (Hbefore 0%nat ltac:(lia)) as H0. rewrite Nat.add_0_r in H0.
        pose proof (Hbefore 1%nat ltac:(lia)) as H1.
        rewrite retry_again_any; [|exact H0|reflexivity].
        rewrite retry_again_any;
          [|simpl; now rewrite <- Nat.add_1_r|reflexivity].
        rewrite (retry_returns _ _ _ _ _ _ (count_call (count_call st)) v);
          [|simpl; now replace (S (S (calls st))) with (calls st + 2)%nat by lia].
        unfold st', count_call; simpl. do 2 f_equal. lia. }
    split; [exact Hretry|]. now apply fetch_all_cons.
  - intros e H0 H1 H2 He Hm st'.
    assert (Hretry : retry w (seq 0 MAX_RETRIES) name lookupID dcs st =
                     (Raise e, st')).
    { unfold MAX_RETRIES in *. cbn [seq].
      rewrite retry_again_any; [|exact H0|reflexivity].
      rewrite retry_again_any;
        [|simpl; now rewrite <- Nat.add_1_r|reflexivity].
      rewrite (retry_raises _ _ _ _ _ _ (count_call (count_call st)) e);
        [|simpl; now replace (S (S (calls st))) with (calls st + 2)%nat by lia
         |exact He|exact Hm|reflexivity].
      unfold st', count_call; simpl. do 2 f_equal. lia. }
    split; [exact Hretry|].
    cbn [fetch_all]. unfold bindM. now rewrite Hretry.
Qed.

Lemma retry_exceptions_witness :
  (retry flaky_world (seq 0 MAX_RETRIES) "Fidelity A" "FBAL" []
     (initial_state flaky_world) =
   (Ok [("FBAL", 123)], mk_state db_one_fund [] None None 3)) /\
  (fetch_all broken_site_world [("FBAL", "Fidelity A"); ("FGRO", "Fidelity B")] []
     (initial_state broken_site_world) =
   (Raise WebDriverException, mk_state db_one_fund [] None None 3)).
Proof.
  split.
  - refine (proj1 (proj1 (retry_exceptions flaky_world "Fidelity A" "FBAL" [] []
                            (initial_state flaky_world))
                     2%nat 123 _ _ _)).
    + unfold MAX_RETRIES. lia.
    + intros [|[|i]] Hi; [| |lia];
        (eexists; split; [vm_compute; reflexivity|reflexivity]).
    + vm_compute. reflexivity.
  - refine (proj2 (proj2 (retry_exceptions broken_site_world "Fidelity A" "FBAL"
                            [("FGRO", "Fidelity B")] []
                            (initial_state broken_site_world))
                     WebDriverException _ _ _ _ _)).
    + eexists; split; [vm_compute; reflexivity|reflexivity].
    + eexists; split; [vm_compute; reflexivity|reflexivity].
    + reflexivity.
    + reflexivity.
    + reflexivity.
Defined.

Lemma gather_too_few_arguments (w : World) (st : state) :
  (List.length (argv w) < 2)%nat ->
  gather w st =
  (Raise (SystemExit (-1)),
   mk_state (db st)
     (stderr st ++
        ["Not enough arguments given. Expected 2, got " ++
         PyFloat.str_of_nonneg (Z.of_nat (List.length (argv w))) ++ nl;
         USAGE w])
     (report st) (log st) (calls st)).
Proof.
  intros Hlen. unfold gather.
  replace (Z.of_nat (List.length (argv w)) <? MIN_POSITIONAL_ARGS) with true
    by (symmetry; apply Z.ltb_lt; unfold MIN_POSITIONAL_ARGS; lia).
  unfold bindM, write_stderr, raise. simpl.
  now rewrite <- app_assoc.
Qed.

(** With fewer than two entries in [argv] the run ends in
    [sys.exit(-1)] after two lines on standard error; it reads neither
    the manifest nor the site, and leaves the database, the output file
    and the log alone. *)
Theorem too_few_arguments_exit (fuel : nat) (w : World) :
  (List.length (argv w) < 2)%nat ->
  main fuel w =
  Some (SystemExit (-1),
        mk_state (database w)
          ["Not enough arguments given. Expected 2, got " ++
           PyFloat.str_of_nonneg (Z.of_nat (List.length (argv w))) ++ nl;
           USAGE w]
          None None O).
Proof.
  intros Hlen. unfold main. now rewrite gather_too_few_arguments.
Qed.

Lemma too_few_arguments_exit_witness :
  main 0 (mk_world ["fidelity.py"] "2021-09-03" (Raise FileNotFoundError)
            (Raise TimeoutException) (fun _ => Failed WebDriverException)
            a_friday a_friday db_one_fund) =
  Some (SystemExit (-1),
        mk_state db_one_fund
          ["Not enough arguments given. Expected 2, got 1" ++ nl;
           "python3 fidelity.py <funds.csv> [ETFs.csv]" ++ nl]
          None None O).
Proof.
  exact (too_few_arguments_exit 0
           (mk_world ["fidelity.py"] "2021-09-03" (Raise FileNotFoundError)
              (Raise TimeoutException) (fun _ => Failed WebDriverException)
              a_friday a_friday db_one_fund) (le_n 2)).
Defined.

End RunFailures.

(** ** How a run ends *)

Section RunOutcomes.

Import Database Fidelity PyDict.

Lemma fidelityDateToYYYY_MM_DD_raises (text : string) (e : exception) :
  fidelityDateToYYYY_MM_DD text = Raise e -> e = ValueError \/ e = KeyError.
Proof.
  unfold fidelityDateToYYYY_MM_DD.
  destruct (PyStr.split "-" text) as [|a [|b [|c [|x l]]]];
    try (intros [= <-]; now left).
  destruct (get b MONTH_NAME_TO_NUM); [discriminate|].
  intros [= <-]. now right.
Qed.

Lemma gather_session_opened (w : World) (funds names : dict string)
  (ids : list string) (p : string) (st : state) :
  (2 <= List.length (argv w))%nat ->
  parsed_manifest w = Ok (funds, names, ids) ->
  FidelityScraper w = Ok p ->
  gather w st =
  (dollarChanges <~ fetch_all w funds [] ;;
   _ <~ (fun st0 =>
           (Ok tt,
            set_db (insertOrIgnoreFunds
                      (map (fun item => (snd item, fst item)) funds) (db st0))
              st0)) ;;
   _ <~ insert_changes w dollarChanges ;;
   data <~ (fun st0 => (query_all w (db st0) (keys funds) [], st0)) ;;
   ret (ids, names, getIntervalToDate (utc_today w) INTERVAL_RANGE, data)) st.
Proof.
  intros Hargc Hparse Hopen. unfold gather.
  replace (Z.of_nat (List.length (argv w)) <? MIN_POSITIONAL_ARGS) with false
    by (symmetry; apply Z.ltb_ge; unfold MIN_POSITIONAL_ARGS; lia).
  unfold parsed_manifest in Hparse.
  unfold bindM at 1. unfold lift. rewrite Hparse.
  unfold bindM at 1. unfold open_session. rewrite Hopen. reflexivity.
Qed.

(** The three ways in which the session can fail to open, in a run that
    got as far as opening it.  A timeout of the wait for the price date
    ends the run in [sys.exit(-2)]; a price date other than today ends it
    in [sys.exit(-3)]; both write the message to the log and to standard
    error.  A price date that cannot be converted ends the run in the
    uncaught [ValueError] or [KeyError], with no log.  In all three the
    database is as the run found it, no search is made and no output
    file is opened. *)
Theorem session_failures (fuel : nat) (w : World) :
  reaches_session w ->
  (price_date w = Raise TimeoutException ->
   main fuel w =
   Some (SystemExit (-2),
         mk_state (database w) [message CannotFindDateError ++ nl] None
           (Some [hd EmptyString (argv w) ++ " ran; Error:" ++ nl;
                  message CannotFindDateError ++ nl]) O)) /\
  (forall text d,
      price_date w = Ok text -> fidelityDateToYYYY_MM_DD text = Ok d ->
      d <> TODAY w ->
      main fuel w =
      Some (SystemExit (-3),
            mk_state (database w)
              [message (DifferentDateError d (TODAY w)) ++ nl] None
              (Some [hd EmptyString (argv w) ++ " ran; Error:" ++ nl;
                     message (DifferentDateError d (TODAY w)) ++ nl]) O)) /\
  (forall text e,
      price_date w = Ok text -> fidelityDateToYYYY_MM_DD text = Raise e ->
      (e = ValueError \/ e = KeyError) /\
      main fuel w = Some (e, initial_state w)).
Proof.
  intros Hreach. split; [|split].
  - intros Hdate. unfold main.
    rewrite (gather_open_session_raises w (SystemExit (-2)) _
               (mk_state (database w) [message CannotFindDateError ++ nl] None
                  (Some [hd EmptyString (argv w) ++ " ran; Error:" ++ nl;
                         message CannotFindDateError ++ nl]) O) Hreach);
      [reflexivity|].
    unfold open_session, FidelityScraper. rewrite Hdate. reflexivity.
  - intros text d Hdate Hconv Hne. unfold main.
    rewrite (gather_open_session_raises w (SystemExit (-3)) _
               (mk_state (database w)
                  [message (DifferentDateError d (TODAY w)) ++ nl] None
                  (Some [hd EmptyString (argv w) ++ " ran; Error:" ++ nl;
                         message (DifferentDateError d (TODAY w)) ++ nl]) O) Hreach);
      [reflexivity|].
    unfold open_session, FidelityScraper. rewrite Hdate, Hconv. cbn [bind].
    apply String.eqb_neq in Hne. rewrite Hne. reflexivity.
  - intros text e Hdate Hconv.
    pose proof (fidelityDateToYYYY_MM_DD_raises text e Hconv) as He.
    split; [exact He|]. unfold main.
    rewrite (gather_open_session_raises w e _ (initial_state w) Hreach);
      [reflexivity|].
    unfold open_session, FidelityScraper. rewrite Hdate, Hconv. cbn [bind].
    destruct He as [-> | ->]; reflexivity.
Qed.

Lemma session_failures_witness :
  main 0 sunday_world =
  Some (SystemExit (-3),
        mk_state (database sunday_world)
          [message (DifferentDateError "2021-09-04" (TODAY sunday_world)) ++ nl]
          None
          (Some [hd EmptyString (argv sunday_world) ++ " ran; Error:" ++ nl;
                 message (DifferentDateError "2021-09-04" (TODAY sunday_world))
                   ++ nl]) O).
Proof.
  refine (proj1 (proj2 (session_failures 0 sunday_world
                          (conj (le_n 2) (ex_intro _ _ eq_refl))))
            "04-Sep-2021" "2021-09-04" eq_refl eq_refl _).
  discriminate.
Defined.

(** An exception that leaves the fetch loop ends the run uncaught
    before anything is stored: the database is as the run found it, the
    funds of the manifest are not registered, the deltas already fetched
    are not recorded, no output file is opened and no log is written. *)
Theorem fatal_fetch_persists_nothing (fuel : nat) (w : World)
  (funds names : dict string) (ids : list string) (p : string) (e : exception) :
  (2 <= List.length (argv w))%nat ->
  parsed_manifest w = Ok (funds, names, ids) ->
  FidelityScraper w = Ok p ->
  fst (fetch_all w funds [] (initial_state w)) = Raise e ->
  exists st,
    main fuel w = Some (e, st) /\
    db st = database w /\ report st = None /\ log st = None.
Proof.
  intros Hargc Hparse Hopen Hfetch.
  destruct (fetch_all w funds [] (initial_state w)) as [r st] eqn:Hrun.
  simpl in Hfetch. subst r.
  destruct (fetch_all_frame w funds [] (initial_state w) _ _ Hrun)
    as [Hd [Hr [Hl _]]].
  exists st. split; [|now repeat split].
  unfold main. fold (initial_state w).
  rewrite (gather_session_opened w funds names ids p _ Hargc Hparse Hopen).
  unfold bindM at 1. now rewrite Hrun.
Qed.

Lemma fatal_fetch_persists_nothing_witness :
  exists st,
    main 0 broken_site_world = Some (WebDriverException, st) /\
    db st = db_one_fund /\ report st = None /\ log st = None.
Proof.
  eapply (fatal_fetch_persists_nothing 0 broken_site_world);
    [exact (le_n 2)|reflexivity|reflexivity|reflexivity].
Defined.

Lemma insert_changes_effect (w : World) (items : list (string * Z)) :
  forall st r st',
    insert_changes w items st = (r, st') ->
    (forall k, In k (map fst items) -> registered k (db st) = true) ->
    funds (db st') = funds (db st) /\
    (exists new, dollarChanges (db st') = (dollarChanges (db st) ++ new)%list /\
                 Forall (stored_today w) new) /\
    stderr st' = stderr st /\ report st' = report st /\ log st' = log st /\
    calls st' = calls st.
Proof.
  induction items as [|[lookup v] items IH]; intros st r st'.
  - intros [= <- <-] _. split; [reflexivity|]. split; [|now repeat split].
    exists []. split; [now rewrite app_nil_r|constructor].
  - cbn [insert_changes]. intros Hrun Hreg.
    destruct (select_fundID_registered lookup (db st)
                (Hreg lookup (or_introl eq_refl))) as [f Hf].
    unfold insertDollarChange in Hrun. rewrite Hf in Hrun.
    destruct (sqlite_int v).
    + apply IH in Hrun.
      * destruct Hrun as [Hfunds [[new [Hnew Hall]] Hrest]]. simpl in *.
        split; [exact Hfunds|]. split; [|exact Hrest].
        eexists. split; [rewrite Hnew, <- app_assoc; reflexivity|].
        constructor; [|exact Hall]. split; [reflexivity|discriminate].
      * intros k Hk. simpl. unfold registered in *. simpl.
        apply Hreg. now right.
    + injection Hrun as <- <-. split; [reflexivity|]. split; [|now repeat split].
      exists []. split; [now rewrite app_nil_r|constructor].
Qed.

Lemma open_session_frame (w : World) (st : state) :
  db (snd (open_session w st)) = db st /\
  report (snd (open_session w st)) = report st /\
  calls (snd (open_session w st)) = calls st.
Proof.
  unfold open_session. destruct (FidelityScraper w) as [p|e]; [now repeat split|].
  destruct e; now repeat split.
Qed.

Lemma registration_frame_funds (fs : list (string * string)) (db_ : FidelityDB) :
  dollarChanges (insertOrIgnoreFunds fs db_) = dollarChanges db_ /\
  exists added, funds (insertOrIgnoreFunds fs db_) = (funds db_ ++ added)%list.
Proof.
  revert db_. induction fs as [|nf fs IH]; intros db_.
  - split; [reflexivity|]. exists []. now rewrite app_nil_r.
  - rewrite insertOrIgnoreFunds_cons.
    destruct (insertOrIgnoreFund_frame (fst nf) (snd nf) db_) as [Hd [[a Ha] _]].
    destruct (IH (insertOrIgnoreFund (fst nf) (snd nf) db_)) as [Hd' [a' Ha']].
    split; [congruence|]. exists (a ++ a')%list.
    now rewrite Ha', Ha, app_assoc.
Qed.

Lemma parsed_manifest_keys (w : World) (funds_ names : dict string)
  (ids : list string) :
  parsed_manifest w = Ok (funds_, names, ids) ->
  (forall k, In k ids -> In k (map fst funds_)) /\
  (forall k, In k ids -> In k (keys names)).
Proof.
  unfold parsed_manifest. destruct (manifest w) as [lines|e]; [|discriminate].
  cbn [bind]. intros Hparse.
  destruct (parse_lines_inv (tl lines) [] [] [] funds_ names ids Hparse)
    as [[Hf [Hn _]] _].
  { repeat split; try (intros []); constructor. }
  split; intros k Hk; [now apply Hf|now apply Hn].
Qed.

Lemma gather_post_raise (w : World) (st st1 : state) (e : exception) :
  db st1 = db st -> report st1 = report st ->
  gather_post w st (Raise e, st1).
Proof.
  intros Hd Hr. exists [], []. simpl. rewrite !app_nil_r, Hd.
  repeat split; try assumption; try constructor. discriminate.
Qed.

Lemma gather_effect (w : World) (st : state) : gather_post w st (gather w st).
Proof.
  destruct (Nat.lt_ge_cases (List.length (argv w)) 2) as [Hfew|Hargc].
  { rewrite (gather_too_few_arguments w st Hfew).
    apply gather_post_raise; reflexivity. }
  destruct (parsed_manifest w) as [[[funds_ names] ids]|e] eqn:Hparse.
  2:{ replace (gather w st) with
        (@Raise (list string * dict string * string * dict (dict PyFloat.float)) e, st).
      - apply gather_post_raise; reflexivity.
      - unfold gather.
        replace (Z.of_nat (List.length (argv w)) <? MIN_POSITIONAL_ARGS) with false
          by (symmetry; apply Z.ltb_ge; unfold MIN_POSITIONAL_ARGS; lia).
        unfold parsed_manifest in Hparse.
        unfold bindM at 1. unfold lift. now rewrite Hparse. }
  destruct (FidelityScraper w) as [p|e] eqn:Hopen.
  2:{ destruct (open_session_frame w st) as [Hd [Hr _]].
      destruct (open_session w st) as [[q|e'] st1] eqn:Hrun.
      - exfalso. unfold open_session in Hrun. rewrite Hopen in Hrun.
        destruct e; discriminate.
      - rewrite (gather_open_session_raises w e' st st1);
          [now apply gather_post_raise| |exact Hrun].
        split; [exact Hargc|]. eexists. exact Hparse. }
  rewrite (gather_session_opened w funds_ names ids p st Hargc Hparse Hopen).
  unfold bindM at 1.
  destruct (fetch_all w funds_ [] st) as [[dcs|e] st1] eqn:Hfetch;
    destruct (fetch_all_frame w funds_ [] st _ _ Hfetch) as [Hd1 [Hr1 [_ [_ [_ Hk]]]]];
    [|now apply gather_post_raise].
  unfold bindM at 1.
  set (st2 := set_db (insertOrIgnoreFunds
                        (map (fun item => (snd item, fst item)) funds_) (db st1)) st1).
  assert (Hreg : forall k, In k (map fst funds_) -> registered k (db st2) = true).
  { intros k Hin. apply in_map_iff in Hin. destruct Hin as [item [<- Hitem]].
    unfold st2; simpl.
    apply (insertOrIgnoreFunds_registers _ (db st1) (snd item, fst item)).
    apply in_map_iff. now exists item. }
  destruct (registration_frame_funds
              (map (fun item => (snd item, fst item)) funds_) (db st1))
    as [Hdc [added Hadded]].
  unfold bindM at 1.
  destruct (insert_changes w dcs st2) as [r3 st3] eqn:Hins.
  destruct (insert_changes_effect w dcs st2 r3 st3 Hins)
    as [Hf3 [[new [Hnew Hall]] [_ [Hr3 _]]]].
  { intros k Hk3. apply Hreg. destruct (Hk dcs eq_refl k Hk3) as [[]|H]; exact H. }
  assert (Hfunds : funds (db st3) = (funds (db st) ++ added)%list)
    by (rewrite Hf3; unfold st2; simpl; now rewrite Hadded, Hd1).
  assert (Hchanges : dollarChanges (db st3) = (dollarChanges (db st) ++ new)%list)
    by (rewrite Hnew; unfold st2; simpl; now rewrite Hdc, Hd1).
  assert (Hreport : report st3 = report st)
    by (rewrite Hr3; unfold st2; simpl; exact Hr1).
  destruct r3 as [[]|e].
  2:{ exists added, new. simpl. repeat split; try assumption. discriminate. }
  unfold bindM at 1.
  destruct (query_all w (db st3) (keys funds_) []) as [data|e].
  2:{ exists added, new. simpl. repeat split; try assumption. discriminate. }
  exists added, new. simpl. repeat split; try assumption.
  intros v [= <-]. exists funds_, names, ids. simpl.
  split; [exact Hparse|]. do 3 (split; [reflexivity|]). intros id Hid.
  unfold registered. rewrite Hf3. apply Hreg.
  now apply (parsed_manifest_keys w funds_ names ids Hparse).
Qed.

(** However a run ends, the database it leaves is the database it
    found with rows added at the end of the two tables: nothing is
    changed or removed, and every row added to [dollarChanges] is dated
    today and holds a fund reference that is not NULL, since the funds
    are registered before the deltas are stored.  When the run got as
    far as opening the output file, every fund of the manifest is
    registered. *)
Theorem main_only_appends (fuel : nat) (w : World) (x : exception) (st : state) :
  main fuel w = Some (x, st) ->
  exists added new,
    funds (db st) = (funds (database w) ++ added)%list /\
    dollarChanges (db st) = (dollarChanges (database w) ++ new)%list /\
    Forall (stored_today w) new /\
    (report st <> None ->
     exists funds_ names ids,
       parsed_manifest w = Ok (funds_, names, ids) /\
       forall id, In id ids -> registered id (db st) = true).
Proof.
  unfold main. fold (initial_state w).
  destruct (gather_effect w (initial_state w))
    as [added [new [Hf [Hc [Hall [Hr Hok]]]]]].
  destruct (gather w (initial_state w)) as [[v|e] st1]; simpl in *.
  - destruct (Hok v eq_refl) as [funds_ [names [ids [Hparse [_ [_ [_ Hreg]]]]]]].
    assert (Hgoal : forall st', db st' = db st1 ->
              exists added0 new0,
                funds (db st') = (funds (database w) ++ added0)%list /\
                dollarChanges (db st') = (dollarChanges (database w) ++ new0)%list /\
                Forall (stored_today w) new0 /\
                (report st' <> None ->
                 exists funds0 names0 ids0,
                   parsed_manifest w = Ok (funds0, names0, ids0) /\
                   forall id, In id ids0 -> registered id (db st') = true)).
    { intros st' Hdb. exists added, new. rewrite Hdb.
      repeat split; try assumption. intros _. now exists funds_, names, ids. }
    destruct v as [[[fundIDs simplifiedNames] intervalDate] data].
    destruct (header simplifiedNames fundIDs) as [h|e].
    + destruct (write_rows fuel (TODAY w) data fundIDs intervalDate)
        as [[lines [[]|e]]|]; [| |discriminate];
        intros [= <- <-]; now apply Hgoal.
    + intros [= <- <-]. now apply Hgoal.
  - intros [= <- <-]. exists added, new. repeat split; try assumption.
    intros Hrep. now rewrite Hr in Hrep.
Qed.

Lemma main_only_appends_witness :
  exists added new,
    funds (db (mk_state db_one_fund [] None None 3)) =
    (funds (database broken_site_world) ++ added)%list /\
    dollarChanges (db (mk_state db_one_fund [] None None 3)) =
    (dollarChanges (database broken_site_world) ++ new)%list /\
    Forall (stored_today broken_site_world) new.
Proof.
  destruct (main_only_appends 0 broken_site_world WebDriverException
              (mk_state db_one_fund [] None None 3) eq_refl)
    as [added [new [Hf [Hc [Hall _]]]]].
  exists added, new. repeat split; assumption.
Defined.

Lemma minus_1_year_valid (d : Calendar.ymd) :
  Calendar.valid d -> 1001 <= Calendar.year d ->
  Calendar.valid (Calendar.minus_1_year d).
Proof.
  intros [Hy [Hm Hd]] Hmin. unfold Calendar.minus_1_year, Calendar.valid.
  pose proof (days_in_month_bounds (Calendar.year d - 1) (Calendar.month d)) as Hb.
  destruct (Calendar.day d <=? Calendar.days_in_month (Calendar.year d - 1)
                                 (Calendar.month d)) eqn:Hle.
  - apply Z.leb_le in Hle. cbn [Calendar.year Calendar.month Calendar.day]. lia.
  - apply Z.leb_gt in Hle. cbn [Calendar.year Calendar.month Calendar.day].
    unfold Calendar.days_in_month in *.
    destruct (Calendar.month d =? 2) eqn:Hfeb.
    + apply Z.eqb_eq in Hfeb. rewrite Hfeb in *.
      change (2 + 1 =? 2) with false. cbn [orb].
      change ((2 + 1 =? 4) || (2 + 1 =? 6) || (2 + 1 =? 9) || (2 + 1 =? 11))
        with false.
      destruct (Calendar.is_leap (Calendar.year d - 1));
        destruct (Calendar.is_leap (Calendar.year d)); lia.
    + destruct ((Calendar.month d =? 4) || (Calendar.month d =? 6) ||
                (Calendar.month d =? 9) || (Calendar.month d =? 11)); lia.
Qed.

End RunOutcomes.

(** ** What the cells of the report show *)

Section ReportCells.

Import Database Fidelity PyDict.

Lemma float_dict_get (temp : list (string * Z)) :
  forall (acc d : dict PyFloat.float),
    float_dict temp acc = Ok d ->
    forall day,
      (forall x, get day d = Some x ->
                 get day acc = Some x \/
                 exists v, In (day, v) temp /\ PyFloat.of_int v = Ok x) /\
      (get day d = None <->
       get day acc = None /\ ~ exists v, In (day, v) temp).
Proof.
  induction temp as [|[date_ v] rest IH]; intros acc d Hd day.
  - simpl in Hd. injection Hd as <-. split.
    + intros x Hx. now left.
    + split; [intros H; split; [exact H|intros [u []]]|now intros [H _]].
  - simpl in Hd. destruct (PyFloat.of_int v) as [x0|e] eqn:Hv; [|discriminate].
    simpl in Hd. destruct (IH _ _ Hd day) as [Hsome Hnone].
    destruct (string_dec date_ day) as [->|Hne].
    + rewrite get_set_same in Hsome, Hnone. split.
      * intros x Hx. destruct (Hsome x Hx) as [Heq|[u [Hin Hu]]].
        -- injection Heq as <-. right. exists v. split; [now left|exact Hv].
        -- right. exists u. split; [now right|exact Hu].
      * split.
        -- intros H. apply Hnone in H. destruct H as [H _]. discriminate.
        -- intros [_ H]. exfalso. apply H. exists v. now left.
    + rewrite (get_set_other _ _ _ _ Hne) in Hsome, Hnone. split.
      * intros x Hx. destruct (Hsome x Hx) as [Hacc|[u [Hin Hu]]]; [now left|].
        right. exists u. split; [now right|exact Hu].
      * rewrite Hnone. split; intros [Hacc Hno]; (split; [exact Hacc|]).
        -- intros [u [Heq|Hin]]; [congruence|]. apply Hno. now exists u.
        -- intros [u Hin]. apply Hno. exists u. now right.
Qed.

Lemma query_all_get (w : World) (db_ : FidelityDB) (lookupIDs : list string) :
  forall (data0 data : dict (dict PyFloat.float)),
    query_all w db_ lookupIDs data0 = Ok data ->
    forall lookupID,
      (In lookupID lookupIDs ->
       exists d,
         float_dict (getDollarChangesIntervalToDateByFund (utc_today w)
                       INTERVAL_RANGE lookupID db_) [] = Ok d /\
         get lookupID data = Some d) /\
      (~ In lookupID lookupIDs -> get lookupID data = get lookupID data0).
Proof.
  induction lookupIDs as [|a rest IH]; intros data0 data Hq lookupID.
  - simpl in Hq. injection Hq as <-. split; [intros []|reflexivity].
  - simpl in Hq.
    destruct (float_dict (getDollarChangesIntervalToDateByFund (utc_today w)
                            INTERVAL_RANGE a db_) []) as [da|e] eqn:Ha;
      [|discriminate].
    simpl in Hq. destruct (IH _ _ Hq lookupID) as [Hin Hout].
    destruct (in_dec string_dec lookupID rest) as [Hrest|Hrest].
    + split; [intros _; now apply Hin|]. intros Hno. exfalso. apply Hno. now right.
    + rewrite (Hout Hrest). split.
      * intros [->|H]; [|contradiction]. exists da. split; [exact Ha|].
        apply get_set_same.
      * intros Hno. apply get_set_other. intros ->. apply Hno. now left.
Qed.

(** The data of the report against the range queries it was built
    from.  The cell of a fund and a day is blank exactly when the fund is
    not in the manifest or its range query returned no record of that
    day; a cell that is not blank shows one of the deltas the query
    returned for that day, converted to [float], divided by the
    multiplier and printed by [repr]. *)
Theorem report_cells_show_records (w : World) (db_ : FidelityDB)
  (lookupIDs : list string) (data : dict (dict PyFloat.float)) :
  query_all w db_ lookupIDs [] = Ok data ->
  forall lookupID day,
    let records :=
      getDollarChangesIntervalToDateByFund (utc_today w) INTERVAL_RANGE
        lookupID db_ in
    (cell data day lookupID = None <->
     ~ In lookupID lookupIDs \/ ~ exists v, In (day, v) records) /\
    (forall text,
        cell data day lookupID = Some text ->
        exists v x,
          In (day, v) records /\ PyFloat.of_int v = Ok x /\
          text = PyFloat.repr (PyFloat.div x multiplier)).
Proof.
  intros Hq lookupID day records.
  destruct (query_all_get w db_ lookupIDs [] data Hq lookupID) as [Hin Hout].
  unfold cell.
  destruct (in_dec string_dec lookupID lookupIDs) as [Hmem|Hmem].
  - destruct (Hin Hmem) as [d [Hd ->]].
    destruct (float_dict_get _ _ _ Hd day) as [Hsome Hnone]. fold records in Hsome, Hnone.
    destruct (get day d) as [x|] eqn:Hx.
    + split.
      * split; [discriminate|]. intros [Hno|Hno]; [contradiction|].
        destruct (Hsome x eq_refl) as [Hacc|[v [Hv _]]]; [discriminate|].
        exfalso. apply Hno. now exists v.
      * intros text Htext. injection Htext as <-.
        destruct (Hsome x eq_refl) as [Hacc|[v [Hv Hconv]]]; [discriminate|].
        now exists v, x.
    + split; [|discriminate]. split; [|reflexivity]. intros _. right.
      now apply Hnone.
  - rewrite (Hout Hmem). simpl. split; [|discriminate].
    split; [intros _; now left|reflexivity].
Qed.

Lemma report_cells_show_records_witness :
  query_all flaky_world db_two_days ["FBAL"] [] =
  Ok [("FBAL", [("2021-09-02", S754_finite false 8655355533852672 (-46))])] /\
  (cell [("FBAL", [("2021-09-02", S754_finite false 8655355533852672 (-46))])]
     "2019-01-02" "FBAL" = None <->
   ~ In "FBAL" ["FBAL"] \/
   ~ exists v,
       In ("2019-01-02", v)
          (getDollarChangesIntervalToDateByFund (utc_today flaky_world)
             INTERVAL_RANGE "FBAL" db_two_days)).
Proof.
  split; [vm_compute; reflexivity|].
  exact (proj1 (report_cells_show_records flaky_world db_two_days ["FBAL"]
                  [("FBAL", [("2021-09-02", S754_finite false 8655355533852672 (-46))])]
                  ltac:(vm_compute; reflexivity) "FBAL" "2019-01-02")).
Defined.

End ReportCells.

(** ** How far the scaling is from exact *)

Section ScalingError.

Import Fidelity.

Lemma scaled_near (neg : bool) (n : Z) :
  near neg n = true ->
  exists v, scaled (fixed_text neg n) = Ok v /\
            (Z.abs v = n \/ Z.abs v = n - 1) /\
            (if neg then v <= 0 else 0 <= v).
Proof.
  unfold near. destruct (scaled (fixed_text neg n)) as [v|e]; [|discriminate].
  intros H. exists v. split; [reflexivity|].
  apply andb_true_iff in H. destruct H as [H Hpos].
  apply orb_true_iff in H. apply Z.leb_le in Hpos.
  rewrite !Z.eqb_eq in H. destruct neg; lia.
Qed.

Lemma near_below_0_2 (neg : bool) :
  forallb (fun i => near neg (Z.of_nat i)) (seq 0 (Z.to_nat 2000)) = true.
Proof. destruct neg; vm_compute; reflexivity. Qed.

(** For every displayed delta below 0.2 in absolute value with four
    decimal digits, from [0.0000] to [0.1999] and from [-0.0000] to
    [-0.1999], [int(float(text) * 10000)] does not raise and
    returns the exact number of ten-thousandths or the one next to it
    towards zero: the result is never off by more than one unit, never
    larger in absolute value than the exact one, and never of the other
    sign. *)
Theorem scaled_error_bound (neg : bool) (n : Z) :
  0 <= n < 2000 ->
  exists v, scaled (fixed_text neg n) = Ok v /\
            (Z.abs v = n \/ Z.abs v = n - 1) /\
            (if neg then v <= 0 else 0 <= v).
Proof.
  intros Hn. apply scaled_near.
  pose proof (near_below_0_2 neg) as Hall. rewrite forallb_forall in Hall.
  specialize (Hall (Z.to_nat n)). rewrite Z2Nat.id in Hall by lia.
  apply Hall. apply in_seq. lia.
Qed.

Lemma scaled_error_bound_witness :
  exists v, scaled "-0.0003" = Ok v /\
            (Z.abs v = 3 \/ Z.abs v = 3 - 1) /\ v <= 0.
Proof.
  exact (scaled_error_bound true 3 ltac:(lia)).
Defined.

End ScalingError.

(** ** What the range query returns *)

Section RangeQuery.

Import Calendar Database.

Lemma unregistered_select (c : string) (db : FidelityDB) :
  registered c db = false -> select_fundID c db = None.
Proof.
  unfold registered, select_fundID. induction (funds db) as [|r rs IH]; simpl;
    [reflexivity|].
  destruct (String.eqb (fundLookup r) c); simpl; [discriminate|exact IH].
Qed.

(** The range query returns nothing for a lookup code that is not
    registered.  For a registered code it returns exactly the stored
    rows of that fund whose date lies in the window: every pair returned
    is the date and delta of such a row, every such row is returned, and
    rows are neither merged nor dropped, so a day stored twice comes back
    twice. *)
Theorem range_query_exact (utc_today : ymd) (interval c : string)
  (db : FidelityDB) :
  let records := getDollarChangesIntervalToDateByFund utc_today interval c db in
  (registered c db = false -> records = []) /\
  (forall fid,
      select_fundID c db = Some fid ->
      (forall d v,
          In (d, v) records <->
          exists r, In r (dollarChanges db) /\ date r = d /\ dollarChange r = v /\
                    change_fundID r = Some fid /\ in_window utc_today d) /\
      List.length records =
      List.length (filter (fun r => match change_fundID r with
                                    | Some f => f =? fid
                                    | None => false
                                    end)
                     (filter (fun r => String.leb (iso (minus_1_year utc_today))
                                         (date r) &&
                                       String.leb (date r) (iso utc_today))
                        (dollarChanges db)))).
Proof.
  intros records. split.
  - intros Hreg. unfold records, getDollarChangesIntervalToDateByFund.
    now rewrite (unregistered_select _ _ Hreg).
  - intros fid Hsel. split.
    + intros d v. now apply range_query_In.
    + unfold records, getDollarChangesIntervalToDateByFund. rewrite Hsel.
      rewrite <- (Permutation_length (DateSort.Permuted_sort _)).
      rewrite length_map. f_equal.
      induction (dollarChanges db) as [|r rs IH]; simpl; [reflexivity|].
      unfold in_range at 1.
      destruct (String.leb (iso (minus_1_year utc_today)) (date r) &&
                String.leb (date r) (iso utc_today)) eqn:Hw; simpl.
      * rewrite <- andb_assoc, Hw, andb_true_r.
        destruct (match change_fundID r with
                  | Some f => f =? fid
                  | None => false
                  end); simpl; now rewrite IH.
      * rewrite <- andb_assoc, Hw, andb_false_r. exact IH.
Qed.

End RangeQuery.

(** ** The report of a run *)

Section RunReport.

Import Calendar Database Fidelity PyDict.

Lemma write_rows_mono (today : string) (data : dict (dict PyFloat.float))
  (fundIDs : list string) :
  forall (fuel : nat) (cur : string) (r : list string * result unit),
    write_rows fuel today data fundIDs cur = Some r ->
    forall fuel', (fuel <= fuel')%nat ->
                  write_rows fuel' today data fundIDs cur = Some r.
Proof.
  induction fuel as [|fuel IH]; intros cur r H fuel' Hle; [discriminate|].
  destruct fuel' as [|fuel']; [lia|].
  rewrite write_rows_S in H. rewrite write_rows_S.
  destruct (String.leb cur today); [|exact H].
  destruct (incrementDate cur) as [next|e]; [|exact H].
  destruct (write_rows fuel today data fundIDs next) as [[lines r0]|] eqn:Hrec;
    [|discriminate].
  now rewrite (IH next (lines, r0) Hrec fuel' ltac:(lia)).
Qed.

(** What the part of [main] before the output file hands over when it
    succeeds: the names and the order of the manifest, the first day of
    the window and the answers of the range queries on the database the
    run leaves. *)
Lemma gather_data (w : World) (st st1 : state) (ids : list string)
  (names : dict string) (lo : string) (data : dict (dict PyFloat.float)) :
  gather w st = (Ok (ids, names, lo, data), st1) ->
  exists funds_,
    parsed_manifest w = Ok (funds_, names, ids) /\
    lo = getIntervalToDate (utc_today w) INTERVAL_RANGE /\
    query_all w (db st1) (keys funds_) [] = Ok data.
Proof.
  intros Hg.
  destruct (Nat.lt_ge_cases (List.length (argv w)) 2) as [Hfew|Hargc].
  { rewrite (gather_too_few_arguments w st Hfew) in Hg. discriminate. }
  destruct (parsed_manifest w) as [[[funds_ names'] ids']|e] eqn:Hparse.
  2:{ exfalso. unfold gather in Hg.
      replace (Z.of_nat (List.length (argv w)) <? MIN_POSITIONAL_ARGS) with false
        in Hg by (symmetry; apply Z.ltb_ge; unfold MIN_POSITIONAL_ARGS; lia).
      unfold parsed_manifest in Hparse.
      unfold bindM at 1 in Hg. unfold lift in Hg. rewrite Hparse in Hg.
      discriminate. }
  destruct (FidelityScraper w) as [p|e] eqn:Hopen.
  2:{ exfalso. destruct (open_session w st) as [[q|e'] st0] eqn:Hrun.
      - unfold open_session in Hrun. rewrite Hopen in Hrun.
        destruct e; discriminate.
      - rewrite (gather_open_session_raises w e' st st0) in Hg;
          [discriminate| |exact Hrun].
        split; [exact Hargc|]. eexists. exact Hparse. }
  rewrite (gather_session_opened w funds_ names' ids' p st Hargc Hparse Hopen) in Hg.
  unfold bindM at 1 in Hg.
  destruct (fetch_all w funds_ [] st) as [[dcs|e] s1]; [|discriminate].
  unfold bindM at 1 in Hg.
  unfold bindM at 1 in Hg.
  destruct (insert_changes w dcs _) as [[[]|e] s3]; [|discriminate].
  unfold bindM at 1 in Hg.
  destruct (query_all w (db s3) (keys funds_) []) as [data'|e] eqn:Hq;
    [|discriminate].
  unfold ret in Hg. injection Hg as <- <- <- <- <-.
  exists funds_. now repeat split.
Qed.

(** The range query returns a pair exactly when the table holds it. *)
Lemma stored_iff (w : World) (db_ : FidelityDB) (lookupID day : string) (v : Z) :
  In (day, v)
     (getDollarChangesIntervalToDateByFund (utc_today w) INTERVAL_RANGE
        lookupID db_) <->
  stored w db_ lookupID day v.
Proof.
  unfold stored.
  destruct (select_fundID lookupID db_) as [fid|] eqn:Hsel.
  - rewrite (range_query_In _ _ _ _ fid day v Hsel). split.
    + intros [r [Hr [Hd [Hv [Hf Hw]]]]]. exists fid, r.
      split; [reflexivity|]. split; [exact Hr|]. split; [exact Hd|].
      split; [exact Hv|]. split; [exact Hf|exact Hw].
    + intros [fid' [r [[= <-] [Hr [Hd [Hv [Hf Hw]]]]]]]. exists r.
      split; [exact Hr|]. split; [exact Hd|]. split; [exact Hv|].
      split; [exact Hf|exact Hw].
  - unfold getDollarChangesIntervalToDateByFund. rewrite Hsel. split.
    + intros [].
    + intros [fid [r [Hfid _]]]. discriminate.
Qed.

Lemma cell_of_query (w : World) (db_ : FidelityDB) (lookupIDs : list string)
  (data : dict (dict PyFloat.float)) :
  query_all w db_ lookupIDs [] = Ok data ->
  forall day lookupID,
    In lookupID lookupIDs ->
    (cell data day lookupID = None <->
     ~ exists v, stored w db_ lookupID day v) /\
    (forall text,
        cell data day lookupID = Some text ->
        exists v x,
          stored w db_ lookupID day v /\ PyFloat.of_int v = Ok x /\
          text = PyFloat.repr (PyFloat.div x multiplier)).
Proof.
  intros Hq day lookupID Hmem.
  destruct (query_all_get w db_ lookupIDs [] data Hq lookupID) as [Hin _].
  destruct (Hin Hmem) as [d [Hd Hget]]. unfold cell. rewrite Hget.
  destruct (float_dict_get _ _ _ Hd day) as [Hsome Hnone].
  destruct (get day d) as [x|] eqn:Hx.
  - destruct (Hsome x eq_refl) as [Hacc|[v [Hv Hconv]]]; [discriminate|].
    apply stored_iff in Hv. split.
    + split; [discriminate|]. intros Hno. exfalso. apply Hno. now exists v.
    + intros text [= <-]. now exists v, x.
  - split; [|discriminate]. split; [|reflexivity]. intros _ [v Hv].
    apply stored_iff in Hv. destruct (proj1 Hnone eq_refl) as [_ Hno].
    apply Hno. now exists v.
Qed.

(** C9, as amended.  Take a run of [main] that wrote its output file
    and ended in [sys.exit(0)], on a day when SQLite's current date is a
    valid date of year 1001 or later and [TODAY] is the text of a valid
    date of a year up to 9998.  The file holds the header, built from
    the names of the manifest in manifest order, and then the lines of a
    run of successive days that begins at [date("now", "-1 year")]; a
    valid day is among them exactly when it lies between that date and
    [TODAY].  A day has a line exactly when the table holds, for some
    fund of the manifest, a delta of that fund for that day inside the
    window of the range query; the line is the date followed by one cell
    per fund, in manifest order.  A cell is blank exactly when the table
    holds no such delta for its fund and day, and a cell that is not
    blank prints one of them. *)
Theorem report_rows_are_days_with_data (fuel : nat) (w : World) (t : ymd)
  (st : state) :
  valid (utc_today w) -> 1001 <= year (utc_today w) ->
  valid t -> year t <= 9998 -> TODAY w = iso t ->
  main fuel w = Some (SystemExit 0, st) -> report st <> None ->
  let lo := minus_1_year (utc_today w) in
  exists funds_ names ids h data k,
    parsed_manifest w = Ok (funds_, names, ids) /\
    header names ids = Ok h /\
    report st =
    Some (outputFile w, h :: flat_map (lines_of data ids) (days_from k lo)) /\
    Forall valid (days_from k lo) /\
    (forall d, valid d ->
               (In d (days_from k lo) <->
                String.leb (iso lo) (iso d) = true /\
                String.leb (iso d) (TODAY w) = true)) /\
    (forall d line,
        In line (lines_of data ids d) <->
        (exists lookupID v,
            In lookupID ids /\ stored w (db st) lookupID (iso d) v) /\
        line = iso d ++ "," ++
               PyStr.join "," (map (fun lookupID =>
                                      text_of (cell data (iso d) lookupID))
                                 ids) ++ nl) /\
    (forall day lookupID,
        In lookupID ids ->
        (cell data day lookupID = None <->
         ~ exists v, stored w (db st) lookupID day v) /\
        (forall text,
            cell data day lookupID = Some text ->
            exists v x,
              stored w (db st) lookupID day v /\ PyFloat.of_int v = Ok x /\
              text = PyFloat.repr (PyFloat.div x multiplier))).
Proof.
  intros Hutc Hmin Ht Hlast Htoday Hmain Hreport lo.
  unfold main in Hmain. fold (initial_state w) in Hmain.
  pose proof (gather_effect w (initial_state w)) as [_ [_ [_ [_ [_ [Hrep _]]]]]].
  destruct (gather w (initial_state w)) as [[v|e] st1] eqn:Hg.
  2:{ exfalso. injection Hmain as _ <-. apply Hreport. exact Hrep. }
  destruct v as [[[fundIDs simplifiedNames] intervalDate] data].
  destruct (gather_data w _ _ _ _ _ _ Hg) as [funds_ [Hparse [Hlo Hq]]].
  destruct (parsed_manifest_keys w funds_ simplifiedNames fundIDs Hparse)
    as [Hkeys Hnames].
  destruct (header_names_succeeds simplifiedNames fundIDs Hnames) as [ns [Hns _]].
  pose proof (minus_1_year_valid (utc_today w) Hutc Hmin) as Hlov. fold lo in Hlov.
  destruct (write_rows_days data fundIDs t
              (Z.to_nat (ord t - ord lo + 1)) Ht Hlast lo Hlov ltac:(lia))
    as [k [Hrun [Hvalid Hdays]]].
  assert (Hrows : write_rows fuel (TODAY w) data fundIDs intervalDate =
                  Some (flat_map (lines_of data fundIDs) (days_from k lo), Ok tt)).
  { subst intervalDate. unfold getIntervalToDate. fold lo. rewrite Htoday.
    destruct (write_rows fuel (iso t) data fundIDs (iso lo)) as [r|] eqn:Hfuel.
    - pose proof (write_rows_mono _ _ _ _ _ _ Hfuel
                    (Nat.max fuel (S (Z.to_nat (ord t - ord lo + 1))))
                    (Nat.le_max_l _ _)) as H1.
      pose proof (write_rows_mono _ _ _ _ _ _ Hrun
                    (Nat.max fuel (S (Z.to_nat (ord t - ord lo + 1))))
                    (Nat.le_max_r _ _)) as H2.
      congruence.
    - exfalso. unfold header in Hmain. rewrite Hns in Hmain. cbn [bind] in Hmain.
      unfold getIntervalToDate in Hmain. fold lo in Hmain.
      rewrite Htoday, Hfuel in Hmain. discriminate. }
  unfold header in Hmain. rewrite Hns in Hmain. cbn [bind] in Hmain.
  rewrite Hrows in Hmain. injection Hmain as <-.
  exists funds_, simplifiedNames, fundIDs,
    ("Date," ++ PyStr.join "," ns ++ nl), data, k.
  split; [exact Hparse|].
  split; [unfold header; now rewrite Hns|].
  split; [reflexivity|]. split; [exact Hvalid|]. split.
  { intros d Hd. rewrite (Hdays d Hd), Htoday.
    rewrite (iso_leb lo d Hlov Hd), (iso_leb d t Hd Ht), !Z.leb_le. tauto. }
  assert (Hcells : forall day lookupID,
             In lookupID fundIDs ->
             (cell data day lookupID = None <->
              ~ exists v, stored w (db st1) lookupID day v) /\
             (forall text,
                 cell data day lookupID = Some text ->
                 exists v x,
                   stored w (db st1) lookupID day v /\ PyFloat.of_int v = Ok x /\
                   text = PyFloat.repr (PyFloat.div x multiplier))).
  { intros day lookupID Hid.
    apply (cell_of_query w (db st1) (keys funds_) data Hq).
    now apply Hkeys. }
  split; [|exact Hcells].
  intros d line. unfold lines_of, lines_of_text.
  assert (Hrow : In line match row data fundIDs (iso d) with
                         | Some l => [l]
                         | None => []
                         end <-> row data fundIDs (iso d) = Some line).
  { destruct (row data fundIDs (iso d)) as [l|]; simpl.
    - split; [intros [->|[]]; reflexivity|intros [= ->]; now left].
    - split; [intros []|discriminate]. }
  rewrite Hrow, row_spec. split.
  - intros [[id [Hid Hc]] Hline]. split; [|exact Hline].
    destruct (cell data (iso d) id) as [text|] eqn:Hcell; [|contradiction].
    destruct (proj2 (Hcells (iso d) id Hid) text Hcell) as [v [x [Hv _]]].
    now exists id, v.
  - intros [[id [v [Hid Hv]]] Hline]. split; [|exact Hline].
    exists id. split; [exact Hid|]. intros Hnone.
    apply (proj1 (Hcells (iso d) id Hid)) in Hnone. apply Hnone. now exists v.
Qed.

Lemma report_rows_are_days_with_data_witness :
  exists st lines,
    main 400 two_funds_world = Some (SystemExit 0, st) /\
    report st = Some (outputFile two_funds_world, lines) /\
    exists data k,
      lines = ("Date,Balanced,Fidelity B" ++ nl) ::
              flat_map (lines_of data ["FBAL"; "FGRO"])
                (days_from k (mk_ymd 2020 9 3)).
Proof.
  assert (Hrun : exists st, main 400 two_funds_world = Some (SystemExit 0, st) /\
                            report st <> None).
  { eexists. split; [vm_compute; reflexivity|discriminate]. }
  destruct Hrun as [st [Hmain Hrep]].
  destruct (report_rows_are_days_with_data 400 two_funds_world third_of_september st
              ltac:(repeat split; vm_compute; discriminate)
              ltac:(vm_compute; discriminate)
              valid_third_of_september
              ltac:(vm_compute; discriminate) eq_refl Hmain Hrep)
    as [funds_ [names [ids [h [data [k [Hparse [Hh [Hreport _]]]]]]]]].
  vm_compute in Hparse. injection Hparse as <- <- <-.
  vm_compute in Hh. injection Hh as <-.
  exists st. eexists. split; [exact Hmain|]. split; [exact Hreport|].
  exists data, k. reflexivity.
Defined.

End RunReport.
